(** * wnfs-go, package [private]: the encrypted tree layer

    A shallow embedding of [private/private.go]: the three node kinds
    ([Tree], [File], [DataFile]), their [Put] pipelines, the path
    operations of [Tree] ([Get], [Rm], [Mkdir], [ReadDir]), [history] and
    [NewEmptyRoot], followed by the properties the specification states
    about them.

    Conventions of the embedding.
    - Go's [int64] and [uint32] are [Z] with the wrap-around written out
      ([wrap64], [uint32]); [int] (the argument of [ReadDir]) is [Z].
    - Byte arrays ([Key], [INumber], nonces) are [list byte].
    - A method with a pointer receiver that mutates it returns the updated
      receiver next to its result.
    - The store behind a node ([Store]: block service, HAMT, ratchet store),
      the random source and the clock are one explicit [World] threaded
      through a state-and-error monad [M]; a Go [panic] is the outcome
      [Panic].
    - A nil pointer or nil map is [None]; dereferencing it panics.
    - CBOR and the AEAD are symbolic: a ciphertext records the key, the
      nonce and the plaintext it seals, and opens under that key only;
      a block holds the decoded envelope.
    - Packages that are not part of [private.go] ([ratchet], the name
      filter, [multihash], the ratchet store) are the fields of the class
      [Externals]. *)

From Stdlib Require Import ZArith String Ascii List Lia Sorted Permutation.
From Stdlib.Strings Require Import Byte.
From stdpp Require Import base option gmap strings list fin_maps sorting.

Local Open Scope Z_scope.

Set Warnings "-register-all".

(** ** Machine integers *)

Definition wrap64 (z : Z) : Z := (z + 2 ^ 63) mod 2 ^ 64 - 2 ^ 63.
Definition add64 (a b : Z) : Z := wrap64 (a + b).
Definition uint32 (z : Z) : Z := z mod 2 ^ 32.

(** ** Bytes *)

Abbreviation byte := Byte.byte.

#[global] Instance byte_eq_dec : EqDecision byte := Byte.byte_eq_dec.

Definition byte_of_N (n : N) : byte :=
  match Byte.of_N (n mod 256) with Some b => b | None => x00 end.

Definition Key := list byte.
Definition INumber := list byte.
Definition BareNamefilter := list byte.
Definition KeyedNamefilter := list byte.
Definition Name := string.

#[global] Instance Key_eq_dec : EqDecision Key := list_eq_dec.

Definition EmptyKey : Key := replicate 32 x00.

Definition Key_IsEmpty (k : Key) : bool := bool_decide (k = EmptyKey).

(** ** Errors *)

Inductive Error :=
| ErrNotFound                         (* base.ErrNotFound *)
| ErrNew (msg : string)               (* errors.New / fmt.Errorf without %w *)
| ErrWrap (msg : string) (e : Error)  (* fmt.Errorf("...: %w", err) *)
| ErrIO (what : string).              (* an error of a backend or of the random source *)

(** ** Content identifiers *)

Inductive Codec := Raw | DagCBOR.

Inductive Cid :=
| CidUndef
| CidV1 (codec : Codec) (digest : N).

#[global] Instance Codec_eq_dec : EqDecision Codec.
Proof. solve_decision. Defined.

#[global] Instance Cid_eq_dec : EqDecision Cid.
Proof. solve_decision. Defined.

Definition Cid_to_sum (c : Cid) : option (bool * N) :=
  match c with
  | CidUndef => None
  | CidV1 Raw d => Some (false, d)
  | CidV1 DagCBOR d => Some (true, d)
  end.

Definition Cid_of_sum (o : option (bool * N)) : Cid :=
  match o with
  | None => CidUndef
  | Some (false, d) => CidV1 Raw d
  | Some (true, d) => CidV1 DagCBOR d
  end.

#[global] Instance Cid_countable : Countable Cid.
Proof.
  refine (inj_countable' Cid_to_sum Cid_of_sum _).
  intros [|[] d]; reflexivity.
Defined.

(** ** Node types, [base.NodeType] *)

Inductive NodeType :=
| NTFile
| NTDataFile
| NTDir
| NTOther (tag : N).

#[global] Instance NodeType_eq_dec : EqDecision NodeType.
Proof. solve_decision. Defined.

(** ** The spiral ratchet *)

(** Modelled from the spec: the state of [ratchet.Spiral], three registers
    and two byte counters (section 3, "Spiral Ratchet"). *)
Record Spiral := mkSpiral {
  large : list byte;
  medium : list byte;
  small : list byte;
  mediumCounter : N;
  smallCounter : N
}.

(** Modelled from the spec: [Encode] and [DecodeSpiral] of [ratchet.Spiral],
    "a canonical byte form: counters then registers, fixed length" (4.A).
    The text form of the bytes is not modelled. *)
Definition Spiral_Encode (r : Spiral) : string :=
  string_of_list_byte
    (byte_of_N (mediumCounter r) :: byte_of_N (smallCounter r)
       :: large r ++ medium r ++ small r).

Definition DecodeSpiral (s : string) : Error + Spiral :=
  match list_byte_of_string s with
  | cm :: cs :: regs =>
      if decide (length regs = 96%nat) then
        inr {| large := take 32 regs;
               medium := take 32 (drop 32 regs);
               small := drop 64 regs;
               mediumCounter := Byte.to_N cm;
               smallCounter := Byte.to_N cs |}
      else inl (ErrNew "decoding spiral: wrong length")
  | _ => inl (ErrNew "decoding spiral: wrong length")
  end.

(** ** Links *)

(** [PrivateLink] with the embedded [base.Link] flattened. *)
Record PrivateLink := mkPrivateLink {
  link_Name : string;
  link_Size : Z;
  link_IsFile : bool;
  link_Cid : Cid;
  link_Key : Key;
  link_Pointer : Name
}.

#[global] Instance PrivateLink_inhabited : Inhabited PrivateLink :=
  populate (mkPrivateLink "" 0 false CidUndef [] "").

(** [PrivateLinks] is a Go map; [None] is the nil map. *)
Abbreviation PrivateLinks := (option (gmap string PrivateLink)).

(** ** Headers *)

Record HeaderInfo := mkHeaderInfo {
  hi_WNFS : string;
  hi_Type : NodeType;
  hi_Mode : Z;     (* uint32 *)
  hi_Ctime : Z;    (* int64 *)
  hi_Mtime : Z;    (* int64 *)
  hi_Size : Z;     (* int64 *)
  hi_INumber : INumber;
  hi_BareNamefilter : BareNamefilter;
  hi_Ratchet : string
}.

(** The values a [DataFile] can hold ([interface{}] restricted to what
    CBOR carries). *)
Inductive Value :=
| VNull
| VBool (b : bool)
| VUint (n : N)
| VText (s : string)
| VArray (vs : list Value).

Record Header := mkHeader {
  h_Info : HeaderInfo;
  h_Metadata : Cid;
  h_ContentID : Cid;
  h_Value : option Value
}.

(** ** Blocks *)

Inductive Plain :=
| PInfo (hi : HeaderInfo)
| PLinks (ls : PrivateLinks)
| PValue (v : Value)
| PBytes (bs : list byte).

(** [nonce ++ aead.Seal(nil, nonce, plaintext, nil)], kept symbolic. *)
Record Cipher := mkCipher {
  c_key : Key;
  c_nonce : list byte;
  c_plain : Plain
}.

(** The CBOR map of a node block: each key may be absent. *)
Record Envelope := mkEnvelope {
  env_info : option Cipher;
  env_content : option Cid;
  env_metadata : option Cid;
  env_value : option Cipher
}.

Inductive BlockData :=
| BEnvelope (e : Envelope)   (* an IPLD-CBOR node *)
| BRaw (c : Cipher).         (* a raw block: link table or file bytes *)

Record Block := mkBlock {
  blk_Cid : Cid;
  blk_RawData : BlockData
}.

(** ** Nodes *)

Record Tree := mkTree {
  t_name : string;
  t_cid : Cid;
  t_header : Header;
  t_ratchet : option Spiral;
  t_links : PrivateLinks
}.

Record File := mkFile {
  f_name : string;
  f_cid : Cid;
  f_header : Header;
  f_ratchet : option Spiral;
  f_content : option (list byte)
}.

Record DataFile := mkDataFile {
  d_name : string;
  d_cid : Cid;
  d_ratchet : option Spiral;
  d_header : Header;
  d_Metadata : option Cid;
  d_content : Value;
  d_jsonContent : option (list byte)
}.

(** What [LoadNode] returns: a [privateNode]. *)
Inductive Node :=
| NTree (t : Tree)
| NFile (f : File)
| NData (d : DataFile).

(** [PutResult] with the embedded [public.PutResult] flattened. *)
Record PutResult := mkPutResult {
  pr_Cid : Cid;
  pr_Size : Z;
  pr_Type : NodeType;
  pr_Userland : Cid;
  pr_Key : Key;
  pr_Pointer : Name
}.

Record HistoryEntry := mkHistoryEntry {
  he_Cid : Cid;
  he_Size : Z;
  he_Type : NodeType;
  he_Mtime : Z;
  he_Key : string;
  he_PrivateName : string
}.

Record DirEntry := mkDirEntry {
  de_Name : string;
  de_IsFile : bool
}.

(** What a caller hands to [Add] and [Update] as [fs.File]: a byte stream,
    or a [base.LinkedDataFile] whose [Data()] gives a value or an error. *)
Inductive FsFile :=
| SrcBytes (bs : list byte)
| SrcData (d : Error + Value).

(** ** Packages outside [private.go] *)

Class Externals := {
  (* package ratchet *)
  ratchet_Inc : Spiral → Spiral;
  ratchet_Key : Spiral → Key;
  ratchet_Previous : Spiral → Spiral → Z → Error + list Spiral;
  (* the name filter *)
  IdentityBareNamefilter : BareNamefilter;
  NewBareNamefilter : BareNamefilter → INumber → Error + BareNamefilter;
  AddKey : BareNamefilter → Key → Error + KeyedNamefilter;
  ToName : KeyedNamefilter → Error + Name;
  (* multihash.Sum with base.DefaultMultihashType *)
  multihash_Sum : BlockData → N;
  (* encoding/base64 *)
  base64_EncodeToString : list byte → string;
  (* constants of package base *)
  LatestVersion : string;
  ModeDefault : Z;
  NodeType_zero : NodeType;   (* the NodeType whose value is 0 *)
  (* the ratchet store *)
  RatchetStore : Type;
  rs_PutRatchet : string → Spiral → RatchetStore → Error + (option Spiral * RatchetStore);
  rs_OldestKnownRatchet : string → RatchetStore → Error + option Spiral;
  rs_Flush : RatchetStore → Error + RatchetStore
}.

(** ** The world, outcomes and the monad *)

Section Model.

Context {X : Externals}.

(** The [Store] of a node and what the code reads from its environment. *)
Record World := mkWorld {
  blocks : gmap Cid BlockData;   (* Blockservice / Blockstore *)
  hamt : gmap string Cid;        (* HAMT: private name to header cid *)
  rstore : RatchetStore;
  entropy : list byte;           (* what crypto/rand will deliver *)
  clock : Z;                     (* base.Timestamp().Unix() *)
  blockstoreDown : bool;         (* the block store answers with an error *)
  hamtDown : bool                (* the HAMT answers with an error *)
}.

Definition set_entropy (e : list byte) (w : World) : World :=
  mkWorld (blocks w) (hamt w) (rstore w) e (clock w) (blockstoreDown w) (hamtDown w).
Definition set_blocks (b : gmap Cid BlockData) (w : World) : World :=
  mkWorld b (hamt w) (rstore w) (entropy w) (clock w) (blockstoreDown w) (hamtDown w).
Definition set_hamt (h : gmap string Cid) (w : World) : World :=
  mkWorld (blocks w) h (rstore w) (entropy w) (clock w) (blockstoreDown w) (hamtDown w).
Definition set_rstore (rs : RatchetStore) (w : World) : World :=
  mkWorld (blocks w) (hamt w) rs (entropy w) (clock w) (blockstoreDown w) (hamtDown w).

Inductive Outcome (A : Type) :=
| Ok (a : A) (w : World)
| Err (e : Error) (w : World)
| Panic.

#[global] Arguments Ok {A} a w.
#[global] Arguments Err {A} e w.
#[global] Arguments Panic {A}.

Definition M (A : Type) : Type := World → Outcome A.

Definition ret {A} (a : A) : M A := λ w, Ok a w.

Definition bind {A B} (m : M A) (k : A → M B) : M B :=
  λ w, match m w with
       | Ok a w' => k a w'
       | Err e w' => Err e w'
       | Panic => Panic
       end.

Definition fail {A} (e : Error) : M A := λ w, Err e w.

Definition panic {A} : M A := λ _, Panic.

Definition lift {A} (r : Error + A) : M A :=
  match r with inl e => fail e | inr a => ret a end.

(** [x, err := m; if err != nil { return fmt.Errorf(msg, err) }] *)
Definition wrapErr {A} (msg : string) (m : M A) : M A :=
  λ w, match m w with
       | Err e w' => Err (ErrWrap msg e) w'
       | o => o
       end.

(** Dereference of a pointer that may be nil. *)
Definition deref {A} (p : option A) : M A :=
  match p with Some a => ret a | None => panic end.

End Model.

Declare Scope go_scope.
Delimit Scope go_scope with go.

Notation "'let*' x ':=' c1 'in' c2" := (bind c1 (λ x, c2))
  (at level 10, x name, c1 at level 100, c2 at level 200) : go_scope.
Notation "'let*' ' pat ':=' c1 'in' c2" :=
  (bind c1 (λ x, match x with pat => c2 end))
  (at level 10, pat pattern, c1 at level 100, c2 at level 200) : go_scope.

Local Open Scope go_scope.

Section Code.

Context {X : Externals}.

(** ** The environment *)

(** [rand.Read(buf)] for a buffer of [n] bytes. *)
Definition rand_Read (n : nat) : M (list byte) :=
  λ w, if decide (n ≤ length (entropy w))%nat
       then Ok (take n (entropy w)) (set_entropy (drop n (entropy w)) w)
       else Err (ErrIO "rand.Read") w.

Definition Timestamp : M Z := λ w, Ok (clock w) w.

Definition GetBlock (id : Cid) : M Block :=
  λ w, if blockstoreDown w then Err (ErrIO "blockstore") w
       else match blocks w !! id with
            | Some d => Ok (mkBlock id d) w
            | None => Err ErrNotFound w
            end.

Definition Blockstore_Put (b : Block) : M unit :=
  λ w, if blockstoreDown w then Err (ErrIO "blockstore") w
       else Ok tt (set_blocks (<[blk_Cid b := blk_RawData b]> (blocks w)) w).

Definition Blockstore_PutMany (bs : list Block) : M unit :=
  λ w, if blockstoreDown w then Err (ErrIO "blockstore") w
       else Ok tt (set_blocks
                     (foldl (λ m b, <[blk_Cid b := blk_RawData b]> m) (blocks w) bs) w).

Definition HAMT_Set (name : string) (id : Cid) : M unit :=
  λ w, if hamtDown w then Err (ErrIO "hamt") w
       else Ok tt (set_hamt (<[name := id]> (hamt w)) w).

Definition HAMT_FindRaw (name : string) : M (option Cid) :=
  λ w, if hamtDown w then Err (ErrIO "hamt") w else Ok (hamt w !! name) w.

Definition PutRatchet (name : string) (r : Spiral) : M (option Spiral) :=
  λ w, match rs_PutRatchet name r (rstore w) with
       | inl e => Err e w
       | inr (prev, rs) => Ok prev (set_rstore rs w)
       end.

Definition OldestKnownRatchet (name : string) : M (option Spiral) :=
  λ w, match rs_OldestKnownRatchet name (rstore w) with
       | inl e => Err e w
       | inr o => Ok o w
       end.

(** ** Keys and inumbers *)

Definition Key_Encode (k : Key) : string := base64_EncodeToString k.

Definition NewINumber : M INumber :=
  λ w, match rand_Read 32 w with
       | Ok buf w' => Ok buf w'
       | _ => Panic
       end.

Definition INumber_Encode (n : INumber) : string := base64_EncodeToString n.

(** Modelled from the spec: [ratchet.NewSpiral], "draw 96 random bytes as
    (L, M, S); set cM=cS=0" (4.A). It returns no error, so a failing random
    source can only panic. *)
Definition NewSpiral : M Spiral :=
  λ w, match rand_Read 96 w with
       | Ok buf w' =>
           Ok (mkSpiral (take 32 buf) (take 32 (drop 32 buf)) (drop 64 buf) 0 0) w'
       | _ => Panic
       end.

Definition NewKey : M Key := let* r := NewSpiral in ret (ratchet_Key r).

(** ** The symbolic AEAD *)

Definition NonceSize : nat := 12.

Definition Seal (key : Key) (nonce : list byte) (p : Plain) : Cipher :=
  mkCipher key nonce p.

(** [aead.Open]: authentication fails under any other key. *)
Definition Open (key : Key) (c : Cipher) : Error + Plain :=
  if decide (c_key c = key) then inr (c_plain c)
  else inl (ErrNew "cipher: message authentication failed").

(** ** Link tables *)

Definition PrivateLinks_Get (pls : PrivateLinks) (name : string) : option PrivateLink :=
  match pls with
  | Some m => m !! name
  | None => None
  end.

(** [pls[link.Name] = link]; an assignment into a nil map panics. *)
Definition PrivateLinks_Add (pls : PrivateLinks) (link : PrivateLink) : M PrivateLinks :=
  match pls with
  | Some m => ret (Some (<[link_Name link := link]> m))
  | None => panic
  end.

Definition PrivateLinks_Remove (pls : PrivateLinks) (name : string) : bool * PrivateLinks :=
  match pls with
  | Some m => (bool_decide (is_Some (m !! name)), Some (delete name m))
  | None => (false, None)
  end.

Definition PrivateLinks_len (pls : PrivateLinks) : Z :=
  match pls with
  | Some m => Z.of_nat (size m)
  | None => 0
  end.

(** The order of [sort.Strings]: bytewise lexicographic. *)
Definition string_le (a b : string) : Prop := Is_true (String.leb a b).

#[global] Instance string_le_dec a b : Decision (string_le a b).
Proof. unfold string_le. apply _. Defined.

Definition PrivateLinks_SortedSlice (pls : PrivateLinks) : list PrivateLink :=
  match pls with
  | Some m =>
      let names := merge_sort string_le (map_to_list m).*1 in
      (λ name, m !!! name) <$> names
  | None => []
  end.

Definition PrivateLinks_SizeSum (pls : PrivateLinks) : Z :=
  match pls with
  | Some m => map_fold (λ _ l total, add64 total (link_Size l)) 0 m
  | None => 0
  end.

Definition multihash_Cid (codec : Codec) (data : BlockData) : Cid :=
  CidV1 codec (multihash_Sum data).

Definition marshalEncryptedBlock (pls : PrivateLinks) (key : Key) : M Block :=
  let plaintext := PLinks pls in
  let* nonce := rand_Read NonceSize in
  let data := BRaw (Seal key nonce plaintext) in
  ret (mkBlock (multihash_Cid Raw data) data).

Definition unmarshalPrivateLinksBlock (blk : Block) (key : Key) : M PrivateLinks :=
  match blk_RawData blk with
  | BRaw ciphertext =>
      let* plaintext := lift (Open key ciphertext) in
      match plaintext with
      | PLinks links => ret links
      | _ => fail (ErrNew "cbor: cannot unmarshal into PrivateLinks")
      end
  | BEnvelope _ => fail (ErrNew "cipher: message authentication failed")
  end.

(** ** Headers *)

Definition NewHeaderInfo (nt : NodeType) (inum : INumber) (bnf : BareNamefilter)
  : M HeaderInfo :=
  let* now := Timestamp in
  ret {| hi_WNFS := LatestVersion;
         hi_Type := nt;
         hi_Mode := ModeDefault;
         hi_Ctime := now;
         hi_Mtime := now;
         hi_Size := 0;
         hi_INumber := inum;
         hi_BareNamefilter := bnf;
         hi_Ratchet := "" |}.

Definition HeaderInfo_Copy (hi : HeaderInfo) : HeaderInfo :=
  {| hi_WNFS := hi_WNFS hi;
     hi_Type := hi_Type hi;
     hi_Mode := hi_Mode hi;
     hi_Ctime := hi_Ctime hi;
     hi_Mtime := hi_Mtime hi;
     hi_Size := hi_Size hi;
     hi_INumber := hi_INumber hi;
     hi_BareNamefilter := hi_BareNamefilter hi;
     hi_Ratchet := hi_Ratchet hi |}.

(** Field assignments [h.Info.F = v]. *)
Definition set_hi_Type (v : NodeType) (hi : HeaderInfo) : HeaderInfo :=
  mkHeaderInfo (hi_WNFS hi) v (hi_Mode hi) (hi_Ctime hi) (hi_Mtime hi) (hi_Size hi)
               (hi_INumber hi) (hi_BareNamefilter hi) (hi_Ratchet hi).
Definition set_hi_Mtime (v : Z) (hi : HeaderInfo) : HeaderInfo :=
  mkHeaderInfo (hi_WNFS hi) (hi_Type hi) (hi_Mode hi) (hi_Ctime hi) v (hi_Size hi)
               (hi_INumber hi) (hi_BareNamefilter hi) (hi_Ratchet hi).
Definition set_hi_Size (v : Z) (hi : HeaderInfo) : HeaderInfo :=
  mkHeaderInfo (hi_WNFS hi) (hi_Type hi) (hi_Mode hi) (hi_Ctime hi) (hi_Mtime hi) v
               (hi_INumber hi) (hi_BareNamefilter hi) (hi_Ratchet hi).
Definition set_hi_Ratchet (v : string) (hi : HeaderInfo) : HeaderInfo :=
  mkHeaderInfo (hi_WNFS hi) (hi_Type hi) (hi_Mode hi) (hi_Ctime hi) (hi_Mtime hi)
               (hi_Size hi) (hi_INumber hi) (hi_BareNamefilter hi) v.

Definition upd_Info (f : HeaderInfo → HeaderInfo) (h : Header) : Header :=
  mkHeader (f (h_Info h)) (h_Metadata h) (h_ContentID h) (h_Value h).
Definition set_ContentID (c : Cid) (h : Header) : Header :=
  mkHeader (h_Info h) (h_Metadata h) c (h_Value h).

(** The zero [Header{}]. *)
Definition Header_zero : Header :=
  mkHeader (mkHeaderInfo "" NodeType_zero 0 0 0 0 (replicate 32 x00) [] "")
           CidUndef CidUndef None.

Definition encryptHeaderBlock (h : Header) (key : Key) : M Block :=
  let buf := PInfo (h_Info h) in
  let* nonce := rand_Read NonceSize in
  let encrypted := Seal key nonce buf in
  let header :=
    {| env_info := Some encrypted;
       env_content := Some (h_ContentID h);
       env_metadata :=
         if decide (h_Metadata h = CidUndef) then None else Some (h_Metadata h);
       env_value := None |} in
  ret (mkBlock (multihash_Cid DagCBOR (BEnvelope header)) (BEnvelope header)).

Definition HeaderInfoFromCBOR (p : Plain) : M HeaderInfo :=
  match p with
  | PInfo hi => ret hi
  | _ => fail (ErrNew "cbor: cannot unmarshal into HeaderInfo")
  end.

Definition decodeHeaderBlock (blk : Block) (key : Key) : M Header :=
  match blk_RawData blk with
  | BRaw _ => fail (ErrNew "cbor: cannot unmarshal into map")
  | BEnvelope env =>
      match env_info env with
      | None => fail (ErrNew "header is missing info field")
      | Some encInfo =>
          let* plaintext := wrapErr "decrypting info" (lift (Open key encInfo)) in
          let* info := HeaderInfoFromCBOR plaintext in
          let metadata :=
            match env_metadata env with Some m => m | None => CidUndef end in
          if decide (hi_Type info = NTDataFile) then
            match env_value env with
            | Some encValue =>
                let* plaintext := lift (Open key encValue) in
                match plaintext with
                | PValue v => ret (mkHeader info metadata CidUndef (Some v))
                | _ => fail (ErrNew "cbor: cannot decode value")
                end
            | None => fail (ErrNew "datafile header has no value field")
            end
          else
            match env_content env with
            | Some content => ret (mkHeader info metadata content None)
            | None => fail (ErrNew "header has no content cid")
            end
      end
  end.

Definition loadHeader (key : Key) (id : Cid) : M Header :=
  let* blk := wrapErr "getting header block" (GetBlock id) in
  decodeHeaderBlock blk key.

Definition cidFromPrivateName (pn : Name) : M Cid :=
  let* found := HAMT_FindRaw pn in
  match found with
  | None => fail ErrNotFound
  | Some id => ret id
  end.

(** Modelled from the spec: [public.PutResult.ToLink], which fills the
    [name, size, isFile, CID] of a link (section 3, "PrivateLink"). *)
Definition ToLink_IsFile (t : NodeType) : bool :=
  match t with NTFile | NTDataFile => true | _ => false end.

Definition ToPrivateLink (r : PutResult) (name : string) : PrivateLink :=
  {| link_Name := name;
     link_Size := pr_Size r;
     link_IsFile := ToLink_IsFile (pr_Type r);
     link_Cid := pr_Cid r;
     link_Key := pr_Key r;
     link_Pointer := pr_Pointer r |}.

(** ** Tree *)

Definition set_t_header (h : Header) (pt : Tree) : Tree :=
  mkTree (t_name pt) (t_cid pt) h (t_ratchet pt) (t_links pt).
Definition set_t_cid (c : Cid) (pt : Tree) : Tree :=
  mkTree (t_name pt) c (t_header pt) (t_ratchet pt) (t_links pt).
Definition set_t_ratchet (r : option Spiral) (pt : Tree) : Tree :=
  mkTree (t_name pt) (t_cid pt) (t_header pt) r (t_links pt).
Definition set_t_links (l : PrivateLinks) (pt : Tree) : Tree :=
  mkTree (t_name pt) (t_cid pt) (t_header pt) (t_ratchet pt) l.

Definition NewEmptyTree (parent : BareNamefilter) (name : string) : M Tree :=
  let* inum := NewINumber in
  let* bnf := lift (NewBareNamefilter parent inum) in
  let* r := NewSpiral in
  let* info := NewHeaderInfo NTDir inum bnf in
  ret {| t_name := name;
         t_cid := CidUndef;
         t_header := mkHeader info CidUndef CidUndef None;
         t_ratchet := Some r;
         t_links := Some ∅ |}.

Definition LoadTree (name : string) (key : Key) (id : Cid) : M Tree :=
  let* header := loadHeader key id in
  let* r := wrapErr "decoding ratchet" (lift (DecodeSpiral (hi_Ratchet (h_Info header)))) in
  let header := upd_Info (set_hi_Ratchet "") header in
  ret {| t_name := name;
         t_cid := id;
         t_header := header;
         t_ratchet := Some r;
         t_links := None |}.

Definition Tree_Name (pt : Tree) : string := t_name pt.
Definition Tree_Size (pt : Tree) : Z := hi_Size (h_Info (t_header pt)).
Definition Tree_Mode (pt : Tree) : Z := uint32 (hi_Ctime (h_Info (t_header pt))).
Definition Tree_Type (pt : Tree) : NodeType := hi_Type (h_Info (t_header pt)).
Definition Tree_IsDir (pt : Tree) : bool := true.
Definition Tree_Cid (pt : Tree) : Cid := t_cid pt.
Definition Tree_INumber (pt : Tree) : INumber := hi_INumber (h_Info (t_header pt)).
Definition Tree_Ratchet (pt : Tree) : option Spiral := t_ratchet pt.
Definition Tree_BareNamefilter (pt : Tree) : BareNamefilter :=
  hi_BareNamefilter (h_Info (t_header pt)).

Definition Tree_Key (pt : Tree) : M Key :=
  let* r := deref (t_ratchet pt) in ret (ratchet_Key r).

Definition Tree_PrivateName (pt : Tree) : M Name :=
  let* r := deref (t_ratchet pt) in
  let* knf := lift (AddKey (hi_BareNamefilter (h_Info (t_header pt))) (ratchet_Key r)) in
  lift (ToName knf).

Definition ensureLinks (pt : Tree) : M Tree :=
  match t_links pt with
  | None =>
      let* blk := GetBlock (h_ContentID (t_header pt)) in
      let* key := Tree_Key pt in
      let* links := unmarshalPrivateLinksBlock blk key in
      ret (set_t_links links pt)
  | Some _ => ret pt
  end.

(** The loop of [ReadDir]: append, then leave when the index equals [n]. *)
Fixpoint ReadDir_loop (n i : Z) (links : list PrivateLink) (entries : list DirEntry)
  : list DirEntry :=
  match links with
  | [] => entries
  | link :: rest =>
      let entries := entries ++ [mkDirEntry (link_Name link) (link_IsFile link)] in
      if decide (i = n) then entries else ReadDir_loop n (i + 1) rest entries
  end.

Definition Tree_ReadDir (n : Z) (pt : Tree) : M (list DirEntry * Tree) :=
  let* pt := ensureLinks pt in
  let n := if decide (n < 0) then PrivateLinks_len (t_links pt) else n in
  ret (ReadDir_loop n 0 (PrivateLinks_SortedSlice (t_links pt)) [], pt).

Definition Tree_Put (pt : Tree) : M (PutResult * Tree) :=
  let* r := deref (t_ratchet pt) in
  let r := ratchet_Inc r in
  let pt := set_t_ratchet (Some r) pt in
  let key := ratchet_Key r in
  let pt := set_t_header (upd_Info (set_hi_Ratchet (Spiral_Encode r)) (t_header pt)) pt in
  let pt := set_t_header
              (upd_Info (set_hi_Size (PrivateLinks_SizeSum (t_links pt))) (t_header pt)) pt in
  let* linksBlk := marshalEncryptedBlock (t_links pt) key in
  let pt := set_t_header (set_ContentID (blk_Cid linksBlk) (t_header pt)) pt in
  let* blk := encryptHeaderBlock (t_header pt) key in
  let* _ := Blockstore_PutMany [blk; linksBlk] in
  let pt := set_t_cid (blk_Cid blk) pt in
  let* privName := Tree_PrivateName pt in
  let* _ := PutRatchet (INumber_Encode (hi_INumber (h_Info (t_header pt)))) r in
  let* _ := HAMT_Set privName (t_cid pt) in
  ret ({| pr_Cid := t_cid pt;
          pr_Size := hi_Size (h_Info (t_header pt));
          pr_Type := hi_Type (h_Info (t_header pt));
          pr_Userland := CidUndef;
          pr_Key := key;
          pr_Pointer := privName |}, pt).

Definition updateUserlandLink (name : string) (res : PutResult) (pt : Tree) : M Tree :=
  let* links := PrivateLinks_Add (t_links pt) (ToPrivateLink res name) in
  let pt := set_t_links links pt in
  let* now := Timestamp in
  ret (set_t_header (upd_Info (set_hi_Mtime now) (t_header pt)) pt).

Definition removeUserlandLink (name : string) (pt : Tree) : M Tree :=
  let pt := set_t_links (PrivateLinks_Remove (t_links pt) name).2 pt in
  let* now := Timestamp in
  ret (set_t_header (upd_Info (set_hi_Mtime now) (t_header pt)) pt).

Definition getOrCreateDirectChildTree (name : string) (pt : Tree) : M (Tree * Tree) :=
  let* pt := ensureLinks pt in
  match PrivateLinks_Get (t_links pt) name with
  | None =>
      let* child := NewEmptyTree (hi_BareNamefilter (h_Info (t_header pt))) name in
      ret (child, pt)
  | Some link =>
      let* child := LoadTree name (link_Key link) (link_Cid link) in
      ret (child, pt)
  end.

(** ** File *)

Definition set_f_header (h : Header) (pf : File) : File :=
  mkFile (f_name pf) (f_cid pf) h (f_ratchet pf) (f_content pf).
Definition set_f_cid (c : Cid) (pf : File) : File :=
  mkFile (f_name pf) c (f_header pf) (f_ratchet pf) (f_content pf).
Definition set_f_ratchet (r : option Spiral) (pf : File) : File :=
  mkFile (f_name pf) (f_cid pf) (f_header pf) r (f_content pf).
Definition File_SetContents (f : option (list byte)) (pf : File) : File :=
  mkFile (f_name pf) (f_cid pf) (f_header pf) (f_ratchet pf) f.

Definition NewFile (parent : BareNamefilter) (f : list byte) : M File :=
  let* inum := NewINumber in
  let* bnf := lift (NewBareNamefilter parent inum) in
  let* r := NewSpiral in
  let* info := NewHeaderInfo NTFile inum bnf in
  ret {| f_name := "";
         f_cid := CidUndef;
         f_header := mkHeader info CidUndef CidUndef None;
         f_ratchet := Some r;
         f_content := Some f |}.

Definition File_Mode (pf : File) : Z := uint32 (hi_Mode (h_Info (f_header pf))).
Definition File_Type (pf : File) : NodeType := hi_Type (h_Info (f_header pf)).
Definition File_Size (pf : File) : Z := hi_Size (h_Info (f_header pf)).
Definition File_INumber (pf : File) : INumber := hi_INumber (h_Info (f_header pf)).
Definition File_BareNamefilter (pf : File) : BareNamefilter :=
  hi_BareNamefilter (h_Info (f_header pf)).

Definition File_PrivateName (pf : File) : M Name :=
  let* r := deref (f_ratchet pf) in
  let* knf := lift (AddKey (hi_BareNamefilter (h_Info (f_header pf))) (ratchet_Key r)) in
  lift (ToName knf).

(** Modelled from the spec: [Store.PutEncryptedFile], "PutEncryptedFile
    (namedReader, key) gives {cid, size}" (section 6), the size being the
    byte length of the stream (invariant 4); reading a nil stream panics. *)
Definition PutEncryptedFile (content : option (list byte)) (key : Key) : M (Cid * Z) :=
  let* bs := deref content in
  let* nonce := rand_Read NonceSize in
  let data := BRaw (Seal key nonce (PBytes bs)) in
  let id := multihash_Cid Raw data in
  let* _ := Blockstore_Put (mkBlock id data) in
  ret (id, Z.of_nat (length bs)).

Definition File_Put (pf : File) : M (PutResult * File) :=
  let* r := deref (f_ratchet pf) in
  let r := ratchet_Inc r in
  let pf := set_f_ratchet (Some r) pf in
  let key := ratchet_Key r in
  let* res := PutEncryptedFile (f_content pf) key in
  let pf := set_f_header (set_ContentID res.1 (f_header pf)) pf in
  let pf := set_f_header (upd_Info (set_hi_Size res.2) (f_header pf)) pf in
  let pf := set_f_header (upd_Info (set_hi_Ratchet (Spiral_Encode r)) (f_header pf)) pf in
  let* now := Timestamp in
  let pf := set_f_header (upd_Info (set_hi_Mtime now) (f_header pf)) pf in
  let* blk := encryptHeaderBlock (f_header pf) key in
  let* _ := Blockstore_Put blk in
  let pf := set_f_cid (blk_Cid blk) pf in
  let* privName := File_PrivateName pf in
  let* _ := PutRatchet (INumber_Encode (hi_INumber (h_Info (f_header pf)))) r in
  let* _ := HAMT_Set privName (f_cid pf) in
  ret ({| pr_Cid := f_cid pf;
          pr_Size := res.2;
          pr_Type := hi_Type (h_Info (f_header pf));
          pr_Userland := res.1;
          pr_Key := key;
          pr_Pointer := privName |}, pf).

(** ** DataFile *)

Definition set_d_header (h : Header) (df : DataFile) : DataFile :=
  mkDataFile (d_name df) (d_cid df) (d_ratchet df) h (d_Metadata df)
             (d_content df) (d_jsonContent df).
Definition set_d_cid (c : Cid) (df : DataFile) : DataFile :=
  mkDataFile (d_name df) c (d_ratchet df) (d_header df) (d_Metadata df)
             (d_content df) (d_jsonContent df).
Definition set_d_ratchet (r : option Spiral) (df : DataFile) : DataFile :=
  mkDataFile (d_name df) (d_cid df) r (d_header df) (d_Metadata df)
             (d_content df) (d_jsonContent df).

Definition DataFile_SetContents (data : Value) (df : DataFile) : DataFile :=
  mkDataFile (d_name df) (d_cid df) (d_ratchet df) (d_header df) (d_Metadata df)
             data None.

Definition NewDataFile (name : string) (content : Value) (parent : BareNamefilter)
  : M DataFile :=
  let* inum := NewINumber in
  let* bnf := lift (NewBareNamefilter parent inum) in
  let* r := NewSpiral in
  let* info := NewHeaderInfo NTDataFile inum bnf in
  ret {| d_name := name;
         d_cid := CidUndef;
         d_ratchet := Some r;
         d_header := mkHeader info CidUndef CidUndef None;
         d_Metadata := None;
         d_content := content;
         d_jsonContent := None |}.

Definition DataFile_Size (df : DataFile) : Z := hi_Size (h_Info (d_header df)).
Definition DataFile_Mode (df : DataFile) : Z := uint32 (hi_Mode (h_Info (d_header df))).
Definition DataFile_Type (df : DataFile) : NodeType := hi_Type (h_Info (d_header df)).
Definition DataFile_INumber (df : DataFile) : INumber := hi_INumber (h_Info (d_header df)).
Definition DataFile_BareNamefilter (df : DataFile) : BareNamefilter :=
  hi_BareNamefilter (h_Info (d_header df)).

Definition DataFile_PrivateName (df : DataFile) : M Name :=
  let* r := deref (d_ratchet df) in
  let* knf := lift (AddKey (hi_BareNamefilter (h_Info (d_header df))) (ratchet_Key r)) in
  lift (ToName knf).

(** The two [rand.Read] calls of [encodeBlock] drop their error: a short
    read leaves the nonce buffer as it was, all zero the first time. *)
Definition rand_Read_unchecked (old : list byte) : M (list byte) :=
  λ w, match rand_Read (length old) w with
       | Ok buf w' => Ok buf w'
       | Err _ w' => Ok old w'
       | Panic => Panic
       end.

Definition DataFile_encodeBlock (df : DataFile) (key : Key) : M Block :=
  let data := PInfo (h_Info (d_header df)) in
  let* nonce := rand_Read_unchecked (replicate NonceSize x00) in
  let infoCipher := Seal key nonce data in
  let data := PValue (d_content df) in
  let* nonce := rand_Read_unchecked nonce in
  let contentCipher := Seal key nonce data in
  let dataFile :=
    {| env_info := Some infoCipher;
       env_content := None;
       env_metadata := d_Metadata df;
       env_value := Some contentCipher |} in
  ret (mkBlock (multihash_Cid DagCBOR (BEnvelope dataFile)) (BEnvelope dataFile)).

Definition DataFile_Put (df : DataFile) : M (PutResult * DataFile) :=
  let* r := deref (d_ratchet df) in
  let r := ratchet_Inc r in
  let df := set_d_ratchet (Some r) df in
  let key := ratchet_Key r in
  let df := set_d_header (upd_Info (set_hi_Ratchet (Spiral_Encode r)) (d_header df)) df in
  let* now := Timestamp in
  let df := set_d_header (upd_Info (set_hi_Mtime now) (d_header df)) df in
  let* blk := DataFile_encodeBlock df key in
  let df := set_d_cid (blk_Cid blk) df in
  let* name := DataFile_PrivateName df in
  let* _ := Blockstore_Put blk in
  ret ({| pr_Cid := d_cid df;
          pr_Size := hi_Size (h_Info (d_header df));
          pr_Type := hi_Type (h_Info (d_header df));
          pr_Userland := d_cid df;
          pr_Key := ratchet_Key r;
          pr_Pointer := name |}, df).

(** ** Nodes behind the [privateNode] interface *)

Definition LoadNode (name : string) (id : Cid) (key : Key) : M Node :=
  let* header := wrapErr "decoding s-node header" (loadHeader key id) in
  let* r := lift (DecodeSpiral (hi_Ratchet (h_Info header))) in
  let header := upd_Info (set_hi_Ratchet "") header in
  match hi_Type (h_Info header) with
  | NTFile =>
      ret (NFile {| f_name := name; f_cid := id; f_header := header;
                    f_ratchet := Some r; f_content := None |})
  | NTDataFile =>
      ret (NData {| d_name := name; d_cid := id; d_ratchet := Some r;
                    d_header := header; d_Metadata := None;
                    d_content := match h_Value header with
                                 | Some v => v
                                 | None => VNull
                                 end;
                    d_jsonContent := None |})
  | NTDir =>
      ret (NTree {| t_name := name; t_cid := id; t_header := header;
                    t_ratchet := Some r; t_links := None |})
  | NTOther _ => fail (ErrNew "unrecognized private node type")
  end.

Definition Node_Type (n : Node) : NodeType :=
  match n with
  | NTree t => Tree_Type t
  | NFile f => File_Type f
  | NData d => DataFile_Type d
  end.

Definition Node_INumber (n : Node) : INumber :=
  match n with
  | NTree t => Tree_INumber t
  | NFile f => File_INumber f
  | NData d => DataFile_INumber d
  end.

Definition Node_BareNamefilter (n : Node) : BareNamefilter :=
  match n with
  | NTree t => Tree_BareNamefilter t
  | NFile f => File_BareNamefilter f
  | NData d => DataFile_BareNamefilter d
  end.

Definition Node_Ratchet (n : Node) : option Spiral :=
  match n with
  | NTree t => t_ratchet t
  | NFile f => f_ratchet f
  | NData d => d_ratchet d
  end.

Definition Node_Mode (n : Node) : Z :=
  match n with
  | NTree t => Tree_Mode t
  | NFile f => File_Mode f
  | NData d => DataFile_Mode d
  end.

(** The node a file is turned into when [File.Update] receives structured
    data: the struct literal sets [fs], [cid], [name] and [header] only. *)
Definition File_asDataFile (pf : File) (v : Value) : DataFile :=
  let df := {| d_name := f_name pf;
               d_cid := f_cid pf;
               d_ratchet := None;
               d_header := mkHeader (HeaderInfo_Copy (h_Info (f_header pf)))
                                    (h_Metadata (f_header pf)) CidUndef None;
               d_Metadata := None;
               d_content := VNull;
               d_jsonContent := None |} in
  let df := DataFile_SetContents v df in
  set_d_header (upd_Info (set_hi_Type NTDataFile) (d_header df)) df.

(** [Update] returns the [PutResult]; the node that was put is returned
    next to it. *)
Definition File_Update (change : FsFile) (pf : File) : M (PutResult * Node) :=
  match change with
  | SrcData d =>
      let* v := lift d in
      let df := File_asDataFile pf v in
      let* '(res, df) := DataFile_Put df in
      ret (res, NData df)
  | SrcBytes bs =>
      let pf := File_SetContents (Some bs) pf in
      let* '(res, pf) := File_Put pf in
      ret (res, NFile pf)
  end.

(** The node a data file is turned into when [DataFile.Update] receives a
    byte stream: [fs], [name], [cid], [header] and [content] are set. *)
Definition DataFile_asFile (df : DataFile) (change : list byte) : File :=
  let f := {| f_name := d_name df;
              f_cid := d_cid df;
              f_header := mkHeader (HeaderInfo_Copy (h_Info (d_header df)))
                                   (h_Metadata (d_header df)) CidUndef None;
              f_ratchet := None;
              f_content := Some change |} in
  set_f_header (upd_Info (set_hi_Type NTFile) (f_header f)) f.

Definition DataFile_Update (change : FsFile) (df : DataFile) : M (PutResult * Node) :=
  match change with
  | SrcData d =>
      let* v := lift d in
      let df := DataFile_SetContents v df in
      let* '(res, df) := DataFile_Put df in
      ret (res, NData df)
  | SrcBytes bs =>
      let f := DataFile_asFile df bs in
      let* '(res, f) := File_Put f in
      ret (res, NFile f)
  end.

Definition Tree_Update (file : FsFile) (pt : Tree) : M (PutResult * Node) :=
  fail (ErrNew "directories don't support updating").

Definition Node_Update (change : FsFile) (n : Node) : M (PutResult * Node) :=
  match n with
  | NTree t => Tree_Update change t
  | NFile f => File_Update change f
  | NData d => DataFile_Update change d
  end.

Definition Node_Put (n : Node) : M (PutResult * Node) :=
  match n with
  | NTree t => let* '(res, t) := Tree_Put t in ret (res, NTree t)
  | NFile f => let* '(res, f) := File_Put f in ret (res, NFile f)
  | NData d => let* '(res, d) := DataFile_Put d in ret (res, NData d)
  end.

Definition Node_PrivateName (n : Node) : M Name :=
  match n with
  | NTree t => Tree_PrivateName t
  | NFile f => File_PrivateName f
  | NData d => DataFile_PrivateName d
  end.

(** ** Paths

    [base.Path] is a slice of names. [path.Shift()] gives [("", nil)] on the
    empty path, [(p[0], nil)] on a single name and [(p[0], p[1:])] otherwise;
    the functions below match on the path in these three shapes. *)

Definition createOrUpdateChildFile (name : string) (f : FsFile) (pt : Tree)
  : M (PutResult * Tree) :=
  let* pt := ensureLinks pt in
  match PrivateLinks_Get (t_links pt) name with
  | Some link =>
      let* prev := LoadNode (link_Name link) (link_Cid link) (link_Key link) in
      let* '(res, _) := Node_Update f prev in
      ret (res, pt)
  | None =>
      match f with
      | SrcData d =>
          let* v := lift d in
          let* df := NewDataFile name v (hi_BareNamefilter (h_Info (t_header pt))) in
          let* '(res, _) := DataFile_Put df in
          ret (res, pt)
      | SrcBytes bs =>
          let* ch := NewFile (hi_BareNamefilter (h_Info (t_header pt))) bs in
          let* '(res, _) := File_Put ch in
          ret (res, pt)
      end
  end.

Fixpoint Tree_Add (path : list string) (f : FsFile) (pt : Tree) : M (PutResult * Tree) :=
  match path with
  | [] => fail (ErrNew "invalid path: empty")
  | head :: tail =>
      let* pt := ensureLinks pt in
      let* '(res, pt) :=
        match tail with
        | [] => createOrUpdateChildFile head f pt
        | _ :: _ =>
            let* '(childDir, pt) := getOrCreateDirectChildTree head pt in
            let* '(res, _) := Tree_Add tail f childDir in
            ret (res, pt)
        end in
      let* pt := updateUserlandLink head res pt in
      Tree_Put pt
  end.

Fixpoint Tree_Get (path : list string) (pt : Tree) : M Node :=
  match path with
  | [] => ret (NTree pt)
  | head :: tail =>
      if decide (head = "") then ret (NTree pt)
      else
        let* pt := ensureLinks pt in
        match PrivateLinks_Get (t_links pt) head with
        | None => fail ErrNotFound
        | Some link =>
            match tail with
            | _ :: _ =>
                let* ch := LoadTree head (link_Key link) (link_Cid link) in
                Tree_Get tail ch
            | [] => LoadNode head (link_Cid link) (link_Key link)
            end
        end
  end.

Fixpoint Tree_Rm (path : list string) (pt : Tree) : M (PutResult * Tree) :=
  match path with
  | [] => fail (ErrNew "invalid path: empty")
  | head :: tail =>
      if decide (head = "") then fail (ErrNew "invalid path: empty")
      else
        let* pt := ensureLinks pt in
        let* pt :=
          match tail with
          | [] => removeUserlandLink head pt
          | _ :: _ =>
              match PrivateLinks_Get (t_links pt) head with
              | None => fail ErrNotFound
              | Some link =>
                  let* child := LoadTree (link_Name link) (link_Key link) (link_Cid link) in
                  let* '(res, _) := Tree_Rm tail child in
                  updateUserlandLink head res pt
              end
          end in
        Tree_Put pt
  end.

(** In the recursive case the receiver of the call is [pt] itself:
    [res, err = pt.Mkdir(tail)]. *)
Fixpoint Tree_Mkdir (path : list string) (pt : Tree) : M (PutResult * Tree) :=
  match path with
  | [] => fail (ErrNew "invalid path: empty")
  | head :: tail =>
      let* '(childDir, pt) := getOrCreateDirectChildTree head pt in
      let* '(res, pt) :=
        match tail with
        | [] =>
            let* '(res, _) := Tree_Put childDir in
            ret (res, pt)
        | _ :: _ => Tree_Mkdir tail pt
        end in
      let* pt := updateUserlandLink head res pt in
      Tree_Put pt
  end.

(** ** History *)

(** [loadHeader] inside the loop of [history]: an error is logged and the
    loop goes on with the zero header. *)
Definition loadHeader_logged (key : Key) (id : Cid) : M Header :=
  λ w, match loadHeader key id w with
       | Ok h w' => Ok h w'
       | Err _ w' => Ok Header_zero w'
       | Panic => Panic
       end.

Fixpoint history_loop (bnf : BareNamefilter) (ratchets : list Spiral)
  : M (list HistoryEntry) :=
  match ratchets with
  | [] => ret []
  | rcht :: rest =>
      let key := ratchet_Key rcht in
      let* knf := lift (AddKey bnf key) in
      let* pn := lift (ToName knf) in
      let* headerID := cidFromPrivateName pn in
      let* header := loadHeader_logged key headerID in
      let entry :=
        {| he_Cid := headerID;
           he_Size := hi_Size (h_Info header);
           he_Type := hi_Type (h_Info header);
           he_Mtime := hi_Mtime (h_Info header);
           he_Key := Key_Encode key;
           he_PrivateName := pn |} in
      let* hist := history_loop bnf rest in
      ret (entry :: hist)
  end.

(** [n.Stat()] returns the node itself and [NodeStore(n)] its store; neither
    fails for a [Tree] or a [File]. A nil slice is the empty list. *)
Definition history (n : Node) (maxRevs : Z) : M (list HistoryEntry) :=
  let bnf := Node_BareNamefilter n in
  let* old := OldestKnownRatchet (INumber_Encode (Node_INumber n)) in
  match old with
  | None => ret []                      (* return nil, err  with err == nil *)
  | Some old =>
      let* recent := deref (Node_Ratchet n) in
      let* ratchets := lift (ratchet_Previous recent old maxRevs) in
      let ratchets := recent :: ratchets in
      history_loop bnf ratchets
  end.

Definition Tree_History (maxRevs : Z) (pt : Tree) : M (list HistoryEntry) :=
  history (NTree pt) maxRevs.

Definition File_History (maxRevs : Z) (pf : File) : M (list HistoryEntry) :=
  history (NFile pf) maxRevs.

Definition DataFile_History (maxRevs : Z) (df : DataFile) : M (list HistoryEntry) :=
  fail (ErrNew "no history").

Definition Node_History (maxRevs : Z) (n : Node) : M (list HistoryEntry) :=
  match n with
  | NTree t => Tree_History maxRevs t
  | NFile f => File_History maxRevs f
  | NData d => DataFile_History maxRevs d
  end.

(** ** Root *)

Inductive GoContext :=
| ctxBackground
| ctxTODO
| ctxWithCancel (parent : GoContext).

Record Root := mkRoot {
  r_Tree : Tree;
  r_ctx : GoContext
}.

Definition NewEmptyRoot (ctx : GoContext) (name : string) (rootKey : Key) : M Root :=
  let* private := NewEmptyTree IdentityBareNamefilter name in
  ret {| r_ctx := ctx; r_Tree := private |}.

End Code.

(** ** CBOR encoding of values

    The byte form of what [cbor.Marshal] gives for a [Value] (RFC 8949,
    shortest-form heads). *)

Definition cbor_be (width : nat) (n : N) : list byte :=
  (λ i, byte_of_N (N.shiftr n (8 * N.of_nat i))) <$> reverse (seq 0 width).

Definition cbor_head (major : N) (n : N) : list byte :=
  if decide (n < 24)%N then [byte_of_N (major * 32 + n)]
  else if decide (n < 2 ^ 8)%N then byte_of_N (major * 32 + 24) :: cbor_be 1 n
  else if decide (n < 2 ^ 16)%N then byte_of_N (major * 32 + 25) :: cbor_be 2 n
  else if decide (n < 2 ^ 32)%N then byte_of_N (major * 32 + 26) :: cbor_be 4 n
  else byte_of_N (major * 32 + 27) :: cbor_be 8 n.

Fixpoint cbor_Marshal (v : Value) : list byte :=
  match v with
  | VNull => [byte_of_N 246]
  | VBool false => [byte_of_N 244]
  | VBool true => [byte_of_N 245]
  | VUint n => cbor_head 0 n
  | VText s =>
      let bs := list_byte_of_string s in
      cbor_head 3 (N.of_nat (length bs)) ++ bs
  | VArray vs =>
      cbor_head 4 (N.of_nat (length vs)) ++ concat (map cbor_Marshal vs)
  end.

(** ** More of [private.go]: loading by name, and keys *)

Section MoreCode.

Context {X : Externals}.

(** [HAMT().Root().Find]: whether the name is bound, and the value decoded
    into the caller's [CborByteArray]. The index holds cids, so
    [cid.CidFromBytes] on what it gives does not fail. As in the rest of the
    model, the messages leave out the names and cids they interpolate. *)
Definition HAMT_Find (name : string) : M (option Cid) :=
  λ w, if hamtDown w then Err (ErrIO "hamt") w else Ok (hamt w !! name) w.

Definition LoadRoot (ctx : GoContext) (name : string) (rootKey : Key) (rootName : Name)
  : M Root :=
  if decide (rootName = "") then fail (ErrNew "privateName is required")
  else
    let* found := wrapErr "opening private root" (HAMT_Find rootName) in
    match found with
    | None => fail (ErrWrap "finding key" ErrNotFound)
    | Some privateRoot =>
        let* tree := LoadTree name rootKey privateRoot in
        ret {| r_ctx := ctx; r_Tree := tree |}
    end.

Definition LoadTreeFromName (key : Key) (name : string) (pn : Name) : M Tree :=
  let* id := cidFromPrivateName pn in
  LoadTree name key id.

Definition LoadFile (name : string) (key : Key) (id : Cid) : M File :=
  let* header := wrapErr "decoding s-node header" (loadHeader key id) in
  let* r := lift (DecodeSpiral (hi_Ratchet (h_Info header))) in
  let header := upd_Info (set_hi_Ratchet "") header in
  ret {| f_name := name; f_cid := id; f_header := header;
         f_ratchet := Some r; f_content := None |}.

(** [decodeDataFileBlock] reads the data under the key "content" and wants
    bytes there. In the envelopes of this package "content" is a CID when it
    is present, so the type assertion fails in both cases and the steps
    after it (opening and decoding the content) are never reached. *)
Definition decodeDataFileBlock (df : DataFile) (blk : Block) (key : Key) : M DataFile :=
  match blk_RawData blk with
  | BRaw _ => fail (ErrNew "cbor: cannot unmarshal into map")
  | BEnvelope env =>
      match env_info env with
      | None => fail (ErrNew "malformed private DataFile node: missing info bytes")
      | Some ciphertext =>
          let* plaintext := lift (Open key ciphertext) in
          let* info := HeaderInfoFromCBOR plaintext in
          match env_content env with
          | Some _ => fail (ErrNew "malformed private DataFile node: missing content bytes")
          | None => fail (ErrNew "malformed private DataFile node: missing content bytes")
          end
      end
  end.

Definition LoadDataFile (name : string) (id : Cid) (key : Key) : M DataFile :=
  let df := {| d_name := name; d_cid := id; d_ratchet := None;
               d_header := Header_zero; d_Metadata := None;
               d_content := VNull; d_jsonContent := None |} in
  let* blk := GetBlock id in
  decodeDataFileBlock df blk key.

End MoreCode.

(** [Key.Decode]: the loop [for i, d := range data { k[i] = d }] over the
    32-byte array; an index of 32 or more panics ([None]). *)
Fixpoint Key_Decode_loop (i : nat) (data : list byte) (k : Key) : option Key :=
  match data with
  | [] => Some k
  | d :: rest =>
      if decide (i < 32)%nat then Key_Decode_loop (S i) rest (<[i := d]> k) else None
  end.

(** The result is the error, if any, and the key as the call leaves it;
    [decoded] is what [base64.URLEncoding.DecodeString] made of the text. *)
Definition Key_Decode (decoded : Error + list byte) (k : Key) : option (option Error * Key) :=
  match decoded with
  | inl err => Some (Some err, k)
  | inr data =>
      match Key_Decode_loop 0 data k with
      | Some k' => Some (None, k')
      | None => None
      end
  end.

(** ** Vocabulary of the properties *)

(** Every link sits under its own name: what [PrivateLinks.Add] writes. *)
Definition links_wf (pls : PrivateLinks) : Prop :=
  ∀ m k l, pls = Some m → m !! k = Some l → link_Name l = k.

(** The sum of the sizes recorded in the links, as an integer. *)
Definition links_total (pls : PrivateLinks) : Z :=
  match pls with
  | Some m => foldr (λ kl acc, link_Size kl.2 + acc) 0 (map_to_list m)
  | None => 0
  end.

Definition DirEntry_of (link : PrivateLink) : DirEntry :=
  mkDirEntry (link_Name link) (link_IsFile link).

(** What [Tree.Put] needs from the world to go through: both backends up,
    two nonces of random bytes, a private name for the next key and a
    ratchet store that accepts the next ratchet. *)
Definition Put_ready `{Externals} (pt : Tree) (w : World) : Prop :=
  blockstoreDown w = false
  ∧ hamtDown w = false
  ∧ (2 * NonceSize ≤ length (entropy w))%nat
  ∧ match t_ratchet pt with
    | None => False
    | Some r =>
        match AddKey (Tree_BareNamefilter pt) (ratchet_Key (ratchet_Inc r)) with
        | inl _ => False
        | inr knf =>
            match ToName knf with
            | inl _ => False
            | inr _ =>
                match rs_PutRatchet (INumber_Encode (Tree_INumber pt)) (ratchet_Inc r)
                        (rstore w) with
                | inl _ => False
                | inr _ => True
                end
            end
        end
    end.

(** Whatever the outcome of [m], the world it leaves is related by [R] to
    the world it started in. *)
Definition respects `{Externals} {A} (R : relation World) (m : M A) : Prop :=
  ∀ w, match m w with
       | Ok _ w' | Err _ w' => R w w'
       | Panic => True
       end.

(** An operation that reads only: the world is as it was. *)
Definition readonly `{Externals} {A} (m : M A) : Prop := respects eq m.

(** The second world has every block and every index entry of the first,
    possibly with other contents, and the same backends and clock. *)
Definition grows `{Externals} (w w' : World) : Prop :=
  (∀ id, is_Some (blocks w !! id) → is_Some (blocks w' !! id))
  ∧ (∀ name, is_Some (hamt w !! name) → is_Some (hamt w' !! name))
  ∧ blockstoreDown w' = blockstoreDown w
  ∧ hamtDown w' = hamtDown w
  ∧ clock w' = clock w.

(** An operation that only adds to the stores. *)
Definition additive `{Externals} {A} (m : M A) : Prop := respects grows m.

(** The index is the same in both worlds. *)
Definition same_index `{Externals} (w w' : World) : Prop := hamt w' = hamt w.

(** What [history] records about one revision: the key of its ratchet, the
    private name made from that key, the cid the index holds for the name,
    and the header fields, zero when the header did not load. *)
Definition revision `{Externals} (bnf : BareNamefilter) (w : World) (r : Spiral) (e : HistoryEntry)
  : Prop :=
  he_Key e = Key_Encode (ratchet_Key r)
  ∧ (∃ knf, AddKey bnf (ratchet_Key r) = inr knf ∧ ToName knf = inr (he_PrivateName e))
  ∧ hamt w !! he_PrivateName e = Some (he_Cid e)
  ∧ (∀ h, loadHeader (ratchet_Key r) (he_Cid e) w = Ok h w →
          he_Size e = hi_Size (h_Info h) ∧ he_Type e = hi_Type (h_Info h)
          ∧ he_Mtime e = hi_Mtime (h_Info h))
  ∧ (∀ err, loadHeader (ratchet_Key r) (he_Cid e) w = Err err w →
            he_Size e = 0 ∧ he_Type e = NodeType_zero ∧ he_Mtime e = 0).

(** ** A concrete instance of the outside packages

    Small executable stand-ins, used to run the code on concrete inputs. *)

Module Toy.

Definition N_of_bytes (bs : list byte) : N :=
  foldl (λ acc b, acc * 256 + Byte.to_N b)%N 0%N bs.

Definition Inc (r : Spiral) : Spiral :=
  mkSpiral (large r) (medium r)
           (drop 1 (small r) ++ [byte_of_N (smallCounter r + 1)])
           (mediumCounter r) (smallCounter r + 1).

Definition Sum (d : BlockData) : N :=
  match d with
  | BRaw c => N_of_bytes (c_nonce c ++ c_key c)
  | BEnvelope e =>
      match env_info e with
      | Some c => N_of_bytes (c_nonce c ++ c_key c)
      | None => 0%N
      end
  end.

Definition Store := list (string * Spiral).

Definition lookup (name : string) (rs : Store) : option Spiral :=
  snd <$> List.find (λ e, bool_decide (e.1 = name)) rs.

(** The store keeps the first ratchet it was given for a name. *)
Definition put (name : string) (r : Spiral) (rs : Store)
  : Error + (option Spiral * Store) :=
  match lookup name rs with
  | Some old => inr (Some old, rs)
  | None => inr (None, (name, r) :: rs)
  end.

#[export] Instance externals : Externals := {|
  ratchet_Inc := Inc;
  ratchet_Key := small;
  ratchet_Previous := λ _ _ _, inr [];
  IdentityBareNamefilter := [];
  NewBareNamefilter := λ parent inum, inr (take 4 parent ++ take 4 inum);
  AddKey := λ bnf key, inr (bnf ++ take 8 key);
  ToName := λ knf, inr (string_of_list_byte knf);
  multihash_Sum := Sum;
  base64_EncodeToString := string_of_list_byte;
  LatestVersion := "2.0.0";
  ModeDefault := 644;
  NodeType_zero := NTFile;
  RatchetStore := Store;
  rs_PutRatchet := put;
  rs_OldestKnownRatchet := λ name rs, inr (lookup name rs);
  rs_Flush := λ rs, inr rs
|}.

(** A pseudo-random tape: a linear congruential generator. *)
Fixpoint lcg (n : nat) (x : N) : list byte :=
  match n with
  | O => []
  | S n => byte_of_N (x / 65536) :: lcg n ((x * 1103515245 + 12345) mod 2147483648)%N
  end.

Definition tape : list byte := Eval vm_compute in lcg 1400 2024.

Definition world : World :=
  {| blocks := ∅;
     hamt := ∅;
     rstore := [];
     entropy := tape;
     clock := 1700000000;
     blockstoreDown := false;
     hamtDown := false |}.

(** The result and the world of a run of [m]; [d] if it does not succeed. *)
Definition out {A} (m : M A) (w : World) (d : A) : A * World :=
  match m w with
  | Ok a w' => (a, w')
  | _ => (d, w)
  end.

Definition blank : Tree := mkTree "" CidUndef Header_zero None None.
Definition noResult : PutResult := mkPutResult CidUndef 0 NTDir CidUndef [] "".

Definition blankData : DataFile :=
  mkDataFile "" CidUndef None Header_zero None VNull None.

(** A fresh root; the root after [Mkdir b] and [Mkdir a]; the root with a
    file [f]; the root with the directories and a file [a/x]. *)
Definition fresh : Tree * World :=
  Eval vm_compute in out (NewEmptyTree [] "root") world blank.
Definition withB : PutResult * Tree * World :=
  Eval vm_compute in out (Tree_Mkdir ["b"] fresh.1) fresh.2 (noResult, blank).
Definition withAB : PutResult * Tree * World :=
  Eval vm_compute in out (Tree_Mkdir ["a"] withB.1.2) withB.2 (noResult, blank).
Definition withF : PutResult * Tree * World :=
  Eval vm_compute in out (Tree_Add ["f"] (SrcBytes [x68; x69]) fresh.1) fresh.2 (noResult, blank).
Definition withAX : PutResult * Tree * World :=
  Eval vm_compute in out (Tree_Add ["a"; "x"] (SrcBytes [x68; x69]) withAB.1.2) withAB.2 (noResult, blank).

(** The runs the properties are tried on. *)
Definition doc : DataFile * World :=
  Eval vm_compute in out (NewDataFile "doc" (VText "hi") []) world blankData.
Definition docPut : PutResult * DataFile * World :=
  Eval vm_compute in out (DataFile_Put doc.1) doc.2 (noResult, blankData).
Definition nested : PutResult * Tree * World :=
  Eval vm_compute in out (Tree_Mkdir ["a"; "b"] fresh.1) fresh.2 (noResult, blank).
Definition replaced : PutResult * Tree * World :=
  Eval vm_compute in out (Tree_Mkdir ["a"; "b"] withAX.1.2) withAX.2 (noResult, blank).
Definition overFile : PutResult * Tree * World :=
  Eval vm_compute in out (Tree_Mkdir ["f"] withF.1.2) withF.2 (noResult, blank).
Definition again : PutResult * Tree * World :=
  Eval vm_compute in out (Tree_Mkdir ["a"] withAX.1.2) withAX.2 (noResult, blank).
Definition removed : PutResult * Tree * World :=
  Eval vm_compute in out (Tree_Rm ["zz"] withAB.1.2) withAB.2 (noResult, blank).
Definition putAB : PutResult * Tree * World :=
  Eval vm_compute in out (Tree_Put withAB.1.2) withAB.2 (noResult, blank).
Definition newRoot : Root * World :=
  Eval vm_compute in out (NewEmptyRoot ctxBackground "root" EmptyKey) world (mkRoot blank ctxTODO).

(** What [Get] answers, reduced to the kind of node and its INumber. *)
Inductive Seen :=
| SeenTree (inum : INumber)
| SeenFile (inum : INumber)
| SeenData (inum : INumber)
| SeenErr (e : Error)
| SeenPanic.

Definition see (o : Outcome Node) : Seen :=
  match o with
  | Ok (NTree t) _ => SeenTree (Tree_INumber t)
  | Ok (NFile f) _ => SeenFile (File_INumber f)
  | Ok (NData d) _ => SeenData (DataFile_INumber d)
  | Err e _ => SeenErr e
  | Panic => SeenPanic
  end.

Definition seenFile (s : Seen) : bool :=
  match s with SeenFile _ => true | _ => false end.

Definition names (pt : Tree) : list string :=
  de_Name <$> (DirEntry_of <$> PrivateLinks_SortedSlice (t_links pt)).

(** More runs: the root put once more and loaded again; a [Put] with the
    index down; the history of the root; the links behind some names. *)
Definition noSpiral : Spiral := mkSpiral [] [] [] 0 0.
Definition noLink : PrivateLink := mkPrivateLink "" 0 false CidUndef [] "".

Definition rootRatchet : Spiral :=
  Eval vm_compute in default noSpiral (t_ratchet putAB.1.2).
Definition docRatchet : Spiral :=
  Eval vm_compute in default noSpiral (d_ratchet docPut.1.2).
Definition indexDown : World :=
  Eval vm_compute in
    mkWorld (blocks fresh.2) (hamt fresh.2) (rstore fresh.2) (entropy fresh.2)
            (clock fresh.2) false true.
Definition failedPut : Error * World :=
  Eval vm_compute in
    match Tree_Put fresh.1 indexDown with
    | Err e w => (e, w)
    | _ => (ErrNotFound, indexDown)
    end.
Definition oldest : Spiral :=
  Eval vm_compute in
    match rs_OldestKnownRatchet (INumber_Encode (Tree_INumber withB.1.2)) (rstore withB.2) with
    | inr (Some r) => r
    | _ => noSpiral
    end.
Definition rootHistory : list HistoryEntry * World :=
  Eval vm_compute in out (history (NTree withB.1.2) 10) withB.2 [].
Definition linksAB : gmap string PrivateLink :=
  Eval vm_compute in default ∅ (t_links withAB.1.2).
Definition loadedRoot : Node * World :=
  Eval vm_compute in
    out (LoadNode "root" (pr_Cid putAB.1.1) (pr_Key putAB.1.1)) putAB.2 (NTree blank).
Definition linkB : PrivateLink :=
  Eval vm_compute in default noLink (PrivateLinks_Get (t_links withB.1.2) "b").
Definition treeB : Tree :=
  Eval vm_compute in
    match LoadNode (link_Name linkB) (link_Cid linkB) (link_Key linkB) withB.2 with
    | Ok (NTree t) _ => t
    | _ => blank
    end.
Definition linkF : PrivateLink :=
  Eval vm_compute in default noLink (PrivateLinks_Get (t_links withF.1.2) "f").
Definition linkA : PrivateLink :=
  Eval vm_compute in default noLink (PrivateLinks_Get (t_links withAX.1.2) "a").
Definition fileF : File :=
  Eval vm_compute in
    match LoadNode (link_Name linkF) (link_Cid linkF) (link_Key linkF) withF.2 with
    | Ok (NFile f) _ => f
    | _ => mkFile "" CidUndef Header_zero None None
    end.
Definition rewritten : PutResult * Tree * World :=
  Eval vm_compute in
    out (Tree_Add ["f"] (SrcBytes [x62; x79; x65]) withF.1.2) withF.2 (noResult, blank).

End Toy.

(** * Properties *)

(** ** The order of names *)

Lemma ascii_compare_refl (c : ascii) : Ascii.compare c c = Eq.
Proof. unfold Ascii.compare. apply N.compare_refl. Qed.

Lemma ascii_compare_lt_trans (x y z : ascii) :
  Ascii.compare x y = Lt → Ascii.compare y z = Lt → Ascii.compare x z = Lt.
Proof.
  unfold Ascii.compare. rewrite !N.compare_lt_iff. apply N.lt_trans.
Qed.

Lemma string_compare_lt_trans (a b c : string) :
  String.compare a b = Lt → String.compare b c = Lt → String.compare a c = Lt.
Proof.
  revert b c. induction a as [|x a IH]; intros [|y b] [|z c]; simpl;
    try discriminate; try reflexivity.
  destruct (Ascii.compare x y) eqn:Exy; try discriminate;
    destruct (Ascii.compare y z) eqn:Eyz; try discriminate; intros Hab Hbc.
  - apply Ascii.compare_eq_iff in Exy, Eyz. subst.
    rewrite ascii_compare_refl. eauto.
  - apply Ascii.compare_eq_iff in Exy. subst. by rewrite Eyz.
  - apply Ascii.compare_eq_iff in Eyz. subst. by rewrite Exy.
  - by rewrite (ascii_compare_lt_trans _ _ _ Exy Eyz).
Qed.

Lemma string_le_alt (a b : string) :
  string_le a b ↔ a = b ∨ String.compare a b = Lt.
Proof.
  unfold string_le, String.leb. split.
  - destruct (String.compare a b) eqn:E; simpl; intros H; try done.
    + left. by apply String.compare_eq_iff.
    + by right.
  - intros [->|H].
    + destruct (String.compare b b) eqn:E; try done.
      pose proof (String.compare_antisym b b) as H.
      rewrite E in H. discriminate H.
    + by rewrite H.
Qed.

#[global] Instance string_le_trans : Transitive string_le.
Proof.
  intros a b c. rewrite !string_le_alt. intros [->|Hab] [->|Hbc]; auto.
  right. eauto using string_compare_lt_trans.
Qed.

#[global] Instance string_le_total : Total string_le.
Proof.
  intros a b. unfold string_le.
  destruct (String.leb_total a b) as [H|H]; rewrite H; simpl; auto.
Qed.

#[global] Instance string_le_antisym : AntiSymm (=) string_le.
Proof.
  intros a b Hab Hba. unfold string_le in *.
  apply String.leb_antisym; by apply Is_true_true.
Qed.

(** ** Machine integers *)

Lemma wrap64_add_l (a b : Z) : wrap64 (wrap64 a + b) = wrap64 (a + b).
Proof.
  unfold wrap64. f_equal.
  replace ((a + 2 ^ 63) mod 2 ^ 64 - 2 ^ 63 + b + 2 ^ 63)
    with ((a + 2 ^ 63) mod 2 ^ 64 + b) by lia.
  replace (a + b + 2 ^ 63) with ((a + 2 ^ 63) + b) by lia.
  by rewrite Zplus_mod_idemp_l.
Qed.

Lemma wrap64_id (z : Z) : - 2 ^ 63 ≤ z < 2 ^ 63 → wrap64 z = z.
Proof. intros H. unfold wrap64. rewrite Z.mod_small; lia. Qed.

Section Properties.

Context {X : Externals}.

(** ** Stepping through monadic code *)

Lemma bind_Ok {A B} (m : M A) (k : A → M B) (w w' : World) (b : B) :
  bind m k w = Ok b w' → ∃ a w1, m w = Ok a w1 ∧ k a w1 = Ok b w'.
Proof.
  unfold bind. destruct (m w) as [a w1|e w1|]; try discriminate. eauto.
Qed.

Lemma bind_Ok_intro {A B} (m : M A) (k : A → M B) (w w1 : World) (a : A) :
  m w = Ok a w1 → bind m k w = k a w1.
Proof. unfold bind. by intros ->. Qed.

Lemma ret_Ok {A} (a b : A) (w w' : World) : ret a w = Ok b w' → a = b ∧ w = w'.
Proof. unfold ret. by intros [= -> ->]. Qed.

Lemma lift_Ok {A} (r : Error + A) (a : A) (w w' : World) :
  lift r w = Ok a w' → r = inr a ∧ w = w'.
Proof. destruct r; unfold lift, fail, ret; intros [=]; by subst. Qed.

Lemma deref_Ok {A} (p : option A) (a : A) (w w' : World) :
  deref p w = Ok a w' → p = Some a ∧ w = w'.
Proof. destruct p; unfold deref, panic, ret; intros [=]; by subst. Qed.

Lemma wrapErr_Ok {A} (msg : string) (m : M A) (a : A) (w w' : World) :
  wrapErr msg m w = Ok a w' → m w = Ok a w'.
Proof. unfold wrapErr. by destruct (m w). Qed.

(** ** History *)

(** C2. For a [Tree] and for a [File]: when the ratchet store answers
    [OldestKnownRatchet] with no ratchet and no error, [History] returns the
    nil list with a nil error, and leaves the world as it was. *)
Theorem history_without_oldest_ratchet_is_silent :
  (∀ (pt : Tree) (maxRevs : Z) (w : World),
      rs_OldestKnownRatchet (INumber_Encode (Tree_INumber pt)) (rstore w) = inr None →
      Tree_History maxRevs pt w = Ok [] w)
  ∧ (∀ (pf : File) (maxRevs : Z) (w : World),
      rs_OldestKnownRatchet (INumber_Encode (File_INumber pf)) (rstore w) = inr None →
      File_History maxRevs pf w = Ok [] w).
Proof.
  split; intros n maxRevs w Hold;
    unfold Tree_History, File_History, history, bind, OldestKnownRatchet;
    cbn [Node_INumber Node_BareNamefilter]; by rewrite Hold.
Qed.

(** ** Type transmutation *)

(** C5. [File.Update] with structured data builds a [DataFile] of type
    [NTDataFile] that carries the file's INumber and bare name filter, but
    whose ratchet pointer is nil, so the [Put] it then calls panics; and
    the same the other way round for [DataFile.Update] with a byte stream. *)
Theorem Update_across_types_panics :
  (∀ (pf : File) (v : Value) (w : World),
      DataFile_Type (File_asDataFile pf v) = NTDataFile
      ∧ DataFile_INumber (File_asDataFile pf v) = File_INumber pf
      ∧ DataFile_BareNamefilter (File_asDataFile pf v) = File_BareNamefilter pf
      ∧ d_ratchet (File_asDataFile pf v) = None
      ∧ File_Update (SrcData (inr v)) pf w = Panic)
  ∧ (∀ (df : DataFile) (bs : list byte) (w : World),
      File_Type (DataFile_asFile df bs) = NTFile
      ∧ File_INumber (DataFile_asFile df bs) = DataFile_INumber df
      ∧ File_BareNamefilter (DataFile_asFile df bs) = DataFile_BareNamefilter df
      ∧ f_ratchet (DataFile_asFile df bs) = None
      ∧ DataFile_Update (SrcBytes bs) df w = Panic).
Proof. split; intros; repeat split; reflexivity. Qed.

(** ** Mode *)

(** C6. [Tree.Mode] is the creation time of the header, cut to 32 bits,
    where [File.Mode] and [DataFile.Mode] of a node with the same header
    give its mode; a tree with mode 644 created at second 1700000000
    answers 1700000000. *)
Theorem Tree_Mode_reads_Ctime :
  (∀ (name : string) (id : Cid) (h : Header) (r : option Spiral) (ls : PrivateLinks)
     (c : option (list byte)),
      Tree_Mode (mkTree name id h r ls) = uint32 (hi_Ctime (h_Info h))
      ∧ File_Mode (mkFile name id h r c) = uint32 (hi_Mode (h_Info h)))
  ∧ (∃ pt : Tree,
        hi_Mode (h_Info (t_header pt)) = 644
        ∧ Tree_Mode pt = 1700000000
        ∧ Tree_Mode pt ≠ uint32 (hi_Mode (h_Info (t_header pt)))).
Proof.
  split; [by intros|].
  exists (mkTree "" CidUndef
            (mkHeader (mkHeaderInfo "" NTDir 644 1700000000 1700000000 0 [] [] "")
                      CidUndef CidUndef None)
            None None).
  by vm_compute.
Qed.

(** ** The root *)

(** C10. [NewEmptyRoot] does not look at [rootKey]: two calls that differ
    in it only have the same outcome; and the key of the root it returns is
    the key of the spiral made of the 96 random bytes drawn after the 32 of
    the INumber. *)
Theorem NewEmptyRoot_ignores_rootKey
    (ctx : GoContext) (name : string) (k1 k2 : Key) (w : World) :
  NewEmptyRoot ctx name k1 w = NewEmptyRoot ctx name k2 w
  ∧ (∀ (root : Root) (w' : World),
        NewEmptyRoot ctx name k1 w = Ok root w' →
        let buf := take 96 (drop 32 (entropy w)) in
        let r := mkSpiral (take 32 buf) (take 32 (drop 32 buf)) (drop 64 buf) 0 0 in
        t_ratchet (r_Tree root) = Some r
        ∧ Tree_Key (r_Tree root) w' = Ok (ratchet_Key r) w').
Proof.
  split; [reflexivity|].
  intros root w' H. unfold NewEmptyRoot in H.
  apply bind_Ok in H as (t & w1 & Ht & H). apply ret_Ok in H as [<- <-].
  unfold NewEmptyTree in Ht.
  apply bind_Ok in Ht as (inum & wa & Hin & Ht).
  apply bind_Ok in Ht as (bnf & wb & Hbnf & Ht).
  apply bind_Ok in Ht as (r & wc & Hr & Ht).
  apply bind_Ok in Ht as (info & wd & Hinfo & Ht).
  apply ret_Ok in Ht as [<- <-].
  apply lift_Ok in Hbnf as [_ <-].
  unfold NewINumber, rand_Read in Hin.
  destruct (decide _) in Hin; [|discriminate]. injection Hin as <- <-.
  unfold NewSpiral, rand_Read in Hr. cbn [entropy] in Hr.
  destruct (decide _) in Hr; [|discriminate]. injection Hr as <- <-.
  cbn. split; [reflexivity|].
  unfold Tree_Key. cbn. reflexivity.
Qed.

(** ** Listing a directory *)

Lemma ReadDir_loop_spec (n i : Z) (links : list PrivateLink) (acc : list DirEntry) :
  ReadDir_loop n i links acc =
  acc ++ (if decide (i ≤ n)
          then take (Z.to_nat (n - i + 1)) (DirEntry_of <$> links)
          else DirEntry_of <$> links).
Proof.
  revert i acc. induction links as [|l links IH]; intros i acc; cbn [ReadDir_loop].
  - rewrite fmap_nil, take_nil. destruct (decide (i ≤ n)); by rewrite app_nil_r.
  - destruct (decide (i = n)) as [->|Hne].
    + rewrite decide_True by lia.
      replace (Z.to_nat (n - n + 1)) with 1%nat by lia.
      by rewrite fmap_cons, firstn_cons, take_0.
    + rewrite IH, <- app_assoc. f_equal. cbn [app].
      destruct (decide (i ≤ n)).
      * rewrite decide_True by lia.
        replace (Z.to_nat (n - i + 1)) with (S (Z.to_nat (n - (i + 1) + 1))) by lia.
        by rewrite fmap_cons, firstn_cons.
      * rewrite decide_False by lia. by rewrite fmap_cons.
Qed.

Lemma SortedSlice_length (pls : PrivateLinks) :
  Z.of_nat (length (PrivateLinks_SortedSlice pls)) = PrivateLinks_len pls.
Proof.
  destruct pls as [m|]; [|reflexivity].
  unfold PrivateLinks_SortedSlice, PrivateLinks_len.
  rewrite length_fmap, merge_sort_Permutation, length_fmap, length_map_to_list.
  reflexivity.
Qed.

Lemma ensureLinks_loaded (pt : Tree) (m : gmap string PrivateLink) (w : World) :
  t_links pt = Some m → ensureLinks pt w = Ok pt w.
Proof. unfold ensureLinks. by intros ->. Qed.


(** ** What the primitives do to the world *)

#[local] Arguments Spiral_Encode : simpl never.
#[local] Arguments NonceSize : simpl never.
#[local] Arguments multihash_Cid : simpl never.
#[local] Arguments PrivateLinks_SizeSum : simpl never.
#[local] Arguments INumber_Encode : simpl never.

Lemma rand_Read_Ok (n : nat) (w w' : World) (buf : list byte) :
  rand_Read n w = Ok buf w' →
  (n ≤ length (entropy w))%nat
  ∧ buf = take n (entropy w)
  ∧ w' = set_entropy (drop n (entropy w)) w.
Proof.
  unfold rand_Read. destruct (decide _); [|discriminate].
  by intros [= <- <-].
Qed.

Lemma rand_Read_enough (n : nat) (w : World) :
  (n ≤ length (entropy w))%nat →
  rand_Read n w = Ok (take n (entropy w)) (set_entropy (drop n (entropy w)) w).
Proof. intros H. unfold rand_Read. by rewrite decide_True. Qed.

Lemma Timestamp_Ok (w w' : World) (t : Z) :
  Timestamp w = Ok t w' → t = clock w ∧ w' = w.
Proof. by intros [= <- <-]. Qed.

Lemma Blockstore_Put_Ok (b : Block) (w w' : World) (u : unit) :
  Blockstore_Put b w = Ok u w' →
  blockstoreDown w = false
  ∧ w' = set_blocks (<[blk_Cid b := blk_RawData b]> (blocks w)) w.
Proof.
  unfold Blockstore_Put. destruct (blockstoreDown w) eqn:E; [discriminate|].
  by intros [= _ <-].
Qed.

Lemma Blockstore_PutMany_Ok (bs : list Block) (w w' : World) (u : unit) :
  Blockstore_PutMany bs w = Ok u w' →
  blockstoreDown w = false
  ∧ w' = set_blocks (foldl (λ m b, <[blk_Cid b := blk_RawData b]> m) (blocks w) bs) w.
Proof.
  unfold Blockstore_PutMany. destruct (blockstoreDown w) eqn:E; [discriminate|].
  by intros [= _ <-].
Qed.

Lemma HAMT_Set_Ok (name : string) (id : Cid) (w w' : World) (u : unit) :
  HAMT_Set name id w = Ok u w' →
  hamtDown w = false ∧ w' = set_hamt (<[name := id]> (hamt w)) w.
Proof.
  unfold HAMT_Set. destruct (hamtDown w) eqn:E; [discriminate|].
  by intros [= _ <-].
Qed.

Lemma PutRatchet_Ok (name : string) (r : Spiral) (w w' : World) (prev : option Spiral) :
  PutRatchet name r w = Ok prev w' →
  ∃ rs, rs_PutRatchet name r (rstore w) = inr (prev, rs) ∧ w' = set_rstore rs w.
Proof.
  unfold PutRatchet. destruct (rs_PutRatchet _ _ _) as [e|[p rs]]; [discriminate|].
  intros [= <- <-]. eauto.
Qed.

Lemma marshalEncryptedBlock_Ok (pls : PrivateLinks) (key : Key) (w w' : World) (b : Block) :
  marshalEncryptedBlock pls key w = Ok b w' →
  (NonceSize ≤ length (entropy w))%nat
  ∧ blk_RawData b = BRaw (Seal key (take NonceSize (entropy w)) (PLinks pls))
  ∧ blk_Cid b = multihash_Cid Raw (blk_RawData b)
  ∧ w' = set_entropy (drop NonceSize (entropy w)) w.
Proof.
  unfold marshalEncryptedBlock. intros H.
  apply bind_Ok in H as (nonce & w1 & Hn & H).
  apply rand_Read_Ok in Hn as (Hlen & -> & ->).
  apply ret_Ok in H as [<- <-]. by cbn.
Qed.

Lemma encryptHeaderBlock_Ok (h : Header) (key : Key) (w w' : World) (b : Block) :
  encryptHeaderBlock h key w = Ok b w' →
  (NonceSize ≤ length (entropy w))%nat
  ∧ (∃ e, blk_RawData b = BEnvelope e
          ∧ env_info e = Some (Seal key (take NonceSize (entropy w)) (PInfo (h_Info h)))
          ∧ env_content e = Some (h_ContentID h)
          ∧ env_value e = None)
  ∧ blk_Cid b = multihash_Cid DagCBOR (blk_RawData b)
  ∧ w' = set_entropy (drop NonceSize (entropy w)) w.
Proof.
  unfold encryptHeaderBlock. intros H.
  apply bind_Ok in H as (nonce & w1 & Hn & H).
  apply rand_Read_Ok in Hn as (Hlen & -> & ->).
  apply ret_Ok in H as [<- <-]. cbn. split; [done|]. split; [|done]. eauto.
Qed.

Lemma Tree_PrivateName_Ok (pt : Tree) (w w' : World) (name : Name) :
  Tree_PrivateName pt w = Ok name w' →
  w' = w
  ∧ ∃ r knf, t_ratchet pt = Some r
             ∧ AddKey (Tree_BareNamefilter pt) (ratchet_Key r) = inr knf
             ∧ ToName knf = inr name.
Proof.
  unfold Tree_PrivateName. intros H.
  apply bind_Ok in H as (r & w1 & Hr & H). apply deref_Ok in Hr as [Hr <-].
  apply bind_Ok in H as (knf & w2 & Hk & H). apply lift_Ok in Hk as [Hk <-].
  apply lift_Ok in H as [H <-]. split; [done|]. eauto.
Qed.

Lemma Tree_PrivateName_intro (pt : Tree) (w : World) (r : Spiral)
    (knf : KeyedNamefilter) (name : Name) :
  t_ratchet pt = Some r →
  AddKey (Tree_BareNamefilter pt) (ratchet_Key r) = inr knf →
  ToName knf = inr name →
  Tree_PrivateName pt w = Ok name w.
Proof.
  intros Hr Hk Hn. unfold Tree_PrivateName, Tree_BareNamefilter in *.
  rewrite Hr. unfold bind, deref, ret. rewrite Hk. cbn. by rewrite Hn.
Qed.

(** ** [Tree.Put], step by step *)

Record Tree_Put_trace (pt : Tree) (w : World) (res : PutResult) (pt' : Tree) (w' : World)
  : Prop := {
  tp_ratchet : ∃ r, t_ratchet pt = Some r ∧ t_ratchet pt' = Some (ratchet_Inc r)
                    ∧ pr_Key res = ratchet_Key (ratchet_Inc r)
                    ∧ hi_Ratchet (h_Info (t_header pt')) = Spiral_Encode (ratchet_Inc r)
                    ∧ ∃ prev, rs_PutRatchet (INumber_Encode (Tree_INumber pt))
                                (ratchet_Inc r) (rstore w) = inr (prev, rstore w');
  tp_name : t_name pt' = t_name pt;
  tp_links : t_links pt' = t_links pt;
  tp_inumber : Tree_INumber pt' = Tree_INumber pt;
  tp_bnf : Tree_BareNamefilter pt' = Tree_BareNamefilter pt;
  tp_type : Tree_Type pt' = Tree_Type pt;
  tp_mtime : hi_Mtime (h_Info (t_header pt')) = hi_Mtime (h_Info (t_header pt));
  tp_size : Tree_Size pt' = PrivateLinks_SizeSum (t_links pt);
  tp_res_size : pr_Size res = Tree_Size pt';
  tp_res_type : pr_Type res = Tree_Type pt';
  tp_res_cid : pr_Cid res = t_cid pt';
  tp_pointer : Tree_PrivateName pt' w' = Ok (pr_Pointer res) w';
  tp_up : blockstoreDown w = false ∧ hamtDown w = false;
  tp_flags : blockstoreDown w' = blockstoreDown w ∧ hamtDown w' = hamtDown w
             ∧ clock w' = clock w;
  tp_entropy : (2 * NonceSize ≤ length (entropy w))%nat
               ∧ entropy w' = drop (2 * NonceSize) (entropy w);
  tp_hamt : hamt w' = <[pr_Pointer res := pr_Cid res]> (hamt w);
  tp_links_block :
    ∃ nonce, blocks w' !! h_ContentID (t_header pt')
             = Some (BRaw (Seal (pr_Key res) nonce (PLinks (t_links pt))));
  tp_header_block :
    ∃ nonce e, blocks w' !! t_cid pt' = Some (BEnvelope e)
               ∧ env_info e = Some (Seal (pr_Key res) nonce (PInfo (h_Info (t_header pt'))))
               ∧ env_content e = Some (h_ContentID (t_header pt'))
               ∧ env_value e = None;
  tp_blocks_mono : ∀ id, id ≠ t_cid pt' → id ≠ h_ContentID (t_header pt') →
                         blocks w' !! id = blocks w !! id
}.

Lemma Tree_Put_Ok (pt : Tree) (w : World) (res : PutResult) (pt' : Tree) (w' : World) :
  Tree_Put pt w = Ok (res, pt') w' → Tree_Put_trace pt w res pt' w'.
Proof.
  unfold Tree_Put. intros H.
  apply bind_Ok in H as (r & w0 & Hr & H). apply deref_Ok in Hr as [Hr <-].
  apply bind_Ok in H as (linksBlk & w1 & Hl & H).
  apply marshalEncryptedBlock_Ok in Hl as (Hlen1 & Hld & Hlc & ->).
  apply bind_Ok in H as (blk & w2 & Hb & H).
  apply encryptHeaderBlock_Ok in Hb as (Hlen2 & (e & Hbd & Hinfo & Hcont & Hval) & Hbc & ->).
  apply bind_Ok in H as ([] & w3 & Hpm & H).
  apply Blockstore_PutMany_Ok in Hpm as (Hup & ->).
  apply bind_Ok in H as (privName & w4 & Hpn & H).
  apply Tree_PrivateName_Ok in Hpn as (-> & r' & knf & Hr' & Hknf & Hname).
  apply bind_Ok in H as (prev & w5 & Hpr & H).
  apply PutRatchet_Ok in Hpr as (rs & Hrs & ->).
  apply bind_Ok in H as ([] & w6 & Hhs & H).
  apply HAMT_Set_Ok in Hhs as (Hhup & ->).
  apply ret_Ok in H as [[= <- <-] <-].
  cbn in *. rewrite length_drop in Hlen2.
  assert (blk_Cid linksBlk ≠ blk_Cid blk) as Hne by (rewrite Hlc, Hbc; discriminate).
  injection Hr' as <-.
  split; try (by eapply (Tree_PrivateName_intro _ _ (ratchet_Inc r) knf));
    cbn; try done.
  - exists r. repeat split; try done. by exists prev.
  - rewrite drop_drop. split; [lia|done].
  - eexists. rewrite lookup_insert_eq. by rewrite Hld.
  - exists (take NonceSize (drop NonceSize (entropy w))), e.
    rewrite lookup_insert_ne by done. rewrite lookup_insert_eq.
    by rewrite Hbd.
  - intros id Hid1 Hid2. by rewrite !lookup_insert_ne by done.
Qed.

(** ** Link tables *)

Lemma SizeSum_spec (pls : PrivateLinks) :
  PrivateLinks_SizeSum pls = wrap64 (links_total pls).
Proof.
  destruct pls as [m|]; [|reflexivity].
  unfold PrivateLinks_SizeSum, links_total. rewrite map_fold_foldr.
  induction (map_to_list m) as [|[k l] kls IH]; [reflexivity|].
  cbn [foldr uncurry]. rewrite IH. unfold add64.
  rewrite wrap64_add_l. f_equal. cbn. lia.
Qed.

Lemma links_wf_empty : links_wf (Some ∅).
Proof. intros m k l [= <-]. by rewrite lookup_empty. Qed.

Lemma links_wf_nil : links_wf None.
Proof. by intros m k l. Qed.

Lemma links_wf_insert (m : gmap string PrivateLink) (link : PrivateLink) :
  links_wf (Some m) → links_wf (Some (<[link_Name link := link]> m)).
Proof.
  intros Hwf m' k l [= <-]. rewrite lookup_insert.
  case_decide as Hk; [by intros [= <-]|]. by apply Hwf.
Qed.

Lemma links_wf_delete (m : gmap string PrivateLink) (name : string) :
  links_wf (Some m) → links_wf (Some (delete name m)).
Proof.
  intros Hwf m' k l [= <-]. rewrite lookup_delete.
  case_decide; [done|]. by apply Hwf.
Qed.

Lemma SortedSlice_names (pls : PrivateLinks) :
  links_wf pls →
  link_Name <$> PrivateLinks_SortedSlice pls =
  match pls with
  | Some m => merge_sort string_le (map_to_list m).*1
  | None => []
  end.
Proof.
  intros Hwf. destruct pls as [m|]; [|reflexivity].
  unfold PrivateLinks_SortedSlice. rewrite <- list_fmap_compose.
  rewrite <- (list_fmap_id (merge_sort _ _)) at 2.
  apply list_fmap_ext. intros i name Hi. cbn.
  assert (name ∈ (map_to_list m).*1) as Hin.
  { rewrite <- (merge_sort_Permutation string_le). by eapply list_elem_of_lookup_2. }
  apply list_elem_of_fmap in Hin as ([k l] & -> & Hkl).
  apply elem_of_map_to_list in Hkl. cbn.
  rewrite (lookup_total_correct _ _ _ Hkl). by eapply Hwf.
Qed.

Lemma SortedSlice_names_sorted (pls : PrivateLinks) :
  links_wf pls →
  StronglySorted string_le (link_Name <$> PrivateLinks_SortedSlice pls)
  ∧ NoDup (link_Name <$> PrivateLinks_SortedSlice pls).
Proof.
  intros Hwf. rewrite SortedSlice_names by done.
  destruct pls as [m|]; [|split; constructor].
  split.
  - apply StronglySorted_merge_sort; apply _.
  - rewrite merge_sort_Permutation. apply NoDup_fst_map_to_list.
Qed.

Lemma ReadDir_loop_names_sorted (n : Z) (ls : list PrivateLink) :
  StronglySorted string_le (link_Name <$> ls) → NoDup (link_Name <$> ls) →
  StronglySorted string_le (de_Name <$> ReadDir_loop n 0 ls [])
  ∧ NoDup (de_Name <$> ReadDir_loop n 0 ls []).
Proof.
  intros Hs Hn. rewrite ReadDir_loop_spec. cbn [app].
  assert (Hnames : de_Name <$> (DirEntry_of <$> ls) = link_Name <$> ls)
    by (by rewrite <- list_fmap_compose).
  destruct (decide (0 ≤ n)); [|by rewrite Hnames].
  rewrite fmap_take, Hnames. split.
  - apply (StronglySorted_app_1_l _ _ (drop (Z.to_nat (n - 0 + 1)) (link_Name <$> ls))).
    by rewrite take_drop.
  - eapply sublist_NoDup; [exact Hn|]. apply sublist_take.
Qed.

(** ** [Put] and the listing of a directory *)


(** ** [DataFile.Put] *)

Lemma rand_Read_unchecked_Ok (old buf : list byte) (w w' : World) :
  rand_Read_unchecked old w = Ok buf w' → ∃ e, w' = set_entropy e w.
Proof.
  unfold rand_Read_unchecked, rand_Read. destruct (decide _); intros [= <- <-].
  - eauto.
  - exists (entropy w). by destruct w.
Qed.

Lemma DataFile_encodeBlock_Ok (df : DataFile) (key : Key) (w w' : World) (b : Block) :
  DataFile_encodeBlock df key w = Ok b w' →
  (∃ e, w' = set_entropy e w)
  ∧ ∃ n1 n2, blk_RawData b =
             BEnvelope (mkEnvelope (Some (Seal key n1 (PInfo (h_Info (d_header df)))))
                                   None (d_Metadata df)
                                   (Some (Seal key n2 (PValue (d_content df))))).
Proof.
  unfold DataFile_encodeBlock. intros H.
  apply bind_Ok in H as (n1 & w1 & H1 & H). apply rand_Read_unchecked_Ok in H1 as (e1 & ->).
  apply bind_Ok in H as (n2 & w2 & H2 & H). apply rand_Read_unchecked_Ok in H2 as (e2 & ->).
  apply ret_Ok in H as [<- <-]. split; [by exists e2|]. by exists n1, n2.
Qed.

Lemma DataFile_PrivateName_Ok (df : DataFile) (w w' : World) (name : Name) :
  DataFile_PrivateName df w = Ok name w' →
  w' = w ∧ ∀ w2, DataFile_PrivateName df w2 = Ok name w2.
Proof.
  unfold DataFile_PrivateName. intros H.
  apply bind_Ok in H as (r & w1 & Hr & H). apply deref_Ok in Hr as [Hr <-].
  apply bind_Ok in H as (knf & w2 & Hk & H). apply lift_Ok in Hk as [Hk <-].
  apply lift_Ok in H as [H <-]. split; [done|].
  intros w2. unfold bind, deref, ret. rewrite Hr, Hk. cbn. by rewrite H.
Qed.

Record DataFile_Put_trace (df : DataFile) (w : World) (res : PutResult)
    (df' : DataFile) (w' : World) : Prop := {
  dp_hamt : hamt w' = hamt w;
  dp_rstore : rstore w' = rstore w;
  dp_size : DataFile_Size df' = DataFile_Size df;
  dp_res_size : pr_Size res = DataFile_Size df;
  dp_content : d_content df' = d_content df;
  dp_inumber : DataFile_INumber df' = DataFile_INumber df;
  dp_type : pr_Type res = DataFile_Type df;
  dp_res_cid : pr_Cid res = d_cid df';
  dp_pointer : DataFile_PrivateName df' w' = Ok (pr_Pointer res) w';
  dp_block : is_Some (blocks w' !! d_cid df')
}.

Lemma DataFile_Put_Ok (df : DataFile) (w : World) (res : PutResult)
    (df' : DataFile) (w' : World) :
  DataFile_Put df w = Ok (res, df') w' → DataFile_Put_trace df w res df' w'.
Proof.
  unfold DataFile_Put. intros H.
  apply bind_Ok in H as (r & w0 & Hr & H). apply deref_Ok in Hr as [Hr <-].
  apply bind_Ok in H as (now & w1 & Hnow & H). apply Timestamp_Ok in Hnow as [-> ->].
  apply bind_Ok in H as (blk & w2 & Hb & H).
  apply DataFile_encodeBlock_Ok in Hb as ((e & ->) & _).
  apply bind_Ok in H as (name & w3 & Hn & H).
  apply DataFile_PrivateName_Ok in Hn as (-> & Hname).
  apply bind_Ok in H as ([] & w4 & Hp & H).
  apply Blockstore_Put_Ok in Hp as (Hup & ->).
  apply ret_Ok in H as [[= <- <-] <-].
  split; try done. cbn. by rewrite lookup_insert_eq.
Qed.

(** C1. A successful [DataFile.Put] stores the node's block and returns
    its new private name, but leaves the HAMT index and the ratchet store
    exactly as they were: the name is not mapped to the header cid and the
    new ratchet is not recorded. *)
Theorem DataFile_Put_skips_index_and_ratchet_store
    (df : DataFile) (w : World) (res : PutResult) (df' : DataFile) (w' : World) :
  DataFile_Put df w = Ok (res, df') w' →
  DataFile_PrivateName df' w' = Ok (pr_Pointer res) w'
  ∧ is_Some (blocks w' !! d_cid df')
  ∧ hamt w' = hamt w
  ∧ rstore w' = rstore w.
Proof. intros H. by destruct (DataFile_Put_Ok _ _ _ _ _ H). Qed.

Lemma cbor_head_nonempty (major n : N) : (0 < length (cbor_head major n))%nat.
Proof. unfold cbor_head. repeat case_decide; cbn; lia. Qed.

Lemma cbor_Marshal_nonempty (v : Value) : (0 < length (cbor_Marshal v))%nat.
Proof.
  destruct v as [|[]|n|s|vs]; cbn; rewrite ?length_app;
    try pose proof (cbor_head_nonempty 0 n);
    try pose proof (cbor_head_nonempty 3 (N.of_nat (length (list_byte_of_string s))));
    try pose proof (cbor_head_nonempty 4 (N.of_nat (length vs))); lia.
Qed.

Lemma NewDataFile_Ok (name : string) (v : Value) (parent : BareNamefilter)
    (w w' : World) (df : DataFile) :
  NewDataFile name v parent w = Ok df w' →
  DataFile_Size df = 0 ∧ d_content df = v ∧ DataFile_Type df = NTDataFile.
Proof.
  unfold NewDataFile. intros H.
  apply bind_Ok in H as (inum & w1 & _ & H).
  apply bind_Ok in H as (bnf & w2 & _ & H).
  apply bind_Ok in H as (r & w3 & _ & H).
  apply bind_Ok in H as (info & w4 & Hinfo & H).
  apply ret_Ok in H as [<- <-].
  unfold NewHeaderInfo in Hinfo.
  apply bind_Ok in Hinfo as (now & w5 & _ & Hinfo). by apply ret_Ok in Hinfo as [<- _].
Qed.

(** C7. [DataFile.Put] does not touch the size in the header: a data file
    made by [NewDataFile] has size 0 after its [Put], in the node and in the
    [PutResult], while the CBOR encoding of its content has at least one
    byte. *)
Theorem DataFile_Put_leaves_Size
    (name : string) (v : Value) (parent : BareNamefilter)
    (w w1 w2 : World) (df df' : DataFile) (res : PutResult) :
  NewDataFile name v parent w = Ok df w1 →
  DataFile_Put df w1 = Ok (res, df') w2 →
  d_content df' = v
  ∧ DataFile_Size df' = 0
  ∧ pr_Size res = 0
  ∧ DataFile_Size df' ≠ Z.of_nat (length (cbor_Marshal (d_content df'))).
Proof.
  intros Hnew Hput. apply NewDataFile_Ok in Hnew as (Hsz & Hc & _).
  destruct (DataFile_Put_Ok _ _ _ _ _ Hput).
  rewrite dp_content0, dp_res_size0, dp_size0, Hsz, Hc. repeat split; try done.
  pose proof (cbor_Marshal_nonempty v). lia.
Qed.

(** ** [Rm] *)

Lemma Tree_Put_ready (pt : Tree) (w : World) :
  Put_ready pt w → ∃ res pt' w', Tree_Put pt w = Ok (res, pt') w'.
Proof.
  intros (Hbs & Hh & Hlen & H).
  destruct (t_ratchet pt) as [r|] eqn:Hr; [|done].
  destruct (AddKey _ _) as [|knf] eqn:Hk; [done|].
  destruct (ToName knf) as [|name] eqn:Hn; [done|].
  destruct (rs_PutRatchet _ _ _) as [|[prev rs]] eqn:Hrs; [done|]. clear H.
  unfold Tree_Put. unfold bind at 1. unfold deref. rewrite Hr. unfold ret at 1.
  unfold bind at 1. unfold marshalEncryptedBlock, bind at 1.
  rewrite rand_Read_enough by lia. unfold ret at 1.
  unfold bind at 1. unfold encryptHeaderBlock, bind at 1.
  rewrite rand_Read_enough by (cbn [entropy set_entropy]; rewrite length_drop; lia).
  unfold ret at 1.
  unfold bind at 1. unfold Blockstore_PutMany. cbn [blockstoreDown set_entropy].
  rewrite Hbs.
  unfold bind at 1.
  erewrite Tree_PrivateName_intro; [|reflexivity|exact Hk|exact Hn].
  unfold bind at 1. unfold PutRatchet. cbn.
  unfold Tree_INumber in Hrs. rewrite Hrs. cbn.
  unfold bind, HAMT_Set. cbn. rewrite Hh. unfold ret. eauto.
Qed.

Lemma Put_ready_touch (pt : Tree) (w : World) (now : Z) :
  Put_ready pt w →
  Put_ready (set_t_header (upd_Info (set_hi_Mtime now) (t_header pt)) pt) w.
Proof. by intros H. Qed.

(** C4. [Rm] of a single name that the loaded link table does not hold
    returns no error: whenever the world lets [Put] through, it succeeds,
    puts the tree and leaves the link table as it was. *)
Theorem Tree_Rm_absent_leaf_succeeds
    (name : string) (pt pt1 : Tree) (w w1 : World) :
  name ≠ "" →
  ensureLinks pt w = Ok pt1 w1 →
  PrivateLinks_Get (t_links pt1) name = None →
  Put_ready pt1 w1 →
  ∃ res pt' w',
    Tree_Rm [name] pt w = Ok (res, pt') w'
    ∧ t_links pt' = t_links pt1
    ∧ hamt w' !! pr_Pointer res = Some (pr_Cid res).
Proof.
  intros Hname Hload Habsent Hready.
  set (pt2 := set_t_header (upd_Info (set_hi_Mtime (clock w1)) (t_header pt1)) pt1).
  destruct (Tree_Put_ready pt2 w1) as (res & pt' & w' & Hput);
    [by apply Put_ready_touch|].
  exists res, pt', w'. destruct (Tree_Put_Ok _ _ _ _ _ Hput).
  split; [|split; [done|by rewrite tp_hamt0, lookup_insert_eq]].
  cbn [Tree_Rm]. rewrite decide_False by done.
  rewrite (bind_Ok_intro _ _ _ _ _ Hload).
  assert (removeUserlandLink name pt1 w1 = Ok pt2 w1) as Hrm.
  { unfold removeUserlandLink, bind, Timestamp, ret. do 2 f_equal.
    unfold pt2. destruct pt1 as [n c h r [m|]]; cbn in *; [|done].
    by rewrite delete_id. }
  by rewrite (bind_Ok_intro _ _ _ _ _ Hrm).
Qed.

(** ** [Mkdir] *)

Lemma unmarshalPrivateLinksBlock_Ok (blk : Block) (key : Key) (w w' : World)
    (links : PrivateLinks) :
  unmarshalPrivateLinksBlock blk key w = Ok links w' → w' = w.
Proof.
  unfold unmarshalPrivateLinksBlock. destruct (blk_RawData blk) as [e|c]; [discriminate|].
  intros H. apply bind_Ok in H as (p & w1 & Hp & H). apply lift_Ok in Hp as [_ <-].
  destruct p; try discriminate. by apply ret_Ok in H as [_ <-].
Qed.

Lemma GetBlock_Ok (id : Cid) (w w' : World) (b : Block) :
  GetBlock id w = Ok b w' →
  w' = w ∧ blockstoreDown w = false ∧ blk_Cid b = id ∧ blocks w !! id = Some (blk_RawData b).
Proof.
  unfold GetBlock. destruct (blockstoreDown w); [discriminate|].
  destruct (blocks w !! id); [|discriminate]. by intros [= <- <-].
Qed.

Lemma ensureLinks_Ok (pt pt1 : Tree) (w w1 : World) :
  ensureLinks pt w = Ok pt1 w1 →
  w1 = w ∧ ∃ links, pt1 = set_t_links links pt.
Proof.
  unfold ensureLinks. destruct (t_links pt) as [m|] eqn:Hm.
  - intros [= <- <-]. split; [done|]. exists (Some m). destruct pt; cbn in *; by subst.
  - intros H. apply bind_Ok in H as (blk & w2 & Hb & H).
    apply GetBlock_Ok in Hb as (-> & _).
    apply bind_Ok in H as (key & w3 & Hk & H).
    unfold Tree_Key in Hk. apply bind_Ok in Hk as (r & w4 & Hr & Hk).
    apply deref_Ok in Hr as [_ <-]. apply ret_Ok in Hk as [_ <-].
    apply bind_Ok in H as (links & w5 & Hl & H).
    apply unmarshalPrivateLinksBlock_Ok in Hl as ->.
    apply ret_Ok in H as [<- <-]. eauto.
Qed.

Lemma getOrCreateDirectChildTree_Ok (name : string) (pt child pt1 : Tree) (w w1 : World) :
  getOrCreateDirectChildTree name pt w = Ok (child, pt1) w1 →
  ensureLinks pt w = Ok pt1 w.
Proof.
  unfold getOrCreateDirectChildTree. intros H.
  apply bind_Ok in H as (pt2 & w2 & He & H).
  pose proof He as He'. apply ensureLinks_Ok in He' as (-> & _).
  destruct (PrivateLinks_Get _ _);
    apply bind_Ok in H as (c & w3 & _ & H); by apply ret_Ok in H as [[= <- <-] <-].
Qed.

Lemma updateUserlandLink_Ok (name : string) (res : PutResult) (pt pt' : Tree) (w w' : World) :
  updateUserlandLink name res pt w = Ok pt' w' →
  w' = w
  ∧ Tree_INumber pt' = Tree_INumber pt
  ∧ Tree_Type pt' = Tree_Type pt
  ∧ ∃ m, t_links pt = Some m
         ∧ t_links pt' = Some (<[name := ToPrivateLink res name]> m).
Proof.
  unfold updateUserlandLink. intros H.
  apply bind_Ok in H as (links & w1 & Hl & H).
  unfold PrivateLinks_Add in Hl. destruct (t_links pt) as [m|] eqn:Hm; [|discriminate].
  apply ret_Ok in Hl as [<- <-].
  apply bind_Ok in H as (now & w2 & Hn & H). apply Timestamp_Ok in Hn as [-> ->].
  apply ret_Ok in H as [<- <-]. repeat split; try done. by exists m.
Qed.

Lemma Tree_Mkdir_leaf_Ok (b : string) (pt pt' : Tree) (res : PutResult) (w w' : World) :
  Tree_Mkdir [b] pt w = Ok (res, pt') w' →
  Tree_INumber pt' = Tree_INumber pt
  ∧ pr_Cid res = t_cid pt'
  ∧ pr_Type res = Tree_Type pt
  ∧ hamt w' !! pr_Pointer res = Some (pr_Cid res)
  ∧ ∃ link, PrivateLinks_Get (t_links pt') b = Some link ∧ link_Name link = b.
Proof.
  cbn [Tree_Mkdir]. intros H.
  apply bind_Ok in H as ([child pt1] & w1 & Hg & H).
  apply getOrCreateDirectChildTree_Ok, ensureLinks_Ok in Hg as (_ & links & ->).
  apply bind_Ok in H as ([res1 pt2] & w2 & Hc & H).
  apply bind_Ok in Hc as ([res2 child'] & w3 & _ & Hc).
  apply ret_Ok in Hc as [[= <- <-] <-].
  apply bind_Ok in H as (pt3 & w4 & Hu & H).
  apply updateUserlandLink_Ok in Hu as (-> & Hin & Hty & m & Hm & Hm').
  destruct (Tree_Put_Ok _ _ _ _ _ H).
  rewrite tp_inumber0, Hin, tp_res_type0, tp_type0, Hty, tp_links0, Hm', tp_hamt0.
  repeat split; try done.
  - by rewrite lookup_insert_eq.
  - eexists. cbn. by rewrite lookup_insert_eq.
Qed.

(** C3. [Mkdir] of a two-name path [a; b] does not make [b] inside [a]:
    the directory it got or made for [a] is dropped and [b] is made by
    [Mkdir [b]] on the receiver itself (a tree with the receiver's INumber);
    what is then linked under [a] is the result of that call, the header the
    receiver was just put under, and [b] stays linked in the receiver. *)
Theorem Tree_Mkdir_nested_lands_in_receiver
    (a b : string) (pt pt' : Tree) (res : PutResult) (w w' : World) :
  Tree_Mkdir [a; b] pt w = Ok (res, pt') w' →
  ∃ (pt0 pt1 : Tree) (res1 : PutResult) (w0 w1 : World),
    Tree_Mkdir [b] pt0 w0 = Ok (res1, pt1) w1
    ∧ Tree_INumber pt0 = Tree_INumber pt
    ∧ Tree_INumber pt1 = Tree_INumber pt
    ∧ pr_Cid res1 = t_cid pt1
    ∧ PrivateLinks_Get (t_links pt') a = Some (ToPrivateLink res1 a)
    ∧ (a ≠ b → ∃ link, PrivateLinks_Get (t_links pt') b = Some link
                       ∧ link_Name link = b).
Proof.
  intros H. change (Tree_Mkdir [a; b] pt) with
    (let* '(childDir, pt) := getOrCreateDirectChildTree a pt in
     let* '(res, pt) := Tree_Mkdir [b] pt in
     let* pt := updateUserlandLink a res pt in
     Tree_Put pt) in H.
  apply bind_Ok in H as ([child pt0] & w0 & Hg & H).
  apply getOrCreateDirectChildTree_Ok, ensureLinks_Ok in Hg as (_ & links & ->).
  apply bind_Ok in H as ([res1 pt1] & w1 & Hin & H).
  apply bind_Ok in H as (pt2 & w2 & Hu & H).
  apply updateUserlandLink_Ok in Hu as (-> & _ & _ & m & Hm & Hm').
  destruct (Tree_Put_Ok _ _ _ _ _ H).
  destruct (Tree_Mkdir_leaf_Ok _ _ _ _ _ _ Hin) as (Hi & Hc & _ & _ & link & Hl & Hn).
  exists (set_t_links links pt), pt1, res1, w0, w1.
  rewrite tp_links0, Hm'. cbn [PrivateLinks_Get].
  repeat split; try done.
  - by rewrite lookup_insert_eq.
  - intros Hab. exists link. rewrite lookup_insert_ne by done.
    rewrite Hm in Hl. done.
Qed.

(** ** What [Tree.Put] and [File.Put] leave in the index

    The two sibling pipelines do record the new private name and the new
    ratchet, and the header they index decrypts under the new key. *)

Lemma decodeHeaderBlock_sealed (id : Cid) (e : Envelope) (key : Key)
    (nonce : list byte) (info : HeaderInfo) (content : Cid) (w : World) :
  env_info e = Some (Seal key nonce (PInfo info)) →
  env_content e = Some content →
  hi_Type info ≠ NTDataFile →
  ∃ h, decodeHeaderBlock (mkBlock id (BEnvelope e)) key w = Ok h w
       ∧ h_Info h = info ∧ h_ContentID h = content.
Proof.
  intros Hinfo Hcont Hty. unfold decodeHeaderBlock. cbn [blk_RawData].
  rewrite Hinfo. unfold bind, wrapErr, lift, Open, Seal. cbn [c_key c_plain].
  rewrite decide_True by done. unfold ret, HeaderInfoFromCBOR, ret.
  rewrite decide_False by done. rewrite Hcont. eauto.
Qed.

Lemma Tree_Put_index_resolves
    (pt : Tree) (w : World) (res : PutResult) (pt' : Tree) (w' : World) :
  Tree_Type pt ≠ NTDataFile →
  Tree_Put pt w = Ok (res, pt') w' →
  Tree_PrivateName pt' w' = Ok (pr_Pointer res) w'
  ∧ cidFromPrivateName (pr_Pointer res) w' = Ok (t_cid pt') w'
  ∧ (∃ r prev, t_ratchet pt' = Some r
               ∧ rs_PutRatchet (INumber_Encode (Tree_INumber pt')) r (rstore w)
                 = inr (prev, rstore w'))
  ∧ ∃ h, loadHeader (pr_Key res) (t_cid pt') w' = Ok h w'
         ∧ h_Info h = h_Info (t_header pt').
Proof.
  intros Hty Hput. destruct (Tree_Put_Ok _ _ _ _ _ Hput).
  destruct tp_up0 as [Hbs Hh]. destruct tp_flags0 as (Hbs' & Hh' & _).
  split; [done|]. split; [|split].
  - unfold cidFromPrivateName, bind, HAMT_FindRaw.
    by rewrite Hh', Hh, tp_hamt0, lookup_insert_eq, tp_res_cid0.
  - destruct tp_ratchet0 as (r & _ & Hr' & _ & _ & prev & Hrs).
    exists (ratchet_Inc r), prev. by rewrite tp_inumber0.
  - destruct tp_header_block0 as (nonce & e & Hblk & Hinfo & Hcont & _).
    destruct (decodeHeaderBlock_sealed (t_cid pt') e _ _ _ _ w' Hinfo Hcont)
      as (h & Hdec & Hh1 & _); [by rewrite <- tp_type0 in Hty|].
    exists h. split; [|done].
    unfold loadHeader, bind, wrapErr, GetBlock. by rewrite Hbs', Hbs, Hblk.
Qed.

Lemma PutEncryptedFile_Ok (content : option (list byte)) (key : Key)
    (w w' : World) (id : Cid) (size : Z) :
  PutEncryptedFile content key w = Ok (id, size) w' →
  blockstoreDown w = false
  ∧ ∃ bs d, content = Some bs ∧ size = Z.of_nat (length bs)
            ∧ id = multihash_Cid Raw d
            ∧ w' = set_blocks (<[id := d]> (blocks w))
                     (set_entropy (drop NonceSize (entropy w)) w).
Proof.
  unfold PutEncryptedFile. intros H.
  apply bind_Ok in H as (bs & w0 & Hc & H). apply deref_Ok in Hc as [Hc <-].
  apply bind_Ok in H as (nonce & w1 & Hn & H).
  apply rand_Read_Ok in Hn as (_ & -> & ->).
  apply bind_Ok in H as ([] & w2 & Hp & H).
  apply Blockstore_Put_Ok in Hp as (Hup & ->).
  apply ret_Ok in H as [[= <- <-] <-]. split; [done|]. by eexists _, _.
Qed.

Lemma File_PrivateName_Ok (pf : File) (w w' : World) (name : Name) :
  File_PrivateName pf w = Ok name w' →
  w' = w ∧ ∀ w2, File_PrivateName pf w2 = Ok name w2.
Proof.
  unfold File_PrivateName. intros H.
  apply bind_Ok in H as (r & w1 & Hr & H). apply deref_Ok in Hr as [Hr <-].
  apply bind_Ok in H as (knf & w2 & Hk & H). apply lift_Ok in Hk as [Hk <-].
  apply lift_Ok in H as [H <-]. split; [done|].
  intros w2. unfold bind, deref, ret. rewrite Hr, Hk. cbn. by rewrite H.
Qed.

Lemma File_Put_index_resolves
    (pf : File) (w : World) (res : PutResult) (pf' : File) (w' : World) :
  File_Type pf ≠ NTDataFile →
  File_Put pf w = Ok (res, pf') w' →
  File_PrivateName pf' w' = Ok (pr_Pointer res) w'
  ∧ cidFromPrivateName (pr_Pointer res) w' = Ok (f_cid pf') w'
  ∧ (∃ r prev, f_ratchet pf' = Some r
               ∧ rs_PutRatchet (INumber_Encode (File_INumber pf')) r (rstore w)
                 = inr (prev, rstore w'))
  ∧ (∃ h, loadHeader (pr_Key res) (f_cid pf') w' = Ok h w'
          ∧ h_Info h = h_Info (f_header pf'))
  ∧ ∃ bs, f_content pf = Some bs ∧ File_Size pf' = Z.of_nat (length bs).
Proof.
  intros Hty. unfold File_Put. intros H.
  apply bind_Ok in H as (r & w0 & Hr & H). apply deref_Ok in Hr as [Hr <-].
  apply bind_Ok in H as ([cid size] & w1 & Hpe & H).
  apply PutEncryptedFile_Ok in Hpe as (Hbs & bs & d & Hc & -> & -> & ->).
  apply bind_Ok in H as (now & w2 & Hnow & H). apply Timestamp_Ok in Hnow as [-> ->].
  apply bind_Ok in H as (blk & w3 & Hb & H).
  apply encryptHeaderBlock_Ok in Hb as (_ & (e & Hbd & Hinfo & Hcont & _) & Hbc & ->).
  apply bind_Ok in H as ([] & w4 & Hp & H).
  apply Blockstore_Put_Ok in Hp as (_ & ->).
  apply bind_Ok in H as (privName & w5 & Hpn & H).
  apply File_PrivateName_Ok in Hpn as (-> & Hname).
  apply bind_Ok in H as (prev & w6 & Hpr & H).
  apply PutRatchet_Ok in Hpr as (rs & Hrs & ->).
  apply bind_Ok in H as ([] & w7 & Hhs & H).
  apply HAMT_Set_Ok in Hhs as (Hh & ->).
  apply ret_Ok in H as [[= <- <-] Hw].
  cbn in Hh, Hrs, Hinfo, Hcont, Hbs.
  assert (blockstoreDown w' = false) as HbsW by (by rewrite <- Hw).
  assert (hamtDown w' = false) as HhW by (by rewrite <- Hw).
  assert (hamt w' = <[privName := blk_Cid blk]> (hamt w)) as HhamtW
    by (by rewrite <- Hw).
  assert (rstore w' = rs) as HrsW by (by rewrite <- Hw).
  assert (blocks w' !! blk_Cid blk = Some (BEnvelope e)) as HblkW
    by (rewrite <- Hw; cbn; by rewrite lookup_insert_eq, Hbd).
  clear Hw.
  split; [apply Hname|]. split; [|split; [|split]].
  - unfold cidFromPrivateName, bind, HAMT_FindRaw. cbn [f_cid set_f_cid].
    by rewrite HhW, HhamtW, lookup_insert_eq.
  - exists (ratchet_Inc r), prev. by rewrite HrsW.
  - destruct (decodeHeaderBlock_sealed (blk_Cid blk) e _ _ _ _ w' Hinfo Hcont)
      as (h & Hdec & Hh1 & _); [done|].
    exists h. split; [|done].
    unfold loadHeader, bind, wrapErr, GetBlock. cbn [f_cid set_f_cid pr_Key].
    by rewrite HbsW, HblkW.
  - by exists bs.
Qed.

(** ** The link table keeps every link under its own name *)

Lemma NewEmptyTree_wf (parent : BareNamefilter) (name : string) (w w' : World) (pt : Tree) :
  NewEmptyTree parent name w = Ok pt w' → links_wf (t_links pt).
Proof.
  unfold NewEmptyTree. intros H.
  apply bind_Ok in H as (inum & w1 & _ & H).
  apply bind_Ok in H as (bnf & w2 & _ & H).
  apply bind_Ok in H as (r & w3 & _ & H).
  apply bind_Ok in H as (info & w4 & _ & H).
  apply ret_Ok in H as [<- _]. apply links_wf_empty.
Qed.

Lemma updateUserlandLink_wf (name : string) (res : PutResult) (pt pt' : Tree) (w w' : World) :
  links_wf (t_links pt) →
  updateUserlandLink name res pt w = Ok pt' w' → links_wf (t_links pt').
Proof.
  intros Hwf H. apply updateUserlandLink_Ok in H as (_ & _ & _ & m & Hm & ->).
  rewrite Hm in Hwf. by apply (links_wf_insert m (ToPrivateLink res name)).
Qed.

Lemma removeUserlandLink_wf (name : string) (pt pt' : Tree) (w w' : World) :
  links_wf (t_links pt) →
  removeUserlandLink name pt w = Ok pt' w' → links_wf (t_links pt').
Proof.
  intros Hwf. unfold removeUserlandLink. intros H.
  apply bind_Ok in H as (now & w1 & _ & H). apply ret_Ok in H as [<- _].
  cbn. destruct (t_links pt) as [m|]; cbn; [by apply links_wf_delete|done].
Qed.

Lemma Tree_Put_wf (pt pt' : Tree) (res : PutResult) (w w' : World) :
  links_wf (t_links pt) → Tree_Put pt w = Ok (res, pt') w' → links_wf (t_links pt').
Proof. intros Hwf H. destruct (Tree_Put_Ok _ _ _ _ _ H). by rewrite tp_links0. Qed.

Lemma links_wf_Forall (m : gmap string PrivateLink) :
  map_Forall (λ k l, link_Name l = k) m → links_wf (Some m).
Proof. intros H m' k l [= <-]. apply H. Qed.

Lemma Tree_Mkdir_leaf_wf (b : string) (pt pt' : Tree) (res : PutResult) (w w' : World)
    (m : gmap string PrivateLink) :
  t_links pt = Some m → links_wf (Some m) →
  Tree_Mkdir [b] pt w = Ok (res, pt') w' →
  ∃ m', t_links pt' = Some m' ∧ links_wf (Some m').
Proof.
  intros Hm Hwf. cbn [Tree_Mkdir]. intros H.
  apply bind_Ok in H as ([child pt1] & w1 & Hg & H).
  apply getOrCreateDirectChildTree_Ok in Hg.
  rewrite (ensureLinks_loaded pt m w Hm) in Hg. injection Hg as <-.
  apply bind_Ok in H as ([res1 pt2] & w2 & Hc & H).
  apply bind_Ok in Hc as ([res2 child'] & w3 & _ & Hc).
  apply ret_Ok in Hc as [[= <- <-] <-].
  apply bind_Ok in H as (pt3 & w4 & Hu & H).
  pose proof Hu as Hu'. apply updateUserlandLink_Ok in Hu' as (_ & _ & _ & m0 & _ & Hm3).
  eapply updateUserlandLink_wf in Hu; [|by rewrite Hm].
  destruct (Tree_Put_Ok _ _ _ _ _ H). rewrite tp_links0, Hm3. rewrite Hm3 in Hu. eauto.
Qed.

End Properties.

(** * More properties of the code *)

Section MoreProperties.

Context {X : Externals}.

#[local] Arguments Spiral_Encode : simpl never.
#[local] Arguments NonceSize : simpl never.
#[local] Arguments multihash_Cid : simpl never.
#[local] Arguments PrivateLinks_SizeSum : simpl never.
#[local] Arguments INumber_Encode : simpl never.

(** ** Operations that respect a relation between worlds *)

Section Respects.

Context (R : relation World) `{!PreOrder R}.

Lemma respects_ret {A} (a : A) : respects R (ret a).
Proof. intros w. unfold ret. reflexivity. Qed.

Lemma respects_fail {A} (e : Error) : respects R (fail (A := A) e).
Proof. intros w. unfold fail. reflexivity. Qed.

Lemma respects_panic {A} : respects R (panic (A := A)).
Proof. by intros w. Qed.

Lemma respects_lift {A} (r : Error + A) : respects R (lift r).
Proof. destruct r; [apply respects_fail|apply respects_ret]. Qed.

Lemma respects_deref {A} (p : option A) : respects R (deref p).
Proof. destruct p; [apply respects_ret|apply respects_panic]. Qed.

Lemma respects_bind {A B} (m : M A) (k : A → M B) :
  respects R m → (∀ a, respects R (k a)) → respects R (bind m k).
Proof.
  intros Hm Hk w. unfold bind. specialize (Hm w).
  destruct (m w) as [a w1|e w1|]; [|done..].
  specialize (Hk a w1). destruct (k a w1); try done; by transitivity w1.
Qed.

Lemma respects_wrapErr {A} (msg : string) (m : M A) :
  respects R m → respects R (wrapErr msg m).
Proof. intros Hm w. unfold wrapErr. specialize (Hm w). by destruct (m w). Qed.

Lemma respects_readonly {A} (m : M A) : readonly m → respects R m.
Proof. intros Hm w. specialize (Hm w). destruct (m w); subst; done. Qed.

End Respects.

#[local] Instance grows_preorder : PreOrder grows.
Proof.
  split.
  - by intros w.
  - intros w1 w2 w3 (Hb & Hh & E1 & E2 & E3) (Hb' & Hh' & E1' & E2' & E3').
    repeat split; [by eauto|by eauto|congruence..].
Qed.

#[local] Instance same_index_preorder : PreOrder same_index.
Proof. split; [by intros w|]. unfold same_index. intros w1 w2 w3. congruence. Qed.

Create HintDb respects.

Ltac respect :=
  repeat first
    [ progress intros
    | progress cbv beta zeta
    | apply respects_ret; apply _
    | apply respects_fail; apply _
    | apply respects_panic
    | apply respects_lift; apply _
    | apply respects_deref; apply _
    | solve [eauto with respects]
    | match goal with
      | |- respects eq ?m => change (readonly m); solve [eauto with respects]
      | |- respects grows ?m => change (additive m); solve [eauto with respects]
      end
    | apply respects_readonly; [apply _|solve [eauto with respects]]
    | apply respects_wrapErr
    | apply respects_bind; [apply _| |]
    | match goal with
      | |- respects _ (match ?x with _ => _ end) => destruct x
      end ].

(** ** Reading *)

Lemma readonly_GetBlock (id : Cid) : readonly (GetBlock id).
Proof.
  intros w. unfold GetBlock. destruct (blockstoreDown w); [done|].
  by destruct (blocks w !! id).
Qed.

Lemma readonly_HAMT_FindRaw (name : string) : readonly (HAMT_FindRaw name).
Proof. intros w. unfold HAMT_FindRaw. by destruct (hamtDown w). Qed.

Lemma readonly_HAMT_Find (name : string) : readonly (HAMT_Find name).
Proof. intros w. unfold HAMT_Find. by destruct (hamtDown w). Qed.

Lemma readonly_OldestKnownRatchet (name : string) : readonly (OldestKnownRatchet name).
Proof. intros w. unfold OldestKnownRatchet. by destruct (rs_OldestKnownRatchet _ _). Qed.

Lemma readonly_Timestamp : readonly Timestamp.
Proof. by intros w. Qed.

#[local] Hint Resolve readonly_GetBlock readonly_HAMT_FindRaw readonly_HAMT_Find
  readonly_OldestKnownRatchet readonly_Timestamp : respects.

Lemma readonly_decodeHeaderBlock (blk : Block) (key : Key) :
  readonly (decodeHeaderBlock blk key).
Proof. unfold readonly, decodeHeaderBlock, HeaderInfoFromCBOR. respect. Qed.

#[local] Hint Resolve readonly_decodeHeaderBlock : respects.

Lemma readonly_loadHeader (key : Key) (id : Cid) : readonly (loadHeader key id).
Proof. unfold readonly, loadHeader. respect. Qed.

#[local] Hint Resolve readonly_loadHeader : respects.

Lemma readonly_cidFromPrivateName (pn : Name) : readonly (cidFromPrivateName pn).
Proof. unfold readonly, cidFromPrivateName. respect. Qed.

Lemma readonly_LoadTree (name : string) (key : Key) (id : Cid) :
  readonly (LoadTree name key id).
Proof. unfold readonly, LoadTree. respect. Qed.

Lemma readonly_LoadNode (name : string) (id : Cid) (key : Key) :
  readonly (LoadNode name id key).
Proof. unfold readonly, LoadNode. respect. Qed.

Lemma readonly_LoadFile (name : string) (key : Key) (id : Cid) :
  readonly (LoadFile name key id).
Proof. unfold readonly, LoadFile. respect. Qed.

Lemma readonly_LoadDataFile (name : string) (id : Cid) (key : Key) :
  readonly (LoadDataFile name id key).
Proof. unfold readonly, LoadDataFile, decodeDataFileBlock, HeaderInfoFromCBOR. respect. Qed.

#[local] Hint Resolve readonly_cidFromPrivateName readonly_LoadTree readonly_LoadNode
  readonly_LoadFile readonly_LoadDataFile : respects.

Lemma readonly_ensureLinks (pt : Tree) : readonly (ensureLinks pt).
Proof.
  unfold readonly, ensureLinks, Tree_Key, unmarshalPrivateLinksBlock. respect.
Qed.

#[local] Hint Resolve readonly_ensureLinks : respects.

Lemma readonly_Tree_Get (path : list string) (pt : Tree) : readonly (Tree_Get path pt).
Proof.
  revert pt. induction path as [|head tail IH]; intros pt; cbn [Tree_Get].
  - apply respects_ret, _.
  - unfold readonly. respect.
Qed.

Lemma readonly_Tree_ReadDir (n : Z) (pt : Tree) : readonly (Tree_ReadDir n pt).
Proof. unfold readonly, Tree_ReadDir. respect. Qed.

Lemma readonly_loadHeader_logged (key : Key) (id : Cid) :
  readonly (loadHeader_logged key id).
Proof.
  intros w. unfold loadHeader_logged. pose proof (readonly_loadHeader key id w) as H.
  by destruct (loadHeader key id w).
Qed.

#[local] Hint Resolve readonly_loadHeader_logged : respects.

Lemma readonly_history_loop (bnf : BareNamefilter) (ratchets : list Spiral) :
  readonly (history_loop bnf ratchets).
Proof.
  induction ratchets as [|r rs IH]; cbn [history_loop]; unfold readonly; respect.
Qed.

#[local] Hint Resolve readonly_history_loop : respects.

Lemma readonly_history (n : Node) (maxRevs : Z) : readonly (history n maxRevs).
Proof. unfold readonly, history. respect. Qed.

Lemma readonly_LoadRoot (ctx : GoContext) (name : string) (rootKey : Key) (rootName : Name) :
  readonly (LoadRoot ctx name rootKey rootName).
Proof. unfold readonly, LoadRoot. respect. Qed.

(** X1. [Get], [ReadDir], [History] and the loaders ([LoadNode], [LoadTree],
    [LoadFile], [LoadDataFile], [LoadRoot]) never write: whether they succeed
    or return an error, the block store, the index, the ratchet store, the
    random source and the clock are exactly as before the call. *)
Theorem reads_leave_the_world :
  (∀ (path : list string) (pt : Tree), readonly (Tree_Get path pt))
  ∧ (∀ (n : Z) (pt : Tree), readonly (Tree_ReadDir n pt))
  ∧ (∀ (n : Node) (maxRevs : Z), readonly (Node_History maxRevs n))
  ∧ (∀ (name : string) (id : Cid) (key : Key),
        readonly (LoadNode name id key) ∧ readonly (LoadTree name key id)
        ∧ readonly (LoadFile name key id) ∧ readonly (LoadDataFile name id key))
  ∧ (∀ (ctx : GoContext) (name : string) (rootKey : Key) (rootName : Name),
        readonly (LoadRoot ctx name rootKey rootName)).
Proof.
  split; [apply readonly_Tree_Get|]. split; [apply readonly_Tree_ReadDir|].
  split.
  - intros [t|f|d] maxRevs; cbn [Node_History];
      [apply readonly_history|apply readonly_history|apply respects_fail, _].
  - split; [|apply readonly_LoadRoot]. intros name id key.
    auto using readonly_LoadNode, readonly_LoadTree, readonly_LoadFile,
      readonly_LoadDataFile.
Qed.

(** ** Writing only adds *)

Lemma grows_set_entropy (e : list byte) (w : World) : grows w (set_entropy e w).
Proof. by repeat split. Qed.

Lemma grows_set_rstore (rs : RatchetStore) (w : World) : grows w (set_rstore rs w).
Proof. by repeat split. Qed.

Lemma grows_set_blocks_insert (id : Cid) (d : BlockData) (w : World) :
  grows w (set_blocks (<[id := d]> (blocks w)) w).
Proof.
  repeat split; try done. intros id' H. cbn. rewrite lookup_insert_is_Some.
  destruct (decide (id = id')); auto.
Qed.

Lemma grows_set_hamt_insert (name : string) (id : Cid) (w : World) :
  grows w (set_hamt (<[name := id]> (hamt w)) w).
Proof.
  repeat split; try done. intros n H. cbn. rewrite lookup_insert_is_Some.
  destruct (decide (name = n)); auto.
Qed.

Lemma additive_rand_Read (n : nat) : additive (rand_Read n).
Proof.
  intros w. unfold rand_Read. destruct (decide _); [apply grows_set_entropy|reflexivity].
Qed.

Lemma additive_rand_Read_unchecked (old : list byte) : additive (rand_Read_unchecked old).
Proof.
  intros w. unfold rand_Read_unchecked. pose proof (additive_rand_Read (length old) w) as H.
  by destruct (rand_Read (length old) w).
Qed.

Lemma additive_NewINumber : additive NewINumber.
Proof.
  intros w. unfold NewINumber. pose proof (additive_rand_Read 32 w) as H.
  by destruct (rand_Read 32 w).
Qed.

Lemma additive_NewSpiral : additive NewSpiral.
Proof.
  intros w. unfold NewSpiral. pose proof (additive_rand_Read 96 w) as H.
  by destruct (rand_Read 96 w).
Qed.

Lemma additive_Blockstore_Put (b : Block) : additive (Blockstore_Put b).
Proof.
  intros w. unfold Blockstore_Put.
  destruct (blockstoreDown w); [reflexivity|apply grows_set_blocks_insert].
Qed.

Lemma additive_Blockstore_PutMany (bs : list Block) : additive (Blockstore_PutMany bs).
Proof.
  intros w. unfold Blockstore_PutMany. destruct (blockstoreDown w); [reflexivity|].
  repeat split; try done. intros id. cbn. generalize (blocks w).
  induction bs as [|b bs IH]; intros m Hm; cbn [foldl]; [done|].
  apply IH. rewrite lookup_insert_is_Some. destruct (decide (blk_Cid b = id)); auto.
Qed.

Lemma additive_HAMT_Set (name : string) (id : Cid) : additive (HAMT_Set name id).
Proof.
  intros w. unfold HAMT_Set.
  destruct (hamtDown w); [reflexivity|apply grows_set_hamt_insert].
Qed.

Lemma additive_PutRatchet (name : string) (r : Spiral) : additive (PutRatchet name r).
Proof.
  intros w. unfold PutRatchet.
  destruct (rs_PutRatchet _ _ _) as [e|[prev rs]]; [reflexivity|apply grows_set_rstore].
Qed.

#[local] Hint Resolve additive_rand_Read additive_rand_Read_unchecked additive_NewINumber
  additive_NewSpiral additive_Blockstore_Put additive_Blockstore_PutMany additive_HAMT_Set
  additive_PutRatchet : respects.

Lemma additive_Tree_Put (pt : Tree) : additive (Tree_Put pt).
Proof.
  unfold additive, Tree_Put, marshalEncryptedBlock, encryptHeaderBlock, Tree_PrivateName.
  respect.
Qed.

Lemma additive_File_Put (pf : File) : additive (File_Put pf).
Proof.
  unfold additive, File_Put, PutEncryptedFile, encryptHeaderBlock, File_PrivateName.
  respect.
Qed.

Lemma additive_DataFile_Put (df : DataFile) : additive (DataFile_Put df).
Proof.
  unfold additive, DataFile_Put, DataFile_encodeBlock, DataFile_PrivateName. respect.
Qed.

#[local] Hint Resolve additive_Tree_Put additive_File_Put additive_DataFile_Put : respects.

Lemma additive_NewEmptyTree (parent : BareNamefilter) (name : string) :
  additive (NewEmptyTree parent name).
Proof. unfold additive, NewEmptyTree, NewHeaderInfo. respect. Qed.

Lemma additive_NewFile (parent : BareNamefilter) (f : list byte) :
  additive (NewFile parent f).
Proof. unfold additive, NewFile, NewHeaderInfo. respect. Qed.

Lemma additive_NewDataFile (name : string) (v : Value) (parent : BareNamefilter) :
  additive (NewDataFile name v parent).
Proof. unfold additive, NewDataFile, NewHeaderInfo. respect. Qed.

Lemma additive_Node_Update (change : FsFile) (n : Node) : additive (Node_Update change n).
Proof.
  unfold additive. destruct n as [t|f|d]; cbn [Node_Update];
    unfold Tree_Update, File_Update, DataFile_Update; respect.
Qed.

Lemma additive_Node_Put (n : Node) : additive (Node_Put n).
Proof. unfold additive. destruct n as [t|f|d]; cbn [Node_Put]; respect. Qed.

#[local] Hint Resolve additive_NewEmptyTree additive_NewFile additive_NewDataFile
  additive_Node_Update : respects.

Lemma additive_updateUserlandLink (name : string) (res : PutResult) (pt : Tree) :
  additive (updateUserlandLink name res pt).
Proof. unfold additive, updateUserlandLink, PrivateLinks_Add. respect. Qed.

Lemma additive_removeUserlandLink (name : string) (pt : Tree) :
  additive (removeUserlandLink name pt).
Proof. unfold additive, removeUserlandLink. respect. Qed.

Lemma additive_getOrCreateDirectChildTree (name : string) (pt : Tree) :
  additive (getOrCreateDirectChildTree name pt).
Proof. unfold additive, getOrCreateDirectChildTree. respect. Qed.

Lemma additive_createOrUpdateChildFile (name : string) (f : FsFile) (pt : Tree) :
  additive (createOrUpdateChildFile name f pt).
Proof. unfold additive, createOrUpdateChildFile. respect. Qed.

#[local] Hint Resolve additive_updateUserlandLink additive_removeUserlandLink
  additive_getOrCreateDirectChildTree additive_createOrUpdateChildFile : respects.

Lemma additive_Tree_Add (path : list string) (f : FsFile) (pt : Tree) :
  additive (Tree_Add path f pt).
Proof.
  revert pt. induction path as [|head tail IH]; intros pt; cbn [Tree_Add];
    unfold additive; respect.
Qed.

Lemma additive_Tree_Rm (path : list string) (pt : Tree) : additive (Tree_Rm path pt).
Proof.
  revert pt. induction path as [|head tail IH]; intros pt; cbn [Tree_Rm];
    unfold additive; respect.
Qed.

Lemma additive_Tree_Mkdir (path : list string) (pt : Tree) : additive (Tree_Mkdir path pt).
Proof.
  revert pt. induction path as [|head tail IH]; intros pt; cbn [Tree_Mkdir];
    unfold additive; respect.
Qed.

(** X2. [Add], [Rm], [Mkdir] and the three [Put]s only add to the stores:
    whether they succeed or fail, every cid that had a block still has one
    and every name that was in the index still is; in particular [Rm]
    deletes no block. *)
Theorem mutations_only_add :
  (∀ (path : list string) (f : FsFile) (pt : Tree), additive (Tree_Add path f pt))
  ∧ (∀ (path : list string) (pt : Tree), additive (Tree_Rm path pt))
  ∧ (∀ (path : list string) (pt : Tree), additive (Tree_Mkdir path pt))
  ∧ (∀ n : Node, additive (Node_Put n)).
Proof.
  split; [|split; [|split]].
  - intros path f pt. apply additive_Tree_Add.
  - intros path pt. apply additive_Tree_Rm.
  - intros path pt. apply additive_Tree_Mkdir.
  - intros n. apply additive_Node_Put.
Qed.

(** ** A failed [Put] and the index *)

Lemma bind_Err_respects {A B} (R : relation World) `{!PreOrder R}
    (m : M A) (k : A → M B) :
  respects R m →
  (∀ a w e w', k a w = Err e w' → R w w') →
  ∀ w e w', bind m k w = Err e w' → R w w'.
Proof.
  intros Hm Hk w e w'. unfold bind. specialize (Hm w).
  destruct (m w) as [a w1|e1 w1|]; [|by intros [= _ <-]|done].
  intros H. transitivity w1; [done|by eapply Hk].
Qed.

Lemma same_index_rand_Read (n : nat) : respects same_index (rand_Read n).
Proof. intros w. unfold rand_Read. by destruct (decide _). Qed.

Lemma same_index_Blockstore_Put (b : Block) : respects same_index (Blockstore_Put b).
Proof. intros w. unfold Blockstore_Put. by destruct (blockstoreDown w). Qed.

Lemma same_index_Blockstore_PutMany (bs : list Block) :
  respects same_index (Blockstore_PutMany bs).
Proof. intros w. unfold Blockstore_PutMany. by destruct (blockstoreDown w). Qed.

Lemma same_index_PutRatchet (name : string) (r : Spiral) :
  respects same_index (PutRatchet name r).
Proof. intros w. unfold PutRatchet. by destruct (rs_PutRatchet _ _ _) as [?|[? ?]]. Qed.

#[local] Hint Resolve same_index_rand_Read same_index_Blockstore_Put
  same_index_Blockstore_PutMany same_index_PutRatchet : respects.

Lemma HAMT_Set_last_Err {A} (name : string) (id : Cid) (a : A)
    (w : World) (e : Error) (w' : World) :
  (let* _ := HAMT_Set name id in ret a) w = Err e w' → same_index w w'.
Proof.
  unfold bind, HAMT_Set, ret. destruct (hamtDown w); [|discriminate].
  by intros [= _ <-].
Qed.

(** X3. A [Tree.Put] or [File.Put] that returns an error has not changed
    the index: the entry for the new private name is written last, after the
    blocks and the ratchet, so a failure leaves at most orphaned blocks and
    a ratchet-store entry behind. *)
Theorem failed_Put_keeps_the_index :
  (∀ (pt : Tree) (w w' : World) (e : Error),
      Tree_Put pt w = Err e w' → hamt w' = hamt w)
  ∧ (∀ (pf : File) (w w' : World) (e : Error),
      File_Put pf w = Err e w' → hamt w' = hamt w).
Proof.
  split.
  - intros pt w w' e. unfold Tree_Put, marshalEncryptedBlock, encryptHeaderBlock,
      Tree_PrivateName.
    change (hamt w' = hamt w) with (same_index w w'). revert w e w'.
    repeat (first [ apply HAMT_Set_last_Err
                  | apply bind_Err_respects; [apply _|respect|intros ?] ]).
  - intros pf w w' e. unfold File_Put, PutEncryptedFile, encryptHeaderBlock,
      File_PrivateName.
    change (hamt w' = hamt w) with (same_index w w'). revert w e w'.
    repeat (first [ apply HAMT_Set_last_Err
                  | apply bind_Err_respects; [apply _|respect|intros ?] ]).
Qed.

(** ** What was put can be loaded *)

Ltac tree_put_trace H :=
  destruct (Tree_Put_Ok _ _ _ _ _ H)
    as [tp_ratchet0 tp_name0 tp_links0 tp_inumber0 tp_bnf0 tp_type0 tp_mtime0 tp_size0
        tp_res_size0 tp_res_type0 tp_res_cid0 tp_pointer0 tp_up0 tp_flags0 tp_entropy0
        tp_hamt0 tp_links_block0 tp_header_block0 tp_blocks_mono0].

Lemma ensureLinks_after_Put
    (pt : Tree) (w : World) (res : PutResult) (pt' : Tree) (w' : World) :
  Tree_Put pt w = Ok (res, pt') w' →
  ensureLinks pt' w' = Ok (set_t_links (t_links pt) pt') w'.
Proof.
  intros Hput. tree_put_trace Hput.
  destruct tp_ratchet0 as (r & Hr & Hr' & Hkey & _).
  destruct (t_links pt') as [m|] eqn:Hm.
  - rewrite (ensureLinks_loaded pt' m w' Hm). f_equal.
    rewrite <- tp_links0. destruct pt'; cbn in *; by subst.
  - destruct tp_links_block0 as (nonce & Hblk).
    destruct tp_flags0 as (Hbs & _). destruct tp_up0 as (Hup & _).
    unfold ensureLinks. rewrite Hm. unfold bind, GetBlock.
    rewrite Hbs, Hup, Hblk. unfold Tree_Key, bind, deref. rewrite Hr'.
    unfold ret, unmarshalPrivateLinksBlock. cbn [blk_RawData].
    unfold bind, lift, Open, Seal. cbn [c_key c_plain].
    rewrite Hkey, decide_True by done. unfold ret. by rewrite <- tp_links0.
Qed.

Lemma PrivateLinks_Get_Remove (pls : PrivateLinks) (name : string) :
  PrivateLinks_Get (PrivateLinks_Remove pls name).2 name = None.
Proof. destruct pls as [m|]; cbn; [apply lookup_delete_eq|done]. Qed.

(** X4. After a successful [Rm] of a single name, [Get] of that name on the
    tree and in the world that [Rm] leaves returns [ErrNotFound], whether or
    not the name was linked before. *)
Theorem Rm_then_Get_is_not_found
    (name : string) (pt pt' : Tree) (res : PutResult) (w w' : World) :
  name ≠ "" →
  Tree_Rm [name] pt w = Ok (res, pt') w' →
  Tree_Get [name] pt' w' = Err ErrNotFound w'.
Proof.
  intros Hname H. cbn [Tree_Rm] in H. rewrite decide_False in H by done.
  apply bind_Ok in H as (pt1 & w1 & _ & H).
  apply bind_Ok in H as (pt2 & w2 & Hrm & H).
  unfold removeUserlandLink in Hrm.
  apply bind_Ok in Hrm as (now & w3 & Hnow & Hrm). apply Timestamp_Ok in Hnow as [-> ->].
  apply ret_Ok in Hrm as [<- <-].
  pose proof (ensureLinks_after_Put _ _ _ _ _ H) as Hload.
  cbn [Tree_Get]. rewrite decide_False by done.
  rewrite (bind_Ok_intro _ _ _ _ _ Hload). cbn [t_links set_t_links set_t_header].
  by rewrite PrivateLinks_Get_Remove.
Qed.

Lemma LoadTree_after_Put
    (pt : Tree) (w : World) (res : PutResult) (pt' : Tree) (w' : World)
    (name : string) (r' : Spiral) :
  Tree_Type pt ≠ NTDataFile →
  Tree_Put pt w = Ok (res, pt') w' →
  t_ratchet pt' = Some r' →
  DecodeSpiral (Spiral_Encode r') = inr r' →
  ∃ h : Header,
    h_Info h = h_Info (t_header pt')
    ∧ h_ContentID h = h_ContentID (t_header pt')
    ∧ LoadTree name (pr_Key res) (pr_Cid res) w'
      = Ok (mkTree name (pr_Cid res) (upd_Info (set_hi_Ratchet "") h) (Some r') None) w'.
Proof.
  intros Hty Hput Hr' Hdec. tree_put_trace Hput.
  destruct tp_up0 as [Hbs Hh]. destruct tp_flags0 as (Hbs' & Hh' & _).
  destruct tp_ratchet0 as (r & Hr & Hr2 & Hkey & Henc & _).
  rewrite Hr' in Hr2. injection Hr2 as ->.
  destruct tp_header_block0 as (nonce & e & Hblk & Hinfo & Hcont & _).
  destruct (decodeHeaderBlock_sealed (t_cid pt') e _ _ _ _ w' Hinfo Hcont)
    as (h & Hdecode & Hh1 & Hh2); [by rewrite <- tp_type0 in Hty|].
  assert (Hload : loadHeader (pr_Key res) (pr_Cid res) w' = Ok h w').
  { unfold loadHeader, bind, wrapErr, GetBlock.
    by rewrite tp_res_cid0, Hbs', Hbs, Hblk. }
  exists h. split; [done|]. split; [done|].
  unfold LoadTree. rewrite (bind_Ok_intro _ _ _ _ _ Hload).
  unfold bind, wrapErr, lift. by rewrite Hh1, Henc, Hdec.
Qed.

(** X5. What [Tree.Put] wrote, [LoadTree] reads back: for a tree that is not
    typed as a data file and whose new ratchet survives encoding, loading
    the returned cid with the returned key, in the world [Put] leaves, gives
    a tree with the header that was sealed (its ratchet text cleared), the
    same ratchet and private name, and a link table that loads to the one
    that was put. *)
Theorem Tree_Put_then_LoadTree
    (pt : Tree) (w : World) (res : PutResult) (pt' : Tree) (w' : World)
    (name : string) (r' : Spiral) :
  Tree_Type pt ≠ NTDataFile →
  Tree_Put pt w = Ok (res, pt') w' →
  t_ratchet pt' = Some r' →
  DecodeSpiral (Spiral_Encode r') = inr r' →
  ∃ t : Tree,
    LoadTree name (pr_Key res) (pr_Cid res) w' = Ok t w'
    ∧ h_Info (t_header t) = set_hi_Ratchet "" (h_Info (t_header pt'))
    ∧ h_ContentID (t_header t) = h_ContentID (t_header pt')
    ∧ t_ratchet t = Some r'
    ∧ t_cid t = t_cid pt'
    ∧ t_links t = None
    ∧ Tree_PrivateName t w' = Ok (pr_Pointer res) w'
    ∧ ensureLinks t w' = Ok (set_t_links (t_links pt) t) w'.
Proof.
  intros Hty Hput Hr' Hdec.
  destruct (LoadTree_after_Put pt w res pt' w' name r' Hty Hput Hr' Hdec)
    as (h & Hh1 & Hh2 & HloadTree).
  tree_put_trace Hput.
  destruct tp_up0 as [Hbs Hh]. destruct tp_flags0 as (Hbs' & Hh' & _).
  destruct tp_ratchet0 as (r & Hr & Hr2 & Hkey & Henc & _).
  rewrite Hr' in Hr2. injection Hr2 as Hr2. subst r'.
  eexists. split; [exact HloadTree|].
  cbn [t_header t_ratchet t_cid t_links upd_Info h_Info h_ContentID].
  rewrite Hh1, Hh2. repeat split; try done.
  - destruct (Tree_PrivateName_Ok _ _ _ _ tp_pointer0) as (_ & r2 & knf & Hr2 & Hk & Hn).
    rewrite Hr' in Hr2. injection Hr2 as <-.
    apply (Tree_PrivateName_intro _ _ (ratchet_Inc r) knf); [done| |done].
    unfold Tree_BareNamefilter in *. cbn. by rewrite Hh1.
  - destruct tp_links_block0 as (nonce' & Hlb).
    unfold ensureLinks. cbn [t_links t_header h_ContentID upd_Info].
    unfold bind, GetBlock. rewrite Hbs', Hbs, Hh2, Hlb.
    unfold Tree_Key, bind, deref. cbn [t_ratchet].
    unfold ret, unmarshalPrivateLinksBlock. cbn [blk_RawData].
    unfold bind, lift, Open, Seal. cbn [c_key c_plain].
    by rewrite Hkey, decide_True by done.
Qed.

(** X6. Reopening by name: after a successful [Tree.Put] under the same
    conditions, and a private name that is not empty, [LoadRoot] with the
    returned key and private name finds the tree [LoadTree] loads from the
    returned cid, and so does [LoadTreeFromName]; with the empty private
    name [LoadRoot] fails at once, and with a name the index does not hold
    it returns an error that wraps [ErrNotFound]. *)
Theorem Tree_Put_then_LoadRoot
    (pt : Tree) (w : World) (res : PutResult) (pt' : Tree) (w' : World)
    (ctx : GoContext) (name : string) (r' : Spiral) :
  Tree_Type pt ≠ NTDataFile →
  Tree_Put pt w = Ok (res, pt') w' →
  t_ratchet pt' = Some r' →
  DecodeSpiral (Spiral_Encode r') = inr r' →
  pr_Pointer res ≠ "" →
  (∃ t : Tree,
      LoadTree name (pr_Key res) (pr_Cid res) w' = Ok t w'
      ∧ LoadRoot ctx name (pr_Key res) (pr_Pointer res) w' = Ok (mkRoot t ctx) w'
      ∧ LoadTreeFromName (pr_Key res) name (pr_Pointer res) w' = Ok t w'
      ∧ Tree_INumber t = Tree_INumber pt)
  ∧ LoadRoot ctx name (pr_Key res) "" w' = Err (ErrNew "privateName is required") w'
  ∧ (∀ other : string, other ≠ "" → hamt w' !! other = None →
       LoadRoot ctx name (pr_Key res) other w'
       = Err (ErrWrap "finding key" ErrNotFound) w').
Proof.
  intros Hty Hput Hr' Hdec Hptr.
  destruct (LoadTree_after_Put pt w res pt' w' name r' Hty Hput Hr' Hdec)
    as (h & Hinfo & _ & Hload).
  tree_put_trace Hput.
  destruct tp_up0 as [_ Hh]. destruct tp_flags0 as (_ & Hh' & _).
  assert (Hfind : hamt w' !! (pr_Pointer res : string) = Some (pr_Cid res))
    by (by rewrite tp_hamt0, lookup_insert_eq).
  split; [|split].
  - eexists. split; [exact Hload|]. split; [|split].
    + unfold LoadRoot. rewrite decide_False by done.
      unfold bind, wrapErr, HAMT_Find. rewrite Hh', Hh, Hfind, Hload. done.
    + unfold LoadTreeFromName, cidFromPrivateName, bind, HAMT_FindRaw.
      by rewrite Hh', Hh, Hfind.
    + rewrite <- tp_inumber0. unfold Tree_INumber. cbn. by rewrite Hinfo.
  - unfold LoadRoot. by rewrite decide_True.
  - intros other Hne Hnone. unfold LoadRoot. rewrite decide_False by done.
    unfold bind, wrapErr, HAMT_Find. by rewrite Hh', Hh, Hnone.
Qed.

(** ** Data files *)

Lemma DataFile_Put_block
    (df : DataFile) (w : World) (res : PutResult) (df' : DataFile) (w' : World) :
  DataFile_Put df w = Ok (res, df') w' →
  blockstoreDown w' = false
  ∧ pr_Cid res = d_cid df'
  ∧ d_content df' = d_content df
  ∧ (∃ r, d_ratchet df = Some r
          ∧ d_ratchet df' = Some (ratchet_Inc r)
          ∧ pr_Key res = ratchet_Key (ratchet_Inc r)
          ∧ h_Info (d_header df')
            = set_hi_Mtime (clock w)
                (set_hi_Ratchet (Spiral_Encode (ratchet_Inc r)) (h_Info (d_header df))))
  ∧ ∃ n1 n2,
      blocks w' !! d_cid df'
      = Some (BEnvelope
                (mkEnvelope (Some (Seal (pr_Key res) n1 (PInfo (h_Info (d_header df')))))
                            None (d_Metadata df)
                            (Some (Seal (pr_Key res) n2 (PValue (d_content df)))))).
Proof.
  unfold DataFile_Put. intros H.
  apply bind_Ok in H as (r & w0 & Hr & H). apply deref_Ok in Hr as [Hr <-].
  apply bind_Ok in H as (now & w1 & Hnow & H). apply Timestamp_Ok in Hnow as [-> ->].
  apply bind_Ok in H as (blk & w2 & Hb & H).
  apply DataFile_encodeBlock_Ok in Hb as ((e & ->) & n1 & n2 & Hdata).
  apply bind_Ok in H as (name & w3 & Hn & H).
  apply DataFile_PrivateName_Ok in Hn as (-> & Hname).
  apply bind_Ok in H as ([] & w4 & Hp & H).
  apply Blockstore_Put_Ok in Hp as (Hup & ->).
  apply ret_Ok in H as [[= <- <-] <-].
  cbn in *. repeat split; try done.
  - by exists r.
  - exists n1, n2. by rewrite lookup_insert_eq, Hdata.
Qed.

(** X7. What [DataFile.Put] wrote, [LoadNode] reads back: for a node typed
    as a data file whose new ratchet survives encoding, loading the returned
    cid with the returned key gives a data file with the value that was put,
    the header that was sealed, and the same ratchet and private name. *)
Theorem DataFile_Put_then_LoadNode
    (df : DataFile) (w : World) (res : PutResult) (df' : DataFile) (w' : World)
    (name : string) (r' : Spiral) :
  DataFile_Type df = NTDataFile →
  DataFile_Put df w = Ok (res, df') w' →
  d_ratchet df' = Some r' →
  DecodeSpiral (Spiral_Encode r') = inr r' →
  ∃ d : DataFile,
    LoadNode name (pr_Cid res) (pr_Key res) w' = Ok (NData d) w'
    ∧ d_content d = d_content df
    ∧ h_Info (d_header d) = set_hi_Ratchet "" (h_Info (d_header df'))
    ∧ d_ratchet d = Some r'
    ∧ DataFile_PrivateName d w' = Ok (pr_Pointer res) w'.
Proof.
  intros Hty Hput Hr' Hdec.
  destruct (DataFile_Put_block _ _ _ _ _ Hput)
    as (Hbs & Hcid & Hcontent & (r & Hr & Hr2 & Hkey & Hinfo) & n1 & n2 & Hblk).
  destruct (DataFile_Put_Ok _ _ _ _ _ Hput) as [_ _ _ _ _ _ _ _ Hptr _].
  rewrite Hr' in Hr2. injection Hr2 as ->.
  assert (Hty' : hi_Type (h_Info (d_header df')) = NTDataFile)
    by (by rewrite Hinfo).
  assert (Hload : loadHeader (pr_Key res) (pr_Cid res) w'
                  = Ok (mkHeader (h_Info (d_header df'))
                          (match d_Metadata df with Some m => m | None => CidUndef end)
                          CidUndef (Some (d_content df))) w').
  { unfold loadHeader, bind, wrapErr, GetBlock. rewrite Hcid, Hbs, Hblk.
    unfold decodeHeaderBlock. cbn [blk_RawData env_info env_metadata env_value].
    unfold bind, wrapErr, lift, Open, Seal. cbn [c_key c_plain].
    rewrite !decide_True by done. unfold ret, HeaderInfoFromCBOR, ret.
    by rewrite decide_True by done. }
  eexists. split.
  - unfold LoadNode. unfold bind at 1. unfold wrapErr. rewrite Hload.
    unfold bind, lift. cbn [h_Info]. rewrite Hinfo. cbn [hi_Ratchet set_hi_Mtime
      set_hi_Ratchet]. rewrite Hdec. unfold ret. cbn [upd_Info h_Info hi_Type
      set_hi_Ratchet set_hi_Mtime].
    unfold DataFile_Type in Hty. rewrite Hty. reflexivity.
  - cbn. rewrite Hinfo. repeat split; try done.
    destruct (DataFile_PrivateName_Ok _ _ _ _ Hptr) as [_ Hany].
    specialize (Hany w'). unfold DataFile_PrivateName in *.
    rewrite Hr' in Hany. cbn. by rewrite Hinfo in Hany.
Qed.

(** X8. [LoadDataFile] cannot read what [DataFile.Put] wrote: the block
    carries the value under "value" and [decodeDataFileBlock] looks for it
    under "content", so loading the returned cid with the returned key ends
    in the error "missing content bytes". *)
Theorem LoadDataFile_rejects_what_Put_wrote
    (df : DataFile) (w : World) (res : PutResult) (df' : DataFile) (w' : World)
    (name : string) :
  DataFile_Put df w = Ok (res, df') w' →
  LoadDataFile name (pr_Cid res) (pr_Key res) w'
  = Err (ErrNew "malformed private DataFile node: missing content bytes") w'.
Proof.
  intros Hput.
  destruct (DataFile_Put_block _ _ _ _ _ Hput)
    as (Hbs & Hcid & _ & _ & n1 & n2 & Hblk).
  unfold LoadDataFile, bind, GetBlock. rewrite Hcid, Hbs, Hblk.
  unfold decodeDataFileBlock. cbn [blk_RawData env_info env_content].
  unfold bind, lift, Open, Seal. cbn [c_key c_plain].
  by rewrite decide_True by done.
Qed.

(** ** Keys *)

(** X9. A header that [Tree.Put] sealed opens under the returned key only:
    with any other key [loadHeader] returns the authentication error wrapped
    as "decrypting info", and [LoadTree] and [LoadNode] return it in turn,
    [LoadNode] wrapped once more. *)
Theorem Tree_Put_header_needs_the_key
    (pt : Tree) (w : World) (res : PutResult) (pt' : Tree) (w' : World)
    (name : string) (key : Key) :
  Tree_Put pt w = Ok (res, pt') w' →
  key ≠ pr_Key res →
  let denied := ErrWrap "decrypting info"
                  (ErrNew "cipher: message authentication failed") in
  loadHeader key (pr_Cid res) w' = Err denied w'
  ∧ LoadTree name key (pr_Cid res) w' = Err denied w'
  ∧ LoadNode name (pr_Cid res) key w' = Err (ErrWrap "decoding s-node header" denied) w'.
Proof.
  intros Hput Hkey denied. tree_put_trace Hput.
  destruct tp_up0 as [Hbs _]. destruct tp_flags0 as (Hbs' & _).
  destruct tp_header_block0 as (nonce & e & Hblk & Hinfo & _).
  assert (Hload : loadHeader key (pr_Cid res) w' = Err denied w').
  { unfold loadHeader, bind, wrapErr, GetBlock. rewrite tp_res_cid0, Hbs', Hbs, Hblk.
    unfold decodeHeaderBlock. cbn [blk_RawData]. rewrite Hinfo.
    unfold bind, wrapErr, lift, Open, Seal. cbn [c_key c_plain].
    by rewrite decide_False by done. }
  split; [done|]. split.
  - unfold LoadTree, bind. by rewrite Hload.
  - unfold LoadNode, bind, wrapErr. by rewrite Hload.
Qed.

(** ** History *)

Lemma history_loop_Ok (bnf : BareNamefilter) (rs : list Spiral) (w w' : World)
    (hist : list HistoryEntry) :
  history_loop bnf rs w = Ok hist w' → w' = w ∧ Forall2 (revision bnf w) rs hist.
Proof.
  revert hist w'. induction rs as [|r rs IH]; intros hist w'; cbn [history_loop].
  - intros H. apply ret_Ok in H as [<- <-]. by split.
  - intros H.
    apply bind_Ok in H as (knf & w1 & Hk & H). apply lift_Ok in Hk as [Hk <-].
    apply bind_Ok in H as (pn & w2 & Hn & H). apply lift_Ok in Hn as [Hn <-].
    apply bind_Ok in H as (id & w3 & Hid & H).
    pose proof (readonly_cidFromPrivateName pn w) as Hro. rewrite Hid in Hro. subst w3.
    apply bind_Ok in H as (h & w4 & Hh & H).
    pose proof (readonly_loadHeader_logged (ratchet_Key r) id w) as Hro.
    rewrite Hh in Hro. subst w4.
    apply bind_Ok in H as (rest & w5 & Hrest & H).
    apply IH in Hrest as [-> Hrest]. apply ret_Ok in H as [<- <-].
    split; [done|]. constructor; [|done].
    unfold revision. cbn. split; [done|]. split; [by exists knf|].
    unfold cidFromPrivateName, bind, HAMT_FindRaw in Hid.
    destruct (hamtDown w); [done|].
    match type of Hid with
    | context [match ?x with _ => _ end] => destruct x as [c|] eqn:Hc; [|done]
    end.
    apply ret_Ok in Hid as [-> _]. split; [done|].
    unfold loadHeader_logged in Hh.
    split.
    + intros h' Hl. rewrite Hl in Hh. by injection Hh as ->.
    + intros err Hl. rewrite Hl in Hh. by injection Hh as <-.
Qed.


(** ** Listing *)

Lemma SortedSlice_Permutation (m : gmap string PrivateLink) :
  PrivateLinks_SortedSlice (Some m) ≡ₚ (map_to_list m).*2.
Proof.
  unfold PrivateLinks_SortedSlice. rewrite merge_sort_Permutation.
  rewrite <- list_fmap_compose.
  enough (((λ name, m !!! name) ∘ fst <$> map_to_list m) = (map_to_list m).*2) as ->
    by done.
  apply list_fmap_ext. intros i [k l] Hi. cbn.
  apply list_elem_of_lookup_2, elem_of_map_to_list in Hi.
  by rewrite (lookup_total_correct _ _ _ Hi).
Qed.


(** ** Nodes by type *)

(** X12. [LoadNode] returns the variant the stored header names, a tree
    without its links or a file without its content, and never an unknown
    type; [LoadTree] and [LoadFile] do not look at the type, so each of them
    succeeds on the same block whatever it holds, with the same header and
    ratchet. *)
Theorem LoadNode_follows_the_stored_type
    (name : string) (id : Cid) (key : Key) (w w' : World) (n : Node) :
  LoadNode name id key w = Ok n w' →
  w' = w
  ∧ match n with
    | NTree t => Tree_Type t = NTDir ∧ t_links t = None ∧ t_cid t = id
    | NFile f => File_Type f = NTFile ∧ f_content f = None ∧ f_cid f = id
    | NData d => DataFile_Type d = NTDataFile ∧ d_cid d = id
    end
  ∧ (∃ t, LoadTree name key id w = Ok t w
          ∧ Tree_Type t = Node_Type n ∧ Tree_INumber t = Node_INumber n
          ∧ t_ratchet t = Node_Ratchet n)
  ∧ (∃ f, LoadFile name key id w = Ok f w
          ∧ File_Type f = Node_Type n ∧ File_INumber f = Node_INumber n
          ∧ f_ratchet f = Node_Ratchet n).
Proof.
  intros H.
  pose proof (readonly_LoadNode name id key w) as Hro. rewrite H in Hro. subst w'.
  split; [done|]. unfold LoadNode in H.
  apply bind_Ok in H as (h & w1 & Hh & H).
  pose proof (readonly_loadHeader key id w) as Hro.
  apply wrapErr_Ok in Hh. rewrite Hh in Hro. subst w1.
  apply bind_Ok in H as (r & w2 & Hr & H). apply lift_Ok in Hr as [Hr <-].
  assert (HT : LoadTree name key id w
               = Ok (mkTree name id (upd_Info (set_hi_Ratchet "") h) (Some r) None) w).
  { unfold LoadTree, bind. rewrite Hh. unfold lift. by rewrite Hr. }
  assert (HF : LoadFile name key id w
               = Ok (mkFile name id (upd_Info (set_hi_Ratchet "") h) (Some r) None) w).
  { unfold LoadFile, bind, wrapErr. rewrite Hh. unfold lift. by rewrite Hr. }
  cbn [h_Info upd_Info hi_Type set_hi_Ratchet] in H.
  destruct (hi_Type (h_Info h)) eqn:Hty; try done;
    apply ret_Ok in H as [<- _];
    (split; [by cbn|]); split; eexists; (split; [eassumption|by cbn]).
Qed.

(** ** Writing over a directory *)

(** X13. [Add] of a file at a name that holds a directory fails: the node
    behind the link is loaded and asked to update itself, and a tree answers
    "directories don't support updating". Nothing is written. *)
Theorem Tree_Add_over_directory_fails
    (name : string) (f : FsFile) (pt pt1 : Tree) (w : World)
    (link : PrivateLink) (t : Tree) :
  ensureLinks pt w = Ok pt1 w →
  PrivateLinks_Get (t_links pt1) name = Some link →
  LoadNode (link_Name link) (link_Cid link) (link_Key link) w = Ok (NTree t) w →
  Tree_Add [name] f pt w = Err (ErrNew "directories don't support updating") w.
Proof.
  intros Hload Hget Hnode. cbn [Tree_Add].
  unfold bind at 1. rewrite Hload. unfold bind at 1.
  unfold createOrUpdateChildFile, bind at 1.
  assert (H1 : ensureLinks pt1 w = Ok pt1 w).
  { destruct (t_links pt1) as [m|] eqn:Hm; [by eapply ensureLinks_loaded|done]. }
  rewrite H1, Hget. unfold bind at 1. by rewrite Hnode.
Qed.

(** ** [File.Put], step by step *)

Lemma File_Put_steps (pf : File) (w : World) (res : PutResult) (pf' : File) (w' : World) :
  File_Put pf w = Ok (res, pf') w' →
  ∃ r bs nonce e knf,
    f_ratchet pf = Some r ∧ f_content pf = Some bs
    ∧ f_ratchet pf' = Some (ratchet_Inc r)
    ∧ f_content pf' = Some bs
    ∧ h_Info (f_header pf')
      = set_hi_Mtime (clock w)
          (set_hi_Ratchet (Spiral_Encode (ratchet_Inc r))
             (set_hi_Size (Z.of_nat (length bs)) (h_Info (f_header pf))))
    ∧ pr_Cid res = f_cid pf'
    ∧ pr_Size res = Z.of_nat (length bs)
    ∧ pr_Type res = File_Type pf
    ∧ pr_Userland res = h_ContentID (f_header pf')
    ∧ pr_Key res = ratchet_Key (ratchet_Inc r)
    ∧ AddKey (File_BareNamefilter pf) (ratchet_Key (ratchet_Inc r)) = inr knf
    ∧ ToName knf = inr (pr_Pointer res)
    ∧ f_cid pf' = multihash_Cid DagCBOR (BEnvelope e)
    ∧ env_info e = Some (Seal (pr_Key res) nonce (PInfo (h_Info (f_header pf'))))
    ∧ env_content e = Some (h_ContentID (f_header pf'))
    ∧ blocks w' !! f_cid pf' = Some (BEnvelope e)
    ∧ blockstoreDown w' = false.
Proof.
  unfold File_Put. intros H.
  apply bind_Ok in H as (r & w0 & Hr & H). apply deref_Ok in Hr as [Hr <-].
  apply bind_Ok in H as ([cid size] & w1 & Hpe & H).
  apply PutEncryptedFile_Ok in Hpe as (Hbs & bs & d & Hc & -> & -> & ->).
  apply bind_Ok in H as (now & w2 & Hnow & H). apply Timestamp_Ok in Hnow as [-> ->].
  apply bind_Ok in H as (blk & w3 & Hb & H).
  apply encryptHeaderBlock_Ok in Hb as (_ & (e & Hbd & Hinfo & Hcont & _) & Hbc & ->).
  apply bind_Ok in H as ([] & w4 & Hp & H).
  apply Blockstore_Put_Ok in Hp as (_ & ->).
  apply bind_Ok in H as (privName & w5 & Hpn & H).
  unfold File_PrivateName in Hpn.
  apply bind_Ok in Hpn as (r' & w6 & Hr' & Hpn). apply deref_Ok in Hr' as [Hr' <-].
  apply bind_Ok in Hpn as (knf & w7 & Hk & Hpn). apply lift_Ok in Hk as [Hk <-].
  apply lift_Ok in Hpn as [Hpn <-].
  apply bind_Ok in H as (prev & w8 & Hpr & H).
  apply PutRatchet_Ok in Hpr as (rs & Hrs & ->).
  apply bind_Ok in H as ([] & w9 & Hhs & H).
  apply HAMT_Set_Ok in Hhs as (Hh & ->).
  apply ret_Ok in H as [[= <- <-] <-].
  cbn in Hr', Hk, Hinfo, Hcont, Hbs. injection Hr' as <-.
  exists r, bs, (take NonceSize (drop NonceSize (entropy w))), e, knf.
  cbn. rewrite Hbc, Hbd, lookup_insert_eq. by repeat split.
Qed.

Lemma DataFile_PrivateName_inv (df : DataFile) (w w' : World) (name : Name) :
  DataFile_PrivateName df w = Ok name w' →
  ∃ r knf, d_ratchet df = Some r
           ∧ AddKey (DataFile_BareNamefilter df) (ratchet_Key r) = inr knf
           ∧ ToName knf = inr name.
Proof.
  unfold DataFile_PrivateName. intros H.
  apply bind_Ok in H as (r & w1 & Hr & H). apply deref_Ok in Hr as [Hr <-].
  apply bind_Ok in H as (knf & w2 & Hk & H). apply lift_Ok in Hk as [Hk <-].
  apply lift_Ok in H as [H <-]. eauto.
Qed.

(** X14. A successful [Put] of any node moves its ratchet forward by exactly
    one step, returns the key of the new ratchet and the private name made
    from that key and the node's bare name filter, and leaves the node's
    INumber, bare name filter and type as they were. *)
Theorem Put_advances_the_ratchet_once
    (n : Node) (w : World) (res : PutResult) (n' : Node) (w' : World) :
  Node_Put n w = Ok (res, n') w' →
  ∃ r knf,
    Node_Ratchet n = Some r
    ∧ Node_Ratchet n' = Some (ratchet_Inc r)
    ∧ pr_Key res = ratchet_Key (ratchet_Inc r)
    ∧ AddKey (Node_BareNamefilter n) (ratchet_Key (ratchet_Inc r)) = inr knf
    ∧ ToName knf = inr (pr_Pointer res)
    ∧ Node_INumber n' = Node_INumber n
    ∧ Node_BareNamefilter n' = Node_BareNamefilter n
    ∧ Node_Type n' = Node_Type n
    ∧ pr_Type res = Node_Type n.
Proof.
  destruct n as [t|f|d]; cbn [Node_Put]; intros H;
    apply bind_Ok in H as ([res1 x] & w1 & Hput & H);
    apply ret_Ok in H as [[= <- <-] <-];
    cbn [Node_Ratchet Node_BareNamefilter Node_INumber Node_Type].
  - tree_put_trace Hput.
    destruct tp_ratchet0 as (r & Hr & Hr' & Hkey & _).
    apply Tree_PrivateName_Ok in tp_pointer0 as (_ & r2 & knf & Hr2 & Hk & Hn).
    rewrite Hr' in Hr2. injection Hr2 as <-. rewrite tp_bnf0 in Hk.
    exists r, knf. rewrite tp_res_type0. by repeat split.
  - destruct (File_Put_steps _ _ _ _ _ Hput)
      as (r & bs & nonce & e & knf & Hr & _ & Hr' & _ & Hinfo & _ & _ & Hty & _ & Hkey
          & Hk & Hn & _).
    exists r, knf. unfold File_INumber, File_BareNamefilter, File_Type in *.
    rewrite Hinfo. by repeat split.
  - destruct (DataFile_Put_block _ _ _ _ _ Hput)
      as (_ & _ & _ & (r & Hr & Hr' & Hkey & Hinfo) & _).
    destruct (DataFile_Put_Ok _ _ _ _ _ Hput) as [_ _ _ _ _ _ Hty _ Hptr _].
    apply DataFile_PrivateName_inv in Hptr as (r2 & knf & Hr2 & Hk & Hn).
    rewrite Hr' in Hr2. injection Hr2 as <-.
    unfold DataFile_INumber, DataFile_BareNamefilter, DataFile_Type in *.
    rewrite Hinfo in Hk. rewrite Hinfo.
    exists r, knf. by repeat split.
Qed.

(** ** [Key.Decode] *)

Lemma Key_Decode_loop_spec (data pre rest : list byte) :
  (length pre + length data ≤ 32)%nat → (length data ≤ length rest)%nat →
  Key_Decode_loop (length pre) data (pre ++ rest)
  = Some (pre ++ data ++ drop (length data) rest).
Proof.
  revert pre rest. induction data as [|d data IH]; intros pre rest Hlen Hrest;
    cbn [Key_Decode_loop].
  - done.
  - cbn [length] in Hlen, Hrest. destruct rest as [|x rest]; [cbn in Hrest; lia|].
    destruct (decide (length pre < 32)%nat) as [_|Hn]; [|exfalso; lia].
    unfold Key. rewrite insert_app_r_alt by lia. rewrite Nat.sub_diag.
    cbn [insert list_insert]. cbn [length] in Hrest.
    specialize (IH (pre ++ [d]) rest). rewrite length_app in IH. cbn [length] in IH.
    rewrite Nat.add_1_r in IH. rewrite <- (app_assoc pre [d] rest) in IH.
    change ([d] ++ rest) with (d :: rest) in IH.
    rewrite IH by lia. by rewrite <- app_assoc.
Qed.

Lemma Key_Decode_loop_long (data : list byte) (i : nat) (k : Key) :
  (i ≤ 32)%nat → (32 < i + length data)%nat → Key_Decode_loop i data k = None.
Proof.
  revert i k. induction data as [|d data IH]; intros i k Hi Hlen; cbn [Key_Decode_loop].
  - cbn in Hlen. lia.
  - destruct (decide (i < 32)%nat); [|done]. apply IH; cbn in Hlen; lia.
Qed.

(** X15. [Key.Decode] writes the decoded bytes over the front of the key and
    nothing else: decoded text of 32 bytes replaces the key, shorter text
    leaves the tail of the old key in place and returns no error, text
    longer than 32 bytes panics on the index, and text that does not decode
    returns the error with the key untouched. *)
Theorem Key_Decode_overwrites_a_prefix (k : Key) :
  length k = 32%nat →
  (∀ data, (length data ≤ 32)%nat →
           Key_Decode (inr data) k = Some (None, data ++ drop (length data) k))
  ∧ (∀ data, length data = 32%nat → Key_Decode (inr data) k = Some (None, data))
  ∧ (∀ data, (32 < length data)%nat → Key_Decode (inr data) k = None)
  ∧ (∀ err, Key_Decode (inl err) k = Some (Some err, k)).
Proof.
  intros Hk. repeat split.
  - intros data Hlen. unfold Key_Decode.
    pose proof (Key_Decode_loop_spec data [] k) as E. cbn [length app] in E.
    by rewrite E by lia.
  - intros data Hlen. unfold Key_Decode.
    pose proof (Key_Decode_loop_spec data [] k) as E. cbn [length app] in E.
    rewrite E by lia. rewrite drop_ge by lia. by rewrite app_nil_r.
  - intros data Hlen. unfold Key_Decode.
    by rewrite Key_Decode_loop_long by (cbn; lia).
Qed.

(** ** Adding a file and getting it back *)

Lemma Tree_Put_cids (pt : Tree) (w : World) (res : PutResult) (pt' : Tree) (w' : World) :
  Tree_Put pt w = Ok (res, pt') w' →
  ∃ d e, h_ContentID (t_header pt') = multihash_Cid Raw d
         ∧ t_cid pt' = multihash_Cid DagCBOR e.
Proof.
  unfold Tree_Put. intros H.
  apply bind_Ok in H as (r & w0 & Hr & H). apply deref_Ok in Hr as [Hr <-].
  apply bind_Ok in H as (linksBlk & w1 & Hl & H).
  apply marshalEncryptedBlock_Ok in Hl as (_ & _ & Hlc & ->).
  apply bind_Ok in H as (blk & w2 & Hb & H).
  apply encryptHeaderBlock_Ok in Hb as (_ & _ & Hbc & ->).
  apply bind_Ok in H as ([] & w3 & _ & H).
  apply bind_Ok in H as (privName & w4 & _ & H).
  apply bind_Ok in H as (prev & w5 & _ & H).
  apply bind_Ok in H as ([] & w6 & _ & H).
  apply ret_Ok in H as [[= <- <-] _]. cbn. eauto.
Qed.

Lemma NewFile_Ok (parent : BareNamefilter) (bs : list byte) (w w' : World) (pf : File) :
  NewFile parent bs w = Ok pf w' →
  f_content pf = Some bs ∧ File_Type pf = NTFile ∧ File_Size pf = 0.
Proof.
  unfold NewFile. intros H.
  apply bind_Ok in H as (inum & w1 & _ & H).
  apply bind_Ok in H as (bnf & w2 & _ & H).
  apply bind_Ok in H as (r & w3 & _ & H).
  apply bind_Ok in H as (info & w4 & Hinfo & H).
  apply ret_Ok in H as [<- <-].
  unfold NewHeaderInfo in Hinfo.
  apply bind_Ok in Hinfo as (now & w5 & _ & Hinfo). by apply ret_Ok in Hinfo as [<- _].
Qed.

Lemma LoadNode_type (name : string) (id : Cid) (key : Key) (w w' : World) (n : Node) :
  LoadNode name id key w = Ok n w' →
  Node_Type n = match n with
                | NTree _ => NTDir
                | NFile _ => NTFile
                | NData _ => NTDataFile
                end.
Proof.
  unfold LoadNode. intros H.
  apply bind_Ok in H as (h & w1 & _ & H).
  apply bind_Ok in H as (r & w2 & _ & H).
  cbn [h_Info upd_Info hi_Type set_hi_Ratchet] in H.
  destruct (hi_Type (h_Info h)) eqn:Hty; try done;
    by apply ret_Ok in H as [<- _].
Qed.

(** A successful [createOrUpdateChildFile] with a byte stream ends in the
    [Put] of a file that holds the stream and is typed as a file. *)
Lemma createOrUpdateChildFile_bytes_Ok
    (name : string) (bs : list byte) (pt pt' : Tree) (res : PutResult) (w w' : World) :
  createOrUpdateChildFile name (SrcBytes bs) pt w = Ok (res, pt') w' →
  ensureLinks pt w = Ok pt' w
  ∧ ∃ pf pf' w0, File_Put pf w0 = Ok (res, pf') w'
                 ∧ f_content pf = Some bs ∧ File_Type pf = NTFile.
Proof.
  unfold createOrUpdateChildFile. intros H.
  apply bind_Ok in H as (pt1 & w1 & He & H).
  pose proof He as He'. apply ensureLinks_Ok in He' as (-> & _).
  destruct (PrivateLinks_Get (t_links pt1) name) as [link|].
  - apply bind_Ok in H as (prev & w2 & Hprev & H).
    apply bind_Ok in H as ([res1 n1] & w3 & Hup & H).
    apply ret_Ok in H as [[= <- <-] <-]. split; [done|].
    pose proof (LoadNode_type _ _ _ _ _ _ Hprev) as Hty.
    destruct prev as [t|f|d]; cbn [Node_Update] in Hup.
    + discriminate.
    + unfold File_Update in Hup.
      apply bind_Ok in Hup as ([res2 pf'] & w4 & Hput & Hup).
      apply ret_Ok in Hup as [[= <- <-] <-].
      by exists (File_SetContents (Some bs) f), pf', w2.
    + unfold DataFile_Update, File_Put, bind in Hup. by cbn in Hup.
  - apply bind_Ok in H as (ch & w2 & Hnew & H).
    apply bind_Ok in H as ([res1 ch'] & w3 & Hput & H).
    apply ret_Ok in H as [[= <- <-] <-]. split; [done|].
    apply NewFile_Ok in Hnew as (Hc & Hty & _).
    by exists ch, ch', w2.
Qed.

(** X16. After a successful [Add] of a byte stream at a single name, the
    tree links the name to a file of the stream's length, the header behind
    the link opens with the link's key and records that length and the type
    file, and [Get] of the name returns that file, or the decoding error if
    the ratchet recorded in the header does not decode. It is assumed that
    the header of the file and the header of the directory did not hash to
    the same cid. *)
Theorem Tree_Add_then_Get
    (name : string) (bs : list byte) (pt pt' : Tree) (res : PutResult) (w w' : World) :
  name ≠ "" →
  Tree_Add [name] (SrcBytes bs) pt w = Ok (res, pt') w' →
  (∀ link, PrivateLinks_Get (t_links pt') name = Some link → link_Cid link ≠ t_cid pt') →
  ∃ link h r,
    PrivateLinks_Get (t_links pt') name = Some link
    ∧ link_Name link = name
    ∧ link_Size link = Z.of_nat (length bs)
    ∧ link_IsFile link = true
    ∧ loadHeader (link_Key link) (link_Cid link) w' = Ok h w'
    ∧ hi_Size (h_Info h) = Z.of_nat (length bs)
    ∧ hi_Type (h_Info h) = NTFile
    ∧ hi_Ratchet (h_Info h) = Spiral_Encode r
    ∧ link_Key link = ratchet_Key r
    ∧ Tree_Get [name] pt' w'
      = match DecodeSpiral (Spiral_Encode r) with
        | inr r' => Ok (NFile (mkFile name (link_Cid link)
                                 (upd_Info (set_hi_Ratchet "") h) (Some r') None)) w'
        | inl err => Err err w'
        end.
Proof.
  intros Hname H Hfresh. cbn [Tree_Add] in H.
  apply bind_Ok in H as (pt1 & w1 & He & H). apply ensureLinks_Ok in He as (-> & _).
  apply bind_Ok in H as ([cres pt2] & w2 & Hc & H).
  apply bind_Ok in H as (pt3 & w3 & Hu & H).
  apply updateUserlandLink_Ok in Hu as (-> & _ & _ & m & Hm & Hm').
  apply createOrUpdateChildFile_bytes_Ok in Hc as (_ & pf & pf' & w0 & Hput & Hcont & Hty).
  destruct (File_Put_steps _ _ _ _ _ Hput)
    as (r & bs' & nonce & e & knf & Hr & Hbs & Hr' & _ & Hinfo & Hcid & Hsize & Hrty
        & _ & Hkey & _ & _ & Hfcid & Heinfo & Hecont & Hblk & Hup).
  rewrite Hcont in Hbs. injection Hbs as <-.
  destruct (Tree_Put_cids _ _ _ _ _ H) as (d & e2 & Hraw & _).
  tree_put_trace H. destruct tp_flags0 as (Hflag & _).
  assert (Hlinks : t_links pt' = Some (<[name := ToPrivateLink cres name]> m))
    by (by rewrite tp_links0).
  assert (Hget : PrivateLinks_Get (t_links pt') name = Some (ToPrivateLink cres name))
    by (rewrite Hlinks; cbn; apply lookup_insert_eq).
  specialize (Hfresh _ Hget). cbn [link_Cid ToPrivateLink] in Hfresh.
  assert (Hblk' : blocks w' !! pr_Cid cres = Some (BEnvelope e)).
  { rewrite tp_blocks_mono0; [by rewrite Hcid| done |].
    rewrite Hcid, Hfcid, Hraw. unfold multihash_Cid. discriminate. }
  assert (Hity : hi_Type (h_Info (f_header pf')) ≠ NTDataFile).
  { rewrite Hinfo. cbn. unfold File_Type in Hty. by rewrite Hty. }
  destruct (decodeHeaderBlock_sealed (pr_Cid cres) e _ _ _ _ w' Heinfo Hecont Hity)
    as (h & Hdec & Hh & _).
  assert (Hload : loadHeader (pr_Key cres) (pr_Cid cres) w' = Ok h w').
  { unfold loadHeader, bind, wrapErr, GetBlock. by rewrite Hflag, Hup, Hblk'. }
  exists (ToPrivateLink cres name), h, (ratchet_Inc r).
  cbn [link_Name link_Size link_IsFile link_Key link_Cid ToPrivateLink].
  rewrite Hh, Hinfo. cbn [hi_Size hi_Type hi_Ratchet set_hi_Mtime set_hi_Ratchet
    set_hi_Size].
  unfold File_Type in Hty. rewrite Hrty. unfold File_Type. rewrite Hty.
  repeat split; try done.
  cbn [Tree_Get]. rewrite decide_False by done.
  rewrite (bind_Ok_intro _ _ _ _ _ (ensureLinks_loaded _ _ w' Hlinks)).
  rewrite Hget. cbn [link_Key link_Cid ToPrivateLink].
  unfold LoadNode. unfold bind at 1. unfold wrapErr. rewrite Hload.
  unfold bind, lift. rewrite Hh, Hinfo. cbn [hi_Ratchet set_hi_Mtime set_hi_Ratchet].
  destruct (DecodeSpiral (Spiral_Encode (ratchet_Inc r))) as [err|r2]; [done|].
  cbn [h_Info upd_Info hi_Type set_hi_Ratchet]. rewrite Hh, Hinfo.
  cbn [hi_Type set_hi_Mtime set_hi_Ratchet set_hi_Size]. by rewrite Hty.
Qed.

(** ** [Mkdir] over a name that is taken *)

Lemma LoadTree_Ok (name : string) (key : Key) (id : Cid) (w w' : World) (t : Tree) :
  LoadTree name key id w = Ok t w' →
  w' = w ∧ t_links t = None ∧ t_name t = name ∧ t_cid t = id.
Proof.
  intros H. pose proof (readonly_LoadTree name key id w) as Hro.
  rewrite H in Hro. subst w'. split; [done|].
  unfold LoadTree in H.
  apply bind_Ok in H as (h & w1 & _ & H).
  apply bind_Ok in H as (r & w2 & _ & H).
  by apply ret_Ok in H as [<- _].
Qed.

(** X17. [Mkdir] of a single name that is already linked loads the node
    behind the link as a tree, without its links, and puts it back as it is:
    the links block written for it holds the nil table, the size recorded in
    the new link is 0, and loading the links of the child that was put gives
    no links. *)
Theorem Tree_Mkdir_over_a_linked_name_drops_its_links
    (name : string) (pt pt1 pt' : Tree) (link : PrivateLink) (res : PutResult)
    (w w' : World) :
  ensureLinks pt w = Ok pt1 w →
  PrivateLinks_Get (t_links pt1) name = Some link →
  Tree_Mkdir [name] pt w = Ok (res, pt') w' →
  ∃ (child child' : Tree) (cres : PutResult) (w1 : World),
    LoadTree name (link_Key link) (link_Cid link) w = Ok child w
    ∧ Tree_Put child w = Ok (cres, child') w1
    ∧ PrivateLinks_Get (t_links pt') name = Some (ToPrivateLink cres name)
    ∧ pr_Size cres = 0
    ∧ ensureLinks child' w1 = Ok child' w1
    ∧ t_links child' = None
    ∧ ∃ nonce, blocks w1 !! h_ContentID (t_header child')
               = Some (BRaw (Seal (pr_Key cres) nonce (PLinks None))).
Proof.
  intros He Hget H. cbn [Tree_Mkdir] in H.
  apply bind_Ok in H as ([child pt2] & w1 & Hg & H).
  unfold getOrCreateDirectChildTree in Hg.
  rewrite (bind_Ok_intro _ _ _ _ _ He), Hget in Hg.
  apply bind_Ok in Hg as (c & w2 & Hload & Hg).
  apply ret_Ok in Hg as [[= -> ->] <-].
  pose proof Hload as Hl. apply LoadTree_Ok in Hl as (-> & Hnil & _).
  apply bind_Ok in H as ([res1 pt3] & w3 & Hc & H).
  apply bind_Ok in Hc as ([cres child'] & w4 & Hput & Hc).
  apply ret_Ok in Hc as [[= <- <-] <-].
  apply bind_Ok in H as (pt4 & w5 & Hu & H).
  apply updateUserlandLink_Ok in Hu as (-> & _ & _ & m & Hm & Hm').
  pose proof (ensureLinks_after_Put _ _ _ _ _ Hput) as Hens.
  exists child, child', cres, w4.
  assert (Hl' : t_links pt' = t_links pt4) by (by destruct (Tree_Put_Ok _ _ _ _ _ H)).
  rewrite Hl', Hm'.
  tree_put_trace Hput.
  assert (Hnil' : t_links child' = None) by (by rewrite tp_links0, Hnil).
  destruct tp_links_block0 as (nonce & Hb). rewrite Hnil in Hb.
  refine (conj Hload (conj Hput (conj _ (conj _ (conj _ (conj Hnil'
            (ex_intro _ nonce Hb))))))).
  - cbn. by rewrite lookup_insert_eq.
  - rewrite tp_res_size0, tp_size0, Hnil. reflexivity.
  - rewrite Hens, Hnil. f_equal. clear -Hnil'.
    destruct child' as [n c h r l]. cbn in Hnil'. by rewrite Hnil'.
Qed.

(** ** The other links *)

Lemma ensureLinks_idem (pt pt1 : Tree) (w : World) :
  ensureLinks pt w = Ok pt1 w → ensureLinks pt1 w = Ok pt1 w.
Proof.
  intros H. destruct (t_links pt1) as [m|] eqn:Hm1; [by eapply ensureLinks_loaded|].
  pose proof H as H'. apply ensureLinks_Ok in H' as (_ & links & ->).
  cbn in Hm1. subst links.
  destruct (t_links pt) as [m|] eqn:Hm.
  - rewrite (ensureLinks_loaded _ _ _ Hm) in H. injection H as H.
    apply (f_equal t_links) in H. cbn in H. congruence.
  - assert (E : set_t_links None pt = pt)
      by (clear -Hm; destruct pt as [n c h r l]; cbn in Hm; by rewrite Hm).
    by rewrite E in *.
Qed.

Lemma createOrUpdateChildFile_tree
    (name : string) (f : FsFile) (pt pt' : Tree) (res : PutResult) (w w' : World) :
  createOrUpdateChildFile name f pt w = Ok (res, pt') w' →
  ensureLinks pt w = Ok pt' w.
Proof.
  unfold createOrUpdateChildFile. intros H.
  apply bind_Ok in H as (pt1 & w1 & He & H).
  pose proof He as He'. apply ensureLinks_Ok in He' as (-> & _).
  destruct (PrivateLinks_Get (t_links pt1) name) as [link|].
  - apply bind_Ok in H as (prev & w2 & _ & H).
    apply bind_Ok in H as ([res1 n1] & w3 & _ & H).
    by apply ret_Ok in H as [[= <- <-] <-].
  - destruct f as [bs|[err|v]].
    + apply bind_Ok in H as (ch & w2 & _ & H).
      apply bind_Ok in H as ([res1 ch'] & w3 & _ & H).
      by apply ret_Ok in H as [[= <- <-] <-].
    + discriminate.
    + apply bind_Ok in H as (v' & w2 & Hv & H). apply lift_Ok in Hv as [_ <-].
      apply bind_Ok in H as (ch & w3 & _ & H).
      apply bind_Ok in H as ([res1 ch'] & w4 & _ & H).
      by apply ret_Ok in H as [[= <- <-] <-].
Qed.

(** X18. [Add], [Mkdir] and [Rm] of a single name change the link of that
    name only: after any of them succeeds, every other name is linked in
    the receiver exactly as it was in the link table the receiver was
    loaded with. *)
Theorem single_name_mutations_keep_the_other_links
    (name other : string) (pt pt1 : Tree) (w : World) :
  other ≠ name →
  ensureLinks pt w = Ok pt1 w →
  (∀ f res pt' w', Tree_Add [name] f pt w = Ok (res, pt') w' →
     PrivateLinks_Get (t_links pt') other = PrivateLinks_Get (t_links pt1) other)
  ∧ (∀ res pt' w', Tree_Mkdir [name] pt w = Ok (res, pt') w' →
       PrivateLinks_Get (t_links pt') other = PrivateLinks_Get (t_links pt1) other)
  ∧ (∀ res pt' w', Tree_Rm [name] pt w = Ok (res, pt') w' →
       PrivateLinks_Get (t_links pt') other = PrivateLinks_Get (t_links pt1) other).
Proof.
  intros Hne He. split; [|split].
  - intros f res pt' w' H. cbn [Tree_Add] in H.
    rewrite (bind_Ok_intro _ _ _ _ _ He) in H.
    apply bind_Ok in H as ([cres pt2] & w2 & Hc & H).
    apply createOrUpdateChildFile_tree in Hc.
    rewrite (ensureLinks_idem _ _ _ He) in Hc. injection Hc as <-.
    apply bind_Ok in H as (pt3 & w3 & Hu & H).
    apply updateUserlandLink_Ok in Hu as (-> & _ & _ & m & Hm & Hm').
    tree_put_trace H. rewrite tp_links0, Hm', Hm. cbn.
    by rewrite lookup_insert_ne.
  - intros res pt' w' H. cbn [Tree_Mkdir] in H.
    apply bind_Ok in H as ([child pt2] & w1 & Hg & H).
    apply getOrCreateDirectChildTree_Ok in Hg. rewrite He in Hg. injection Hg as <-.
    apply bind_Ok in H as ([res1 pt3] & w3 & Hc & H).
    apply bind_Ok in Hc as ([cres child'] & w4 & _ & Hc).
    apply ret_Ok in Hc as [[= <- <-] <-].
    apply bind_Ok in H as (pt4 & w5 & Hu & H).
    apply updateUserlandLink_Ok in Hu as (-> & _ & _ & m & Hm & Hm').
    tree_put_trace H. rewrite tp_links0, Hm', Hm. cbn.
    by rewrite lookup_insert_ne.
  - intros res pt' w' H. cbn [Tree_Rm] in H.
    destruct (decide (name = "")); [discriminate|].
    rewrite (bind_Ok_intro _ _ _ _ _ He) in H.
    apply bind_Ok in H as (pt2 & w2 & Hrm & H).
    unfold removeUserlandLink in Hrm.
    apply bind_Ok in Hrm as (now & w3 & Hnow & Hrm).
    apply Timestamp_Ok in Hnow as [-> ->]. apply ret_Ok in Hrm as [<- <-].
    tree_put_trace H. rewrite tp_links0. cbn [t_links set_t_links set_t_header].
    destruct (t_links pt1) as [m|]; cbn; [|done].
    by rewrite lookup_delete_ne.
Qed.

(** ** Writing over a file *)

(** X19. [Add] of a byte stream at a single name that holds a file updates
    that file: the node behind the link is loaded, given the new content and
    put, so the name is linked to a file with the same INumber and type, a
    ratchet one step after the one that was stored, and the length of the
    new stream as its size. *)
Theorem Tree_Add_over_a_file_keeps_its_identity
    (name : string) (bs : list byte) (pt pt1 pt' : Tree) (w w' : World)
    (link : PrivateLink) (f : File) (res : PutResult) :
  ensureLinks pt w = Ok pt1 w →
  PrivateLinks_Get (t_links pt1) name = Some link →
  LoadNode (link_Name link) (link_Cid link) (link_Key link) w = Ok (NFile f) w →
  Tree_Add [name] (SrcBytes bs) pt w = Ok (res, pt') w' →
  ∃ (cres : PutResult) (pf' : File) (w1 : World) (r : Spiral),
    File_Put (File_SetContents (Some bs) f) w = Ok (cres, pf') w1
    ∧ PrivateLinks_Get (t_links pt') name = Some (ToPrivateLink cres name)
    ∧ File_INumber pf' = File_INumber f
    ∧ File_Type pf' = NTFile
    ∧ f_ratchet f = Some r
    ∧ f_ratchet pf' = Some (ratchet_Inc r)
    ∧ pr_Key cres = ratchet_Key (ratchet_Inc r)
    ∧ pr_Size cres = Z.of_nat (length bs)
    ∧ File_Size pf' = Z.of_nat (length bs).
Proof.
  intros He Hget Hnode H. cbn [Tree_Add] in H.
  rewrite (bind_Ok_intro _ _ _ _ _ He) in H.
  apply bind_Ok in H as ([cres pt2] & w2 & Hc & H).
  unfold createOrUpdateChildFile in Hc.
  rewrite (bind_Ok_intro _ _ _ _ _ (ensureLinks_idem _ _ _ He)), Hget in Hc.
  rewrite (bind_Ok_intro _ _ _ _ _ Hnode) in Hc.
  apply bind_Ok in Hc as ([res1 n1] & w3 & Hup & Hc).
  apply ret_Ok in Hc as [[= <- <-] <-].
  cbn [Node_Update File_Update] in Hup.
  apply bind_Ok in Hup as ([res2 pf'] & w4 & Hput & Hup).
  apply ret_Ok in Hup as [[= <- <-] <-].
  apply bind_Ok in H as (pt3 & w5 & Hu & H).
  apply updateUserlandLink_Ok in Hu as (-> & _ & _ & m & Hm & Hm').
  assert (Hl' : t_links pt' = t_links pt3) by (by destruct (Tree_Put_Ok _ _ _ _ _ H)).
  pose proof (LoadNode_type _ _ _ _ _ _ Hnode) as Hty. cbn in Hty.
  destruct (File_Put_steps _ _ _ _ _ Hput)
    as (r & bs' & nonce & e & knf & Hr & Hbs & Hr' & _ & Hinfo & _ & Hsize & _ & _
        & Hkey & _).
  cbn in Hr, Hbs. injection Hbs as <-.
  eexists _, pf', _, r. split; [exact Hput|].
  rewrite Hl', Hm'. unfold File_INumber, File_Type, File_Size in *. rewrite Hinfo.
  cbn. rewrite lookup_insert_eq. by repeat split.
Qed.

End MoreProperties.

(** * The properties on concrete inputs

    Runs of the code with the packages of [Toy]. *)

Import Toy.

(** Both sides of an equation are run and compared. *)
Ltac by_running :=
  lazymatch goal with
  | |- ?l = ?r => vm_cast_no_check (@eq_refl _ r)
  end.

(** [DataFile.Put] on a new data file: it succeeds, and the index and the
    ratchet store are those of before. *)
Lemma DataFile_Put_skips_index_and_ratchet_store_witness :
  DataFile_Put doc.1 doc.2 = Ok (docPut.1.1, docPut.1.2) docPut.2
  ∧ DataFile_PrivateName docPut.1.2 docPut.2 = Ok (pr_Pointer docPut.1.1) docPut.2
  ∧ is_Some (blocks docPut.2 !! d_cid docPut.1.2)
  ∧ hamt docPut.2 = hamt doc.2
  ∧ rstore docPut.2 = rstore doc.2.
Proof.
  assert (E : DataFile_Put doc.1 doc.2 = Ok (docPut.1.1, docPut.1.2) docPut.2)
    by by_running.
  split; [exact E|].
  exact (DataFile_Put_skips_index_and_ratchet_store
           doc.1 doc.2 docPut.1.1 docPut.1.2 docPut.2 E).
Defined.

(** After that [Put] the private name of the data file is not in the
    index, and the ratchet store is empty. *)
Example DataFile_Put_index_stays_empty :
  cidFromPrivateName (pr_Pointer docPut.1.1) docPut.2 = Err ErrNotFound docPut.2
  ∧ rstore docPut.2 = [].
Proof. split; by_running. Qed.

(** [History] of a fresh tree, of which the ratchet store knows nothing. *)
Lemma history_without_oldest_ratchet_is_silent_witness :
  rs_OldestKnownRatchet (INumber_Encode (Tree_INumber fresh.1)) (rstore fresh.2) = inr None
  ∧ Tree_History 10 fresh.1 fresh.2 = Ok [] fresh.2.
Proof.
  assert (H : rs_OldestKnownRatchet (INumber_Encode (Tree_INumber fresh.1))
                (rstore fresh.2) = inr None) by by_running.
  split; [exact H|].
  exact (proj1 history_without_oldest_ratchet_is_silent fresh.1 10 fresh.2 H).
Defined.

(** [Mkdir [a; b]] on a fresh root. *)
Lemma Tree_Mkdir_nested_lands_in_receiver_witness :
  Tree_Mkdir ["a"; "b"] fresh.1 fresh.2 = Ok (nested.1.1, nested.1.2) nested.2
  ∧ ∃ (pt0 pt1 : Tree) (res1 : PutResult) (w0 w1 : World),
      Tree_Mkdir ["b"] pt0 w0 = Ok (res1, pt1) w1
      ∧ Tree_INumber pt0 = Tree_INumber fresh.1
      ∧ Tree_INumber pt1 = Tree_INumber fresh.1
      ∧ pr_Cid res1 = t_cid pt1
      ∧ PrivateLinks_Get (t_links nested.1.2) "a" = Some (ToPrivateLink res1 "a")
      ∧ ("a" ≠ "b" → ∃ link, PrivateLinks_Get (t_links nested.1.2) "b" = Some link
                             ∧ link_Name link = "b").
Proof.
  assert (E : Tree_Mkdir ["a"; "b"] fresh.1 fresh.2
              = Ok (nested.1.1, nested.1.2) nested.2) by by_running.
  split; [exact E|].
  exact (Tree_Mkdir_nested_lands_in_receiver
           "a" "b" fresh.1 nested.1.2 nested.1.1 fresh.2 nested.2 E).
Defined.

(** After [Mkdir [a; b]] on a fresh root, the root lists both [a] and [b];
    [Get [a]] answers a tree with the INumber of the root itself, [b] is
    reached through it and directly, and there is no [a] inside [a]. *)
Example Tree_Mkdir_nested_on_fresh_root :
  names nested.1.2 = ["a"; "b"]
  ∧ see (Tree_Get ["a"] nested.1.2 nested.2) = SeenTree (Tree_INumber fresh.1)
  ∧ see (Tree_Get ["a"; "b"] nested.1.2 nested.2) = see (Tree_Get ["b"] nested.1.2 nested.2)
  ∧ see (Tree_Get ["b"] nested.1.2 nested.2) ≠ SeenTree (Tree_INumber fresh.1)
  ∧ see (Tree_Get ["a"; "a"] nested.1.2 nested.2) = SeenErr ErrNotFound.
Proof.
  split; [by_running|]. split; [by_running|]. split; [by_running|].
  split; [|by_running]. vm_compute. discriminate.
Qed.

(** With a directory [a] that holds a file [x]: [Mkdir [a; b]] succeeds and
    leaves [a/x] unreachable, [a] now being a copy of the root. *)
Example Tree_Mkdir_nested_replaces_directory :
  Tree_Mkdir ["a"; "b"] withAX.1.2 withAX.2 = Ok (replaced.1.1, replaced.1.2) replaced.2
  ∧ seenFile (see (Tree_Get ["a"; "x"] withAX.1.2 withAX.2)) = true
  ∧ names replaced.1.2 = ["a"; "b"]
  ∧ see (Tree_Get ["a"; "x"] replaced.1.2 replaced.2) = SeenErr ErrNotFound
  ∧ see (Tree_Get ["a"] replaced.1.2 replaced.2) = SeenTree (Tree_INumber fresh.1).
Proof.
  split; [by_running|]. split; [by_running|].
  split; [by_running|]. split; by_running.
Qed.

(** With a file [f]: [Mkdir [f]] succeeds, and [Get [f]] still answers a
    file. *)
Example Tree_Mkdir_over_file :
  Tree_Mkdir ["f"] withF.1.2 withF.2 = Ok (overFile.1.1, overFile.1.2) overFile.2
  ∧ seenFile (see (Tree_Get ["f"] withF.1.2 withF.2)) = true
  ∧ seenFile (see (Tree_Get ["f"] overFile.1.2 overFile.2)) = true.
Proof. split; [by_running|]. split; by_running. Qed.

(** With a directory [a] that holds a file [x]: [Mkdir [a]] succeeds and
    leaves [a] empty. *)
Example Tree_Mkdir_again_empties_directory :
  Tree_Mkdir ["a"] withAX.1.2 withAX.2 = Ok (again.1.1, again.1.2) again.2
  ∧ see (Tree_Get ["a"; "x"] again.1.2 again.2) = SeenErr ErrNotFound.
Proof. split; by_running. Qed.

(** [Rm] of a name that the root with [a] and [b] does not hold. *)
Lemma Tree_Rm_absent_leaf_succeeds_witness :
  PrivateLinks_Get (t_links withAB.1.2) "zz" = None
  ∧ ∃ res pt' w',
      Tree_Rm ["zz"] withAB.1.2 withAB.2 = Ok (res, pt') w'
      ∧ t_links pt' = t_links withAB.1.2
      ∧ hamt w' !! pr_Pointer res = Some (pr_Cid res).
Proof.
  assert (Habsent : PrivateLinks_Get (t_links withAB.1.2) "zz" = None) by by_running.
  assert (Hload : ensureLinks withAB.1.2 withAB.2 = Ok withAB.1.2 withAB.2) by by_running.
  assert (Hready : Put_ready withAB.1.2 withAB.2).
  { split; [by_running|]. split; [by_running|].
    split; [apply Nat.leb_le; by_running|vm_compute; exact I]. }
  split; [exact Habsent|].
  refine (Tree_Rm_absent_leaf_succeeds "zz" withAB.1.2 withAB.1.2 withAB.2 withAB.2
            _ Hload Habsent Hready).
  discriminate.
Defined.

Example Tree_Rm_absent_leaf_on_toy :
  Tree_Rm ["zz"] withAB.1.2 withAB.2 = Ok (removed.1.1, removed.1.2) removed.2
  ∧ names removed.1.2 = names withAB.1.2.
Proof. split; by_running. Qed.

(** [Put] of a new data file holding the text "hi": three bytes of CBOR,
    size 0. *)
Lemma DataFile_Put_leaves_Size_witness :
  NewDataFile "doc" (VText "hi") [] world = Ok doc.1 doc.2
  ∧ DataFile_Put doc.1 doc.2 = Ok (docPut.1.1, docPut.1.2) docPut.2
  ∧ d_content docPut.1.2 = VText "hi"
  ∧ DataFile_Size docPut.1.2 = 0
  ∧ pr_Size docPut.1.1 = 0
  ∧ DataFile_Size docPut.1.2 ≠ Z.of_nat (length (cbor_Marshal (d_content docPut.1.2))).
Proof.
  assert (E1 : NewDataFile "doc" (VText "hi") [] world = Ok doc.1 doc.2) by by_running.
  assert (E2 : DataFile_Put doc.1 doc.2 = Ok (docPut.1.1, docPut.1.2) docPut.2)
    by by_running.
  split; [exact E1|]. split; [exact E2|].
  exact (DataFile_Put_leaves_Size "doc" (VText "hi") [] world doc.2 docPut.2
           doc.1 docPut.1.2 docPut.1.1 E1 E2).
Defined.

Example cbor_Marshal_hi :
  cbor_Marshal (VText "hi") = [x62; x68; x69]
  ∧ cbor_Marshal (VArray [VUint 1; VUint 500; VNull]) = [x83; x01; x19; x01; xf4; xf6].
Proof. split; reflexivity. Qed.


Example Tree_ReadDir_lists_in_order :
  names withAB.1.2 = ["a"; "b"]
  ∧ de_Name <$> (out (Tree_ReadDir (-1) withAB.1.2) withAB.2 ([], blank)).1.1 = ["a"; "b"].
Proof. split; by_running. Qed.


Example Tree_ReadDir_counts :
  (λ n, length (out (Tree_ReadDir n withAB.1.2) withAB.2 ([], blank)).1.1)
    <$> [-1; 0; 1; 2; 7] = [2; 1; 2; 2; 2]%nat.
Proof. by_running. Qed.

(** [NewEmptyRoot] with the empty key and with another key. *)
Lemma NewEmptyRoot_ignores_rootKey_witness :
  NewEmptyRoot ctxBackground "root" EmptyKey world
  = NewEmptyRoot ctxBackground "root" (replicate 32 xff) world
  ∧ NewEmptyRoot ctxBackground "root" EmptyKey world = Ok newRoot.1 newRoot.2
  ∧ Tree_Key (r_Tree newRoot.1) newRoot.2
    = Ok (ratchet_Key
            (mkSpiral (take 32 (take 96 (drop 32 (entropy world))))
                      (take 32 (drop 32 (take 96 (drop 32 (entropy world)))))
                      (drop 64 (take 96 (drop 32 (entropy world)))) 0 0)) newRoot.2.
Proof.
  assert (E : NewEmptyRoot ctxBackground "root" EmptyKey world = Ok newRoot.1 newRoot.2)
    by by_running.
  split; [|split; [exact E|]].
  - exact (proj1 (NewEmptyRoot_ignores_rootKey ctxBackground "root" EmptyKey
                    (replicate 32 xff) world)).
  - exact (proj2 (proj2 (NewEmptyRoot_ignores_rootKey ctxBackground "root" EmptyKey
                           (replicate 32 xff) world) newRoot.1 newRoot.2 E)).
Defined.

Example NewEmptyRoot_key_is_not_rootKey :
  Tree_Key (r_Tree newRoot.1) newRoot.2 ≠ Ok EmptyKey newRoot.2.
Proof. vm_compute. discriminate. Qed.

(** ** More runs *)

(** A decidable statement is decided by running its decision procedure. *)
Ltac by_deciding :=
  lazymatch goal with
  | |- ?P => apply (bool_decide_eq_true_1 P); by_running
  end.

(** [Tree.Put] of a fresh root with the index down: it fails on the last
    step, and the index is as before. *)
Lemma failed_Put_keeps_the_index_witness :
  Tree_Put fresh.1 indexDown = Err failedPut.1 failedPut.2
  ∧ hamt failedPut.2 = hamt indexDown.
Proof.
  assert (E : Tree_Put fresh.1 indexDown = Err failedPut.1 failedPut.2) by by_running.
  split; [exact E|].
  exact (proj1 failed_Put_keeps_the_index fresh.1 indexDown failedPut.2 failedPut.1 E).
Defined.

(** The blocks of the failed [Put] are in the store all the same. *)
Example failed_Put_leaves_blocks :
  failedPut.1 = ErrIO "hamt" ∧ size (blocks failedPut.2) = 2%nat.
Proof. split; by_running. Qed.

(** [Rm] of a name and [Get] of it afterwards. *)
Lemma Rm_then_Get_is_not_found_witness :
  Tree_Rm ["zz"] withAB.1.2 withAB.2 = Ok (removed.1.1, removed.1.2) removed.2
  ∧ Tree_Get ["zz"] removed.1.2 removed.2 = Err ErrNotFound removed.2.
Proof.
  assert (E : Tree_Rm ["zz"] withAB.1.2 withAB.2
              = Ok (removed.1.1, removed.1.2) removed.2) by by_running.
  split; [exact E|].
  refine (Rm_then_Get_is_not_found "zz" withAB.1.2 removed.1.2 removed.1.1
            withAB.2 removed.2 _ E).
  discriminate.
Defined.

(** The root with [a] and [b], put and loaded again. *)
Lemma Tree_Put_then_LoadTree_witness :
  Tree_Put withAB.1.2 withAB.2 = Ok (putAB.1.1, putAB.1.2) putAB.2
  ∧ ∃ t : Tree,
      LoadTree "root" (pr_Key putAB.1.1) (pr_Cid putAB.1.1) putAB.2 = Ok t putAB.2
      ∧ t_ratchet t = Some rootRatchet
      ∧ ensureLinks t putAB.2 = Ok (set_t_links (t_links withAB.1.2) t) putAB.2.
Proof.
  assert (E : Tree_Put withAB.1.2 withAB.2 = Ok (putAB.1.1, putAB.1.2) putAB.2)
    by by_running.
  assert (T : Tree_Type withAB.1.2 ≠ NTDataFile) by by_deciding.
  assert (R : t_ratchet putAB.1.2 = Some rootRatchet) by by_running.
  assert (D : DecodeSpiral (Spiral_Encode rootRatchet) = inr rootRatchet) by by_running.
  split; [exact E|].
  destruct (Tree_Put_then_LoadTree withAB.1.2 withAB.2 putAB.1.1 putAB.1.2 putAB.2
              "root" rootRatchet T E R D)
    as (t & H1 & _ & _ & H2 & _ & _ & _ & H3).
  exists t. exact (conj H1 (conj H2 H3)).
Defined.

Lemma Tree_Put_then_LoadRoot_witness :
  Tree_Put withAB.1.2 withAB.2 = Ok (putAB.1.1, putAB.1.2) putAB.2
  ∧ ∃ t : Tree,
      LoadRoot ctxBackground "root" (pr_Key putAB.1.1) (pr_Pointer putAB.1.1) putAB.2
      = Ok (mkRoot t ctxBackground) putAB.2
      ∧ Tree_INumber t = Tree_INumber withAB.1.2.
Proof.
  assert (E : Tree_Put withAB.1.2 withAB.2 = Ok (putAB.1.1, putAB.1.2) putAB.2)
    by by_running.
  assert (T : Tree_Type withAB.1.2 ≠ NTDataFile) by by_deciding.
  assert (R : t_ratchet putAB.1.2 = Some rootRatchet) by by_running.
  assert (D : DecodeSpiral (Spiral_Encode rootRatchet) = inr rootRatchet) by by_running.
  assert (P : pr_Pointer putAB.1.1 ≠ "") by by_deciding.
  split; [exact E|].
  destruct (Tree_Put_then_LoadRoot withAB.1.2 withAB.2 putAB.1.1 putAB.1.2 putAB.2
              ctxBackground "root" rootRatchet T E R D P)
    as ((t & _ & H1 & _ & H2) & _).
  exists t. exact (conj H1 H2).
Defined.

(** The data file [doc], put and loaded again. *)
Lemma DataFile_Put_then_LoadNode_witness :
  DataFile_Put doc.1 doc.2 = Ok (docPut.1.1, docPut.1.2) docPut.2
  ∧ ∃ d : DataFile,
      LoadNode "doc" (pr_Cid docPut.1.1) (pr_Key docPut.1.1) docPut.2
      = Ok (NData d) docPut.2
      ∧ d_content d = VText "hi".
Proof.
  assert (E : DataFile_Put doc.1 doc.2 = Ok (docPut.1.1, docPut.1.2) docPut.2)
    by by_running.
  assert (T : DataFile_Type doc.1 = NTDataFile) by by_running.
  assert (R : d_ratchet docPut.1.2 = Some docRatchet) by by_running.
  assert (D : DecodeSpiral (Spiral_Encode docRatchet) = inr docRatchet) by by_running.
  assert (C : d_content doc.1 = VText "hi") by by_running.
  split; [exact E|].
  destruct (DataFile_Put_then_LoadNode doc.1 doc.2 docPut.1.1 docPut.1.2 docPut.2
              "doc" docRatchet T E R D)
    as (d & H1 & H2 & _).
  exists d. split; [exact H1|]. exact (eq_trans H2 C).
Defined.

Lemma LoadDataFile_rejects_what_Put_wrote_witness :
  DataFile_Put doc.1 doc.2 = Ok (docPut.1.1, docPut.1.2) docPut.2
  ∧ LoadDataFile "doc" (pr_Cid docPut.1.1) (pr_Key docPut.1.1) docPut.2
    = Err (ErrNew "malformed private DataFile node: missing content bytes") docPut.2.
Proof.
  assert (E : DataFile_Put doc.1 doc.2 = Ok (docPut.1.1, docPut.1.2) docPut.2)
    by by_running.
  split; [exact E|].
  exact (LoadDataFile_rejects_what_Put_wrote doc.1 doc.2 docPut.1.1 docPut.1.2
           docPut.2 "doc" E).
Defined.

(** The root that was put, opened with the empty key. *)
Lemma Tree_Put_header_needs_the_key_witness :
  Tree_Put withAB.1.2 withAB.2 = Ok (putAB.1.1, putAB.1.2) putAB.2
  ∧ LoadTree "root" EmptyKey (pr_Cid putAB.1.1) putAB.2
    = Err (ErrWrap "decrypting info" (ErrNew "cipher: message authentication failed"))
          putAB.2.
Proof.
  assert (E : Tree_Put withAB.1.2 withAB.2 = Ok (putAB.1.1, putAB.1.2) putAB.2)
    by by_running.
  assert (K : EmptyKey ≠ pr_Key putAB.1.1) by by_deciding.
  split; [exact E|].
  exact (proj1 (proj2 (Tree_Put_header_needs_the_key withAB.1.2 withAB.2 putAB.1.1
                         putAB.1.2 putAB.2 "root" EmptyKey E K))).
Defined.



(** The root that was put, loaded as a node. *)
Lemma LoadNode_follows_the_stored_type_witness :
  LoadNode "root" (pr_Cid putAB.1.1) (pr_Key putAB.1.1) putAB.2
  = Ok loadedRoot.1 loadedRoot.2
  ∧ ∃ f, LoadFile "root" (pr_Key putAB.1.1) (pr_Cid putAB.1.1) putAB.2 = Ok f putAB.2
         ∧ File_Type f = Node_Type loadedRoot.1.
Proof.
  assert (E : LoadNode "root" (pr_Cid putAB.1.1) (pr_Key putAB.1.1) putAB.2
              = Ok loadedRoot.1 loadedRoot.2) by by_running.
  split; [exact E|].
  destruct (LoadNode_follows_the_stored_type "root" (pr_Cid putAB.1.1)
              (pr_Key putAB.1.1) putAB.2 loadedRoot.2 loadedRoot.1 E)
    as (_ & _ & _ & f & H1 & H2 & _).
  exists f. exact (conj H1 H2).
Defined.

Example LoadNode_of_the_root_is_a_tree :
  Node_Type loadedRoot.1 = NTDir.
Proof. by_running. Qed.

(** [Add] of a file at [b], which holds a directory. *)
Lemma Tree_Add_over_directory_fails_witness :
  PrivateLinks_Get (t_links withB.1.2) "b" = Some linkB
  ∧ LoadNode (link_Name linkB) (link_Cid linkB) (link_Key linkB) withB.2
    = Ok (NTree treeB) withB.2
  ∧ Tree_Add ["b"] (SrcBytes [x68; x69]) withB.1.2 withB.2
    = Err (ErrNew "directories don't support updating") withB.2.
Proof.
  assert (L : ensureLinks withB.1.2 withB.2 = Ok withB.1.2 withB.2) by by_running.
  assert (G : PrivateLinks_Get (t_links withB.1.2) "b" = Some linkB) by by_running.
  assert (N : LoadNode (link_Name linkB) (link_Cid linkB) (link_Key linkB) withB.2
              = Ok (NTree treeB) withB.2) by by_running.
  split; [exact G|]. split; [exact N|].
  exact (Tree_Add_over_directory_fails "b" (SrcBytes [x68; x69]) withB.1.2 withB.1.2
           withB.2 linkB treeB L G N).
Defined.

(** [Put] of the root as a node. *)
Lemma Put_advances_the_ratchet_once_witness :
  Node_Put (NTree withAB.1.2) withAB.2 = Ok (putAB.1.1, NTree putAB.1.2) putAB.2
  ∧ ∃ r, Node_Ratchet (NTree withAB.1.2) = Some r
         ∧ Node_Ratchet (NTree putAB.1.2) = Some (ratchet_Inc r)
         ∧ pr_Key putAB.1.1 = ratchet_Key (ratchet_Inc r).
Proof.
  assert (E : Node_Put (NTree withAB.1.2) withAB.2
              = Ok (putAB.1.1, NTree putAB.1.2) putAB.2) by by_running.
  split; [exact E|].
  destruct (Put_advances_the_ratchet_once (NTree withAB.1.2) withAB.2 putAB.1.1
              (NTree putAB.1.2) putAB.2 E)
    as (r & knf & H1 & H2 & H3 & _).
  exists r. exact (conj H1 (conj H2 H3)).
Defined.

(** [Decode] of three bytes into the empty key. *)
Lemma Key_Decode_overwrites_a_prefix_witness :
  length EmptyKey = 32%nat
  ∧ Key_Decode (inr [x01; x02; x03]) EmptyKey
    = Some (None, [x01; x02; x03] ++ drop 3 EmptyKey).
Proof.
  assert (L : length EmptyKey = 32%nat) by reflexivity.
  split; [exact L|].
  refine (proj1 (Key_Decode_overwrites_a_prefix EmptyKey L) [x01; x02; x03] _).
  cbn. lia.
Defined.

(** [Add] of the file [f] to a fresh root, and [Get] of it. *)
Lemma Tree_Add_then_Get_witness :
  Tree_Add ["f"] (SrcBytes [x68; x69]) fresh.1 fresh.2
  = Ok (withF.1.1, withF.1.2) withF.2
  ∧ ∃ link h,
      PrivateLinks_Get (t_links withF.1.2) "f" = Some link
      ∧ link_Size link = 2
      ∧ loadHeader (link_Key link) (link_Cid link) withF.2 = Ok h withF.2
      ∧ hi_Size (h_Info h) = 2
      ∧ hi_Type (h_Info h) = NTFile.
Proof.
  assert (E : Tree_Add ["f"] (SrcBytes [x68; x69]) fresh.1 fresh.2
              = Ok (withF.1.1, withF.1.2) withF.2) by by_running.
  assert (G : PrivateLinks_Get (t_links withF.1.2) "f" = Some linkF) by by_running.
  assert (C : link_Cid linkF ≠ t_cid withF.1.2) by by_deciding.
  assert (F : ∀ link, PrivateLinks_Get (t_links withF.1.2) "f" = Some link →
                      link_Cid link ≠ t_cid withF.1.2).
  { intros link H. rewrite G in H. injection H as <-. exact C. }
  assert (Hn : "f" ≠ "") by discriminate.
  split; [exact E|].
  destruct (Tree_Add_then_Get "f" [x68; x69] fresh.1 withF.1.2 withF.1.1 fresh.2
              withF.2 Hn E F)
    as (link & h & r & H1 & _ & H2 & _ & H3 & H4 & H5 & _).
  exists link, h. exact (conj H1 (conj H2 (conj H3 (conj H4 H5)))).
Defined.

Example Tree_Add_then_Get_is_a_file :
  seenFile (see (Tree_Get ["f"] withF.1.2 withF.2)) = true.
Proof. by_running. Qed.

(** [Mkdir [a]] on the root in which [a] holds the file [x]. *)
Lemma Tree_Mkdir_over_a_linked_name_drops_its_links_witness :
  PrivateLinks_Get (t_links withAX.1.2) "a" = Some linkA
  ∧ Tree_Mkdir ["a"] withAX.1.2 withAX.2 = Ok (again.1.1, again.1.2) again.2
  ∧ link_Size linkA = 2
  ∧ ∃ cres : PutResult,
      PrivateLinks_Get (t_links again.1.2) "a" = Some (ToPrivateLink cres "a")
      ∧ pr_Size cres = 0.
Proof.
  assert (L : ensureLinks withAX.1.2 withAX.2 = Ok withAX.1.2 withAX.2) by by_running.
  assert (G : PrivateLinks_Get (t_links withAX.1.2) "a" = Some linkA) by by_running.
  assert (E : Tree_Mkdir ["a"] withAX.1.2 withAX.2 = Ok (again.1.1, again.1.2) again.2)
    by by_running.
  assert (S2 : link_Size linkA = 2) by by_running.
  split; [exact G|]. split; [exact E|]. split; [exact S2|].
  destruct (Tree_Mkdir_over_a_linked_name_drops_its_links "a" withAX.1.2 withAX.1.2
              again.1.2 linkA again.1.1 withAX.2 again.2 L G E)
    as (child & child' & cres & w1 & _ & _ & H1 & H2 & _).
  exists cres. exact (conj H1 H2).
Defined.

(** [Mkdir [a]] on the root with [b]: [b] stays as it was. *)
Lemma single_name_mutations_keep_the_other_links_witness :
  Tree_Mkdir ["a"] withB.1.2 withB.2 = Ok (withAB.1.1, withAB.1.2) withAB.2
  ∧ PrivateLinks_Get (t_links withAB.1.2) "b" = PrivateLinks_Get (t_links withB.1.2) "b".
Proof.
  assert (L : ensureLinks withB.1.2 withB.2 = Ok withB.1.2 withB.2) by by_running.
  assert (E : Tree_Mkdir ["a"] withB.1.2 withB.2 = Ok (withAB.1.1, withAB.1.2) withAB.2)
    by by_running.
  assert (Hn : "b" ≠ "a") by discriminate.
  split; [exact E|].
  exact (proj1 (proj2 (single_name_mutations_keep_the_other_links "a" "b" withB.1.2
                         withB.1.2 withB.2 Hn L))
           withAB.1.1 withAB.1.2 withAB.2 E).
Defined.

(** [Add] of three bytes at [f], which holds a file of two. *)
Lemma Tree_Add_over_a_file_keeps_its_identity_witness :
  LoadNode (link_Name linkF) (link_Cid linkF) (link_Key linkF) withF.2
  = Ok (NFile fileF) withF.2
  ∧ Tree_Add ["f"] (SrcBytes [x62; x79; x65]) withF.1.2 withF.2
    = Ok (rewritten.1.1, rewritten.1.2) rewritten.2
  ∧ File_Size fileF = 2
  ∧ ∃ (cres : PutResult) (pf' : File),
      PrivateLinks_Get (t_links rewritten.1.2) "f" = Some (ToPrivateLink cres "f")
      ∧ File_INumber pf' = File_INumber fileF
      ∧ pr_Size cres = 3.
Proof.
  assert (L : ensureLinks withF.1.2 withF.2 = Ok withF.1.2 withF.2) by by_running.
  assert (G : PrivateLinks_Get (t_links withF.1.2) "f" = Some linkF) by by_running.
  assert (N : LoadNode (link_Name linkF) (link_Cid linkF) (link_Key linkF) withF.2
              = Ok (NFile fileF) withF.2) by by_running.
  assert (E : Tree_Add ["f"] (SrcBytes [x62; x79; x65]) withF.1.2 withF.2
              = Ok (rewritten.1.1, rewritten.1.2) rewritten.2) by by_running.
  assert (S2 : File_Size fileF = 2) by by_running.
  split; [exact N|]. split; [exact E|]. split; [exact S2|].
  destruct (Tree_Add_over_a_file_keeps_its_identity "f" [x62; x79; x65] withF.1.2
              withF.1.2 rewritten.1.2 withF.2 rewritten.2 linkF fileF rewritten.1.1
              L G N E)
    as (cres & pf' & w1 & r & _ & H1 & H2 & _ & _ & _ & _ & H3 & _).
  exists cres, pf'. exact (conj H1 (conj H2 H3)).
Defined.
